(** * cnns/train.py: dataset loading and the training loop

    A shallow embedding of [load_dataset], [train_model] and the entry point
    of [cnns/train.py].  Python floats are IEEE binary64 numbers and are
    modelled by Rocq's primitive floats; Python exceptions are modelled by an
    error monad; tensors live in a store so that the aliasing between the
    model's parameters and [state_dict()] is visible. *)

From Stdlib Require Import ZArith List Ascii String Bool Floats Lia DecimalString.
From Stdlib Require DecimalZ.
Import ListNotations.

Set Implicit Arguments.
Set Warnings "-inexact-float,-register-all".

Open Scope Z_scope.

(** ** Python exceptions *)

Module Py.

Inductive exn : Type :=
| NotImplementedError (msg : string)
| TypeError (msg : string)
| ZeroDivisionError (msg : string)
| KeyError (msg : string)
| RuntimeError (msg : string)
| OSError (msg : string)
| ValueError (msg : string)
| OverflowError (msg : string).

Inductive result (A : Type) : Type :=
| Ok (a : A)
| Raise (e : exn).

Arguments Ok {A} a.
Arguments Raise {A} e.

Definition bind {A B : Type} (m : result A) (k : A -> result B) : result B :=
  match m with
  | Ok a => k a
  | Raise e => Raise e
  end.

Definition is_ok {A : Type} (m : result A) : bool :=
  match m with Ok _ => true | Raise _ => false end.

(** The value of a computation that did not raise. *)
Definition value {A : Type} (default : A) (m : result A) : A :=
  match m with Ok a => a | Raise _ => default end.

End Py.

Import Py.

Notation "x <- m ;; k" := (Py.bind m (fun x => k))
  (at level 61, m at next level, right associativity).
Notation "' p <- m ;; k" := (Py.bind m (fun x => let p := x in k))
  (at level 61, p pattern, m at next level, right associativity).

(** ** Phases *)

Inductive phase : Type := train | val.

Definition phase_eqb (p q : phase) : bool :=
  match p, q with
  | train, train | val, val => true
  | _, _ => false
  end.

(** A Python dict with exactly the keys ["train"] and ["val"]. *)
Record per_phase (A : Type) : Type := PerPhase { at_train : A; at_val : A }.

Definition get {A : Type} (d : per_phase A) (p : phase) : A :=
  match p with train => at_train d | val => at_val d end.

Definition set {A : Type} (d : per_phase A) (p : phase) (a : A) : per_phase A :=
  match p with
  | train => PerPhase a (at_val d)
  | val => PerPhase (at_train d) a
  end.

(** ** [load_dataset] *)

Module Loader.

(** The torchvision transforms that [load_dataset] composes. *)
Inductive transform : Type :=
| CenterCrop (size : Z)
| Resize (size : Z)
| RandomHorizontalFlip
| ToTensor
| Normalize (mean std : list float).

Definition Compose (ts : list transform) : list transform := ts.

Definition normalize : transform :=
  Normalize [0.485; 0.456; 0.406]%float [0.229; 0.224; 0.225]%float.

(** Lines 28-31: the crop preset chosen by the imagery type. *)
Definition sat_transforms (sat_type : string) : list transform :=
  if String.eqb sat_type "s1"
  then [CenterCrop 300; Resize 224]
  else [CenterCrop 100; Resize 224].

(** Lines 32-44. *)
Definition data_transforms (sat_type : string) : per_phase (list transform) :=
  {| at_train := Compose (sat_transforms sat_type
                          ++ [RandomHorizontalFlip; ToTensor; normalize]);
     at_val := Compose (sat_transforms sat_type ++ [ToTensor; normalize]) |}.

(** The two dataset classes imported from the [data] module. *)
Inductive dataset_class : Type := BangladeshDataset | IndiaDataset.

(** The keyword arguments of a dataset adapter's constructor. *)
Record adapter_args : Type := AdapterArgs {
  csv_file : string;
  root_dir : string;
  label : string;
  transform_ : list transform;
  sat_type_ : string;
  year_ : Z;
  frac : float
}.

Record DataLoader (dataset : Type) : Type := MkDataLoader {
  dl_dataset : dataset;
  dl_batch_size : Z;
  dl_num_workers : Z;
  dl_shuffle : bool
}.

Section LoadDataset.

(** The dataset adapters are external: a constructor that may raise and
    a length. *)
Variable dataset : Type.
Variable construct : dataset_class -> adapter_args -> result dataset.
Variable len : dataset -> Z.

(** Every adapter construction is recorded, in call order. *)
Definition calls : Type := list (dataset_class * adapter_args).

Definition loaded : Type :=
  (per_phase (DataLoader dataset) * per_phase Z)%type.

(** Lines 46-51. *)
Definition select_class (country : string) : result dataset_class :=
  if String.eqb country "bangladesh" then Ok BangladeshDataset
  else if String.eqb country "india" then Ok IndiaDataset
  else Raise (NotImplementedError "Only Bangladesh and India supported.").

Definition new_dataset (cls : dataset_class) (args : adapter_args)
           (log : calls) : result dataset * calls :=
  (construct cls args, log ++ [(cls, args)]).

Definition load_dataset
           (train_csv_path val_csv_path train_data_dir val_data_dir : string)
           (country label : string) (sat_type : string) (year : Z)
           (batch_size : Z) (train_frac : float)
  : result loaded * calls :=
  let data_transforms := data_transforms sat_type in
  match select_class country with
  | Raise e => (Raise e, [])
  | Ok cls =>
    let train_args :=
      AdapterArgs train_csv_path train_data_dir label
                  (get data_transforms train) sat_type year train_frac in
    let val_args :=
      AdapterArgs val_csv_path val_data_dir label
                  (get data_transforms val) sat_type year train_frac in
    match new_dataset cls train_args [] with
    | (Raise e, log) => (Raise e, log)
    | (Ok train_dataset, log) =>
      match new_dataset cls val_args log with
      | (Raise e, log) => (Raise e, log)
      | (Ok val_dataset, log) =>
        let image_datasets := PerPhase train_dataset val_dataset in
        let dataloaders :=
          PerPhase (MkDataLoader (get image_datasets train) batch_size 8 true)
                   (MkDataLoader (get image_datasets val) batch_size 8 false) in
        let dataset_sizes :=
          PerPhase (len (get image_datasets train))
                   (len (get image_datasets val)) in
        (Ok (dataloaders, dataset_sizes), log)
      end
    end
  end.

End LoadDataset.

End Loader.


(** ** Tensors, Python lists and the tensor store *)

Module Torch.

(** A dense array of floats: its shape and its elements in row-major order. *)
Record ndarray : Type := NdArray { shape : list nat; elems : list float }.

(** [Tensor.squeeze()]: every dimension of size one is removed.  The tensor
    library of [Variable] and [loss.data[0]] has no tensor without a
    dimension: a tensor of a single element squeezes to shape [[1]]. *)
Definition squeeze (t : ndarray) : ndarray :=
  {| shape := match filter (fun d => negb (Nat.eqb d 1)) (shape t) with
              | [] => [1%nat]
              | dims => dims
              end;
     elems := elems t |}.

(** What [tolist()] returns: a Python float for a zero-dimensional array,
    nested Python lists otherwise. *)
Inductive pyval : Type :=
| PyFloat (x : float)
| PyList (xs : list pyval).

Fixpoint pieces {A : Type} (n k : nat) (xs : list A) : list (list A) :=
  match n with
  | O => []
  | S n' => firstn k xs :: pieces n' k (skipn k xs)
  end.

Fixpoint tolist_rec (dims : list nat) (xs : list float) : pyval :=
  match dims with
  | [] => PyFloat (hd nan xs)
  | d :: dims' =>
    PyList (map (tolist_rec dims') (pieces d (fold_right Nat.mul 1%nat dims') xs))
  end.

Definition tolist (t : ndarray) : pyval := tolist_rec (shape t) (elems t).

(** [xs += v] on a Python list: [v] must be iterable. *)
Definition iadd (xs : list pyval) (v : pyval) : result (list pyval) :=
  match v with
  | PyList ys => Ok (xs ++ ys)
  | PyFloat _ => Raise (TypeError "'float' object is not iterable")
  end.

(** [inputs.size(0)]: the number of samples of a batch. *)
Definition size0 (t : ndarray) : nat := hd 0%nat (shape t).

(** Python's [float(n)] for an integer [n], correctly rounded. *)
Definition float_of_int (z : Z) : float :=
  SF2Prim (binary_normalize prec emax z 0 false).

(** Python's true division of a float by an integer: the integer is
    converted to a float first, which fails when it is out of range. *)
Definition truediv (x : float) (n : Z) : result float :=
  if n =? 0 then Raise (ZeroDivisionError "float division by zero")
  else if is_infinity (float_of_int n)
       then Raise (OverflowError "int too large to convert to float")
       else Ok (x / float_of_int n)%float.

Inductive device : Type := CPU | CUDA.

Definition device_eqb (d e : device) : bool :=
  match d, e with
  | CPU, CPU | CUDA, CUDA => true
  | _, _ => false
  end.

(** A tensor object: its contents and the device that holds them. *)
Record tensor : Type := Tensor { t_data : ndarray; t_dev : device }.

(** The tensor objects of the process.  Addresses below [next] are in use. *)
Record store : Type := Store { cell : nat -> tensor; next : nat }.

Definition alloc (t : tensor) (s : store) : nat * store :=
  (next s,
   {| cell := fun a => if Nat.eqb a (next s) then t else cell s a;
      next := S (next s) |}).

(** An in-place update of a tensor's contents ([copy_], [add_], ...). *)
Definition write (a : nat) (d : ndarray) (s : store) : store :=
  {| cell := fun a' =>
               if Nat.eqb a' a then {| t_data := d; t_dev := t_dev (cell s a) |}
               else cell s a';
     next := next s |}.

Definition read (s : store) (a : nat) : ndarray := t_data (cell s a).

(** [Tensor.cpu()] and [Tensor.cuda()]: the tensor itself when it already is
    on the device, a fresh copy otherwise. *)
Definition tensor_to (dev : device) (a : nat) (s : store) : nat * store :=
  if device_eqb (t_dev (cell s a)) dev then (a, s)
  else alloc {| t_data := read s a; t_dev := dev |} s.

(** A parameter object: the tensor its [.data] points to, and its flag. *)
Record Param : Type := MkParam { p_data : nat; requires_grad : bool }.

(** A network with a head: [parameters()] lists the body's parameters, then
    those of the last layer [fc]. *)
Record module : Type := Module_ {
  body : list Param;
  fc : list Param;
  training : bool
}.

Definition parameters (m : module) : list Param := body m ++ fc m.

(** [Module.state_dict()]: the tensors the parameters point to, not copies. *)
Definition state_dict (m : module) : list nat := map p_data (parameters m).

Definition param_values (s : store) (m : module) : list ndarray :=
  map (read s) (state_dict m).

(** [Module._apply(fn)]: [param.data = fn(param.data)] for every parameter. *)
Fixpoint apply_params (fn : nat -> store -> nat * store)
         (ps : list Param) (s : store) : list Param * store :=
  match ps with
  | [] => ([], s)
  | p :: ps' =>
    let (a, s1) := fn (p_data p) s in
    let (qs, s2) := apply_params fn ps' s1 in
    ({| p_data := a; requires_grad := requires_grad p |} :: qs, s2)
  end.

Definition module_to (dev : device) (m : module) (s : store) : module * store :=
  let (b, s1) := apply_params (tensor_to dev) (body m) s in
  let (f, s2) := apply_params (tensor_to dev) (fc m) s1 in
  ({| body := b; fc := f; training := training m |}, s2).

Definition module_train (mode : bool) (m : module) : module :=
  {| body := body m; fc := fc m; training := mode |}.

(** [Module.load_state_dict(sd)]: [own.copy_(param)] entry by entry. *)
Fixpoint copy_all (own sd : list nat) (s : store) : store :=
  match own, sd with
  | a :: own', b :: sd' => copy_all own' sd' (write a (read s b) s)
  | _, _ => s
  end.

Definition load_state_dict (m : module) (sd : list nat) (s : store) : store :=
  copy_all (state_dict m) sd s.

End Torch.


(** ** [train_model] *)

Module Train.

Import Torch.

Fixpoint foldM {A B : Type} (f : A -> B -> result A) (xs : list B) (a : A)
  : result A :=
  match xs with
  | [] => Ok a
  | x :: xs' => a' <- f a x ;; foldM f xs' a'
  end.

(** Python's [range(a, b)]. *)
Definition range (a b : Z) : list Z :=
  map (fun i => a + Z.of_nat i) (seq 0 (Z.to_nat (b - a))).

(** What is written to a file. *)
Inductive content : Type :=
| NpyList (xs : list pyval)
| NpyArray (xs : list float)
| StateDict (ws : list ndarray).

(** A file below [~/predicting-poverty/models/]: run directory, optional
    per-epoch subdirectory ([EmptyString] for none) and file name, each taken
    as a single name, so that different records are different files.  The
    file name that [os.path.join] makes of a record is its
    [Observations.location]. *)
Record path : Type := Path { p_run : string; p_sub : string; p_file : string }.

Definition path_eqb (p q : path) : bool :=
  String.eqb (p_run p) (p_run q) && String.eqb (p_sub p) (p_sub q)
  && String.eqb (p_file p) (p_file q).

(** The files written so far, the latest write first. *)
Definition filesystem : Type := list (path * content).

Definition save (p : path) (c : content) (fs : filesystem) : filesystem :=
  (p, c) :: fs.

Fixpoint load (p : path) (fs : filesystem) : option content :=
  match fs with
  | [] => None
  | (q, c) :: fs' => if path_eqb p q then Some c else load p fs'
  end.

(** Python's [str(n)] for an integer. *)
Definition str (n : Z) : string := DecimalString.NilZero.string_of_int (Z.to_int n).

Definition phase_name (ph : phase) : string :=
  match ph with train => "train" | val => "val" end.

Record batch (image_batch : Type) : Type := Batch {
  b_inputs : image_batch;
  b_labels : ndarray
}.

(** An optimizer: the parameters it was given (their positions in
    [model.parameters()]) and its own state, which includes the learning rate
    the scheduler acts on. *)
Record optimizer (opt_state : Type) : Type := Optimizer {
  group : list nat;
  o_state : opt_state
}.

(** The objects [train_model] acts on. *)
Record world (opt_state : Type) : Type := World {
  st : store;
  model : module;
  opt : optimizer opt_state;
  fs : filesystem
}.

(** The per-phase accumulators of lines 121-128. *)
Record running : Type := Running {
  y_true : list pyval;
  y_pred : list pyval;
  running_loss : float
}.

(** The local variables of [train_model] that outlive an epoch. *)
Record locals (opt_state : Type) : Type := Locals {
  w : world opt_state;
  best_model_wts : list nat;
  best_r2 : float;
  best_y_pred : list pyval;
  best_y_true : list pyval;
  losses : per_phase (list float);
  r2s : per_phase (list float)
}.

Section TrainModel.

(** The module-level flag of line 21. *)
Variable use_gpu : bool.

(** The framework's side: the network's forward pass in the given mode, the
    loss, the optimizer's update of one parameter from a backward pass over a
    batch, the plateau scheduler acting on the optimizer, and sklearn's
    [r2_score], which raises on input it does not accept. *)
Variable image_batch : Type.
Variable forward : bool -> list ndarray -> image_batch -> ndarray.
Variable criterion : ndarray -> ndarray -> float.
Variable opt_state : Type.
Variable descend : opt_state -> list ndarray -> batch image_batch -> nat -> ndarray.
Variable advance : opt_state -> list ndarray -> batch image_batch -> opt_state.
Variable plateau : float -> opt_state -> opt_state.
Variable r2_score : list pyval -> list pyval -> result float.

(** A data loader yields the batches of an epoch. *)
Variable loader : Type.
Variable iterate : loader -> Z -> list (batch image_batch).

(** [optimizer.step()] after [loss.backward()]: every parameter of the
    optimizer's group is updated in place. *)
Definition optimizer_step (o : optimizer opt_state) (data : batch image_batch)
           (m : module) (s : store) : store * optimizer opt_state :=
  let vals := param_values s m in
  let s' :=
    fold_left
      (fun s0 j =>
         match nth_error (state_dict m) j with
         | Some a => write a (descend (o_state o) vals data j) s0
         | None => s0
         end)
      (group o) s in
  (s', {| group := group o; o_state := advance (o_state o) vals data |}).

(** Lines 130-156: one batch. *)
Definition batch_step (ph : phase) (acc : world opt_state * running)
           (data : batch image_batch) : result (world opt_state * running) :=
  let (w0, r) := acc in
  let inputs := b_inputs data in
  let labels := b_labels data in
  y_true' <- iadd (y_true r) (tolist labels) ;;
  let outputs := forward (training (model w0)) (param_values (st w0) (model w0)) inputs in
  let preds := outputs in
  let loss := criterion outputs labels in
  y_pred' <- iadd (y_pred r) (tolist (squeeze preds)) ;;
  let w1 :=
    if phase_eqb ph train
    then let (s', o') := optimizer_step (opt w0) data (model w0) (st w0) in
         {| st := s'; model := model w0; opt := o'; fs := fs w0 |}
    else w0 in
  Ok (w1, {| y_true := y_true'; y_pred := y_pred';
             running_loss := (running_loss r + loss)%float |}).

(** Lines 95-112. *)
Definition save_logs (model_name : string) (epoch_no : option Z)
           (l : locals opt_state) : locals opt_state :=
  let epoch_prefix :=
    match epoch_no with
    | Some e => if e =? 0 then EmptyString else str e
    | None => EmptyString
    end in
  let basedir := Path model_name epoch_prefix in
  let w0 := w l in
  let fs1 := save (basedir "y_pred.npy"%string) (NpyList (best_y_pred l)) (fs w0) in
  let fs2 := save (basedir "y_true.npy"%string) (NpyList (best_y_true l)) fs1 in
  let fs3 :=
    fold_left
      (fun f k => save (basedir ("losses_" ++ phase_name k ++ ".npy")%string)
                       (NpyArray (get (losses l) k)) f)
      [train; val] fs2 in
  let fs4 :=
    fold_left
      (fun f k => save (basedir ("rsq_" ++ phase_name k ++ ".npy")%string)
                       (NpyArray (get (r2s l) k)) f)
      [train; val] fs3 in
  let fs5 := save (basedir "saved_model.model"%string)
                  (StateDict (param_values (st w0) (model w0))) fs4 in
  {| w := {| st := st w0; model := model w0; opt := opt w0; fs := fs5 |};
     best_model_wts := best_model_wts l; best_r2 := best_r2 l;
     best_y_pred := best_y_pred l; best_y_true := best_y_true l;
     losses := losses l; r2s := r2s l |}.

(** Lines 166-176: the scheduler step and the best-so-far bookkeeping. *)
Definition after_val (epoch_r2 : float) (r : running) (l : locals opt_state)
  : locals opt_state :=
  let w0 := w l in
  let o := {| group := group (opt w0);
              o_state := plateau (last (get (losses l) val) 0%float)
                                 (o_state (opt w0)) |} in
  if (best_r2 l <? epoch_r2)%float then
    let (m1, s1) :=
      if use_gpu then module_to CPU (model w0) (st w0) else (model w0, st w0) in
    let wts := state_dict m1 in
    let (m2, s2) := if use_gpu then module_to CUDA m1 s1 else (m1, s1) in
    {| w := {| st := s2; model := m2; opt := o; fs := fs w0 |};
       best_model_wts := wts; best_r2 := epoch_r2;
       best_y_pred := y_pred r; best_y_true := y_true r;
       losses := losses l; r2s := r2s l |}
  else
    {| w := {| st := st w0; model := model w0; opt := o; fs := fs w0 |};
       best_model_wts := best_model_wts l; best_r2 := best_r2 l;
       best_y_pred := best_y_pred l; best_y_true := best_y_true l;
       losses := losses l; r2s := r2s l |}.

(** Lines 121-128: the mode switch and the fresh accumulators. *)
Definition enter_phase (ph : phase) (w0 : world opt_state)
  : world opt_state * running :=
  ({| st := st w0; model := module_train (phase_eqb ph train) (model w0);
      opt := opt w0; fs := fs w0 |},
   {| y_true := []; y_pred := []; running_loss := 0%float |}).

(** Lines 158-162: the epoch metrics of a phase are appended. *)
Definition record_metrics (ph : phase) (epoch_loss epoch_r2 : float)
           (w1 : world opt_state) (l : locals opt_state) : locals opt_state :=
  {| w := w1;
     best_model_wts := best_model_wts l; best_r2 := best_r2 l;
     best_y_pred := best_y_pred l; best_y_true := best_y_true l;
     losses := set (losses l) ph (get (losses l) ph ++ [epoch_loss]);
     r2s := set (r2s l) ph (get (r2s l) ph ++ [epoch_r2]) |}.

(** Lines 120-179: one phase of one epoch. *)
Definition run_phase (dataloaders : per_phase loader) (dataset_sizes : per_phase Z)
           (model_name : string) (verbose : bool) (log_epoch_interval : Z)
           (epoch : Z) (l : locals opt_state) (ph : phase)
  : result (locals opt_state) :=
  '(w1, r) <- foldM (batch_step ph) (iterate (get dataloaders ph) epoch)
                    (enter_phase ph (w l)) ;;
  epoch_loss <- truediv (running_loss r) (get dataset_sizes ph) ;;
  epoch_r2 <- r2_score (y_true r) (y_pred r) ;;
  let l1 := record_metrics ph epoch_loss epoch_r2 w1 l in
  let l2 := if phase_eqb ph val then after_val epoch_r2 r l1 else l1 in
  if verbose then
    if log_epoch_interval =? 0
    then Raise (ZeroDivisionError "integer division or modulo by zero")
    else if epoch mod log_epoch_interval =? 0
         then Ok (save_logs model_name (Some epoch) l2)
         else Ok l2
  else Ok l2.

Definition run_epoch (dataloaders : per_phase loader) (dataset_sizes : per_phase Z)
           (model_name : string) (verbose : bool) (log_epoch_interval : Z)
           (l : locals opt_state) (epoch : Z) : result (locals opt_state) :=
  foldM (run_phase dataloaders dataset_sizes model_name verbose
                   log_epoch_interval epoch)
        [train; val] l.

(** Lines 85-91. *)
Definition init_locals (w0 : world opt_state) : locals opt_state :=
  {| w := w0;
     best_model_wts := state_dict (model w0);
     best_r2 := neg_infinity;
     best_y_pred := []; best_y_true := [];
     losses := PerPhase [] []; r2s := PerPhase [] [] |}.

(** Lines 114-179: the epoch loop. *)
Definition run_epochs (dataloaders : per_phase loader) (dataset_sizes : per_phase Z)
           (model_name : string) (num_epochs : Z) (verbose : bool)
           (log_epoch_interval : Z) (l : locals opt_state)
  : result (locals opt_state) :=
  foldM (run_epoch dataloaders dataset_sizes model_name verbose log_epoch_interval)
        (range 1 (num_epochs + 1)) l.

(** Lines 186-189. *)
Definition finish (model_name : string) (l : locals opt_state) : locals opt_state :=
  let l1 := save_logs model_name None l in
  let w1 := w l1 in
  let (m, s) := module_to CPU (model w1) (st w1) in
  let s' := load_state_dict m (best_model_wts l1) s in
  {| w := {| st := s'; model := m; opt := opt w1; fs := fs w1 |};
     best_model_wts := best_model_wts l1; best_r2 := best_r2 l1;
     best_y_pred := best_y_pred l1; best_y_true := best_y_true l1;
     losses := losses l1; r2s := r2s l1 |}.

(** [train_model]: the returned model is [model (w _)] of the result, read in
    the store [st (w _)]. *)
Definition train_model (w0 : world opt_state)
           (dataloaders : per_phase loader) (dataset_sizes : per_phase Z)
           (model_name : string) (num_epochs : Z) (verbose : bool)
           (log_epoch_interval : Z) : result (locals opt_state) :=
  l <- run_epochs dataloaders dataset_sizes model_name num_epochs verbose
                  log_epoch_interval (init_locals w0) ;;
  Ok (finish model_name l).

End TrainModel.

End Train.


(** ** The entry point *)

Module Main.

Import Torch Train Loader.

(** The parsed command line. *)
Record args : Type := Args {
  name : option string;
  epochs : Z;
  country : string;
  sat_type : string;
  year : Z;
  label : string;
  train_frac : float;
  lr : float;
  weight_decay : float;
  batch_size : Z;
  log_epoch_interval : Z;
  preload_model : option string;
  data_subdir : option string;
  fine_tune : bool;
  verbose : bool
}.

(** Truth value of an optional string: [None] and the empty string are false. *)
Definition truthy (o : option string) : bool :=
  match o with
  | Some s => negb (String.eqb s "")
  | None => false
  end.

(** ["{}".format(o)]. *)
Definition format (o : option string) : string :=
  match o with Some s => s | None => "None"%string end.

(** [s.replace(" ", "_")]. *)
Fixpoint underscores (s : string) : string :=
  match s with
  | EmptyString => EmptyString
  | String c s' =>
    String (if Ascii.eqb c " "%char then "_"%char else c) (underscores s')
  end.

Definition shape_eqb (d e : list nat) : bool :=
  Nat.eqb (List.length d) (List.length e) && forallb (fun p => Nat.eqb (fst p) (snd p)) (combine d e).

Definition empty_store : store :=
  {| cell := fun _ => {| t_data := NdArray [] []; t_dev := CPU |}; next := 0 |}.

(** Fresh trainable parameters holding the given values. *)
Fixpoint new_params (dev : device) (vals : list ndarray) (s : store)
  : list Param * store :=
  match vals with
  | [] => ([], s)
  | v :: vals' =>
    let (a, s1) := alloc {| t_data := v; t_dev := dev |} s in
    let (ps, s2) := new_params dev vals' s1 in
    ({| p_data := a; requires_grad := true |} :: ps, s2)
  end.

(** [load_state_dict] of a dict read from a file: the keys must be the
    model's and every shape must agree. *)
Fixpoint copy_values (own : list nat) (ws : list ndarray) (s : store)
  : result store :=
  match own, ws with
  | [], [] => Ok s
  | a :: own', v :: ws' =>
    if shape_eqb (shape (read s a)) (shape v)
    then copy_values own' ws' (write a v s)
    else Raise (RuntimeError "While copying the parameter: dimensions differ")
  | [], _ :: _ => Raise (KeyError "unexpected key in state_dict")
  | _ :: _, [] => Raise (KeyError "missing keys in state_dict")
  end.

Definition freeze (ps : list Param) : list Param :=
  map (fun p => {| p_data := p_data p; requires_grad := false |}) ps.

Section EntryPoint.

Variable use_gpu : bool.
Variable home_dir : string.
Variable ctime : string.
Variable run_dir_exists : string -> bool.

(** The dataset adapters and the batches a loader yields in an epoch. *)
Variable dataset : Type.
Variable construct : dataset_class -> adapter_args -> result dataset.
Variable len : dataset -> Z.
Variable image_batch : Type.
Variable iterate : DataLoader dataset -> Z -> list (batch image_batch).

(** The network, loss, optimizer and metric, as in [Train]. *)
Variable forward : bool -> list ndarray -> image_batch -> ndarray.
Variable criterion : ndarray -> ndarray -> float.
Variable opt_state : Type.
Variable descend : opt_state -> list ndarray -> batch image_batch -> nat -> ndarray.
Variable advance : opt_state -> list ndarray -> batch image_batch -> opt_state.
Variable plateau : float -> opt_state -> opt_state.
Variable r2_score : list pyval -> list pyval -> result float.
Variable adam : float -> float -> opt_state.

(** The pretrained weights of the backbone and of its last layer, and the
    initial weight and bias of a new [nn.Linear(in, out)]. *)
Variable resnet18_body : list ndarray.
Variable resnet18_fc : list ndarray.
Variable linear_init : nat -> nat -> list ndarray.

(** Line 244. *)
Definition resnet18 : module * store :=
  let (b, s1) := new_params CPU resnet18_body empty_store in
  let (f, s2) := new_params CPU resnet18_fc s1 in
  ({| body := b; fc := f; training := true |}, s2).

(** Lines 246-249. *)
Definition preload (a : args) (files : filesystem) (m : module) (s : store)
  : result store :=
  if truthy (preload_model a) then
    match load (Path (format (preload_model a)) "" "saved_model.model") files with
    | Some (StateDict model_data) => copy_values (state_dict m) model_data s
    | Some _ => Raise (RuntimeError "not a serialized state_dict")
    | None => Raise (OSError "No such file or directory")
    end
  else Ok s.

(** Lines 251-256: the optional freeze and the new regression head. *)
Definition replace_head (a : args) (m : module) (s : store) : module * store :=
  let m1 :=
    if negb (fine_tune a)
    then {| body := freeze (body m); fc := freeze (fc m); training := training m |}
    else m in
  let num_ftrs :=
    match fc m1 with
    | weight :: _ => nth 1 (shape (read s (p_data weight))) 0%nat
    | [] => 0%nat
    end in
  let (head, s1) := new_params CPU (linear_init num_ftrs 1) s in
  ({| body := body m1; fc := head; training := training m1 |}, s1).

(** Lines 262-267: the parameters handed to the optimizer. *)
Definition params (a : args) (m : module) : list nat :=
  if fine_tune a
  then seq 0 (List.length (parameters m))
  else seq (List.length (body m)) (List.length (fc m)).

(** Lines 244-267: the model and the optimizer that [train_model] receives. *)
Definition build (a : args) (files : filesystem) : result (world opt_state) :=
  let (model_conv, s0) := resnet18 in
  s1 <- preload a files model_conv s0 ;;
  let (m2, s2) := replace_head a model_conv s1 in
  let (m3, s3) := if use_gpu then module_to CUDA m2 s2 else (m2, s2) in
  let optimizer_conv :=
    {| group := params a m3; o_state := adam (lr a) (weight_decay a) |} in
  Ok {| st := s3; model := m3; opt := optimizer_conv; fs := files |}.

(** Lines 216-221. *)
Definition model_name (a : args) : string :=
  if negb (truthy (name a))
  then (country a ++ "_" ++ sat_type a ++ "_" ++ str (year a) ++ "_"
        ++ underscores ctime)%string
  else format (name a).

(** Lines 214-277.  The result also carries the adapter constructions. *)
Definition main (a : args) (files : filesystem)
  : result (locals opt_state) * calls :=
  let model_name := model_name a in
  if run_dir_exists model_name then (Raise (OSError "File exists"), [])
  else
    let train_data_dir := (home_dir ++ "/imagery")%string in
    let val_data_dir := (home_dir ++ "/imagery")%string in
    let train_csv_path := ("../data/" ++ format (data_subdir a) ++ "/train.csv")%string in
    let val_csv_path := ("../data/" ++ format (data_subdir a) ++ "/valid.csv")%string in
    match load_dataset construct len train_csv_path val_csv_path
                       train_data_dir val_data_dir (country a) (label a)
                       (sat_type a) (year a) (batch_size a) (train_frac a) with
    | (Raise e, log) => (Raise e, log)
    | (Ok (dataloaders, dataset_sizes), log) =>
      (w0 <- build a files ;;
       l <- train_model use_gpu forward criterion descend advance plateau
                        r2_score iterate w0 dataloaders dataset_sizes
                        model_name (epochs a) (verbose a) (log_epoch_interval a) ;;
       let model_conv := model (w l) in
       let save_model_path := Path model_name "" "saved_model.model" in
       Ok {| w := {| st := st (w l); model := model_conv; opt := opt (w l);
                     fs := save save_model_path
                                (StateDict (param_values (st (w l)) model_conv))
                                (fs (w l)) |};
             best_model_wts := best_model_wts l; best_r2 := best_r2 l;
             best_y_pred := best_y_pred l; best_y_true := best_y_true l;
             losses := losses l; r2s := r2s l |},
       log)
    end.

End EntryPoint.

End Main.


(** ** A small instance: a linear head on a one-weight body

    The network predicts [fc_w * (body_w * x) + fc_b]; the loss is the mean
    squared error of a batch; every optimizer step adds one to each element
    of each parameter it owns. *)

Module Demo.

Import Torch Train Loader Main.

Local Open Scope float_scope.

Definition scalar (t : ndarray) : float := hd 0 (elems t).

Definition forward (mode : bool) (ws : list ndarray) (xs : list float) : ndarray :=
  let body_w := scalar (nth 0 ws (NdArray [] [])) in
  let fc_w := scalar (nth 1 ws (NdArray [] [])) in
  let fc_b := scalar (nth 2 ws (NdArray [] [])) in
  {| shape := [List.length xs; 1%nat];
     elems := map (fun x => fc_w * (body_w * x) + fc_b) xs |}.

Definition sum (xs : list float) : float := fold_left add xs 0.

(** [nn.MSELoss()]: the mean over the batch of the squared errors. *)
Definition criterion (outputs labels : ndarray) : float :=
  sum (map (fun p => (fst p - snd p) * (fst p - snd p))
           (combine (elems outputs) (elems labels)))
  / float_of_int (Z.of_nat (List.length (elems labels))).

Definition descend (_ : unit) (vals : list ndarray) (_ : batch (list float))
           (j : nat) : ndarray :=
  let old := nth j vals (NdArray [] []) in
  {| shape := shape old; elems := map (fun x => x + 1) (elems old) |}.

Definition advance (_ : unit) (_ : list ndarray) (_ : batch (list float)) : unit := tt.

Definition plateau (_ : float) (_ : unit) : unit := tt.

Definition floats (ys : list pyval) : list float :=
  map (fun y => match y with PyFloat x => x | PyList _ => nan end) ys.

(** The coefficient of determination, as [metrics.r2_score] gives it: a
    ValueError for lists of different lengths, for empty lists and for a
    value that is not finite; with labels that do not vary, 1 for exact
    predictions and 0 otherwise. *)
Definition r2_score (y_true y_pred : list pyval) : result float :=
  let t := floats y_true in
  let p := floats y_pred in
  if negb (Nat.eqb (List.length t) (List.length p))
  then Raise (ValueError "Found input variables with inconsistent numbers of samples")
  else if Nat.eqb (List.length t) 0
  then Raise (ValueError "Found array with 0 sample(s)")
  else if negb (forallb is_finite (t ++ p))
  then Raise (ValueError "Input contains NaN, infinity or a value too large")
  else
    let mean := sum t / float_of_int (Z.of_nat (List.length t)) in
    let ss_res :=
      sum (map (fun q => (fst q - snd q) * (fst q - snd q)) (combine t p)) in
    let ss_tot := sum (map (fun y => (y - mean) * (y - mean)) t) in
    if ss_res =? 0 then Ok 1
    else if ss_tot =? 0 then Ok 0
    else Ok (1 - ss_res / ss_tot).

(** A loader is the list of its batches, the same in every epoch. *)
Definition iterate (batches : list (batch (list float))) (_ : Z)
  : list (batch (list float)) := batches.

Definition vec (xs : list float) : ndarray :=
  {| shape := [List.length xs]; elems := xs |}.

(** Labels are [x + 1]. *)
Definition pair_batch : batch (list float) :=
  {| b_inputs := [0; -2]; b_labels := vec [1; -1] |}.

Definition dataloaders : per_phase (list (batch (list float))) :=
  {| at_train := [pair_batch]; at_val := [pair_batch; pair_batch] |}.

Definition dataset_sizes : per_phase Z := {| at_train := 2%Z; at_val := 4%Z |}.

Definition resnet18_body : list ndarray := [vec [1]].
Definition resnet18_fc : list ndarray := [NdArray [2%nat; 1%nat] [0.5; 0.5]; vec [0; 0]].

Definition linear_init (in_features out_features : nat) : list ndarray :=
  [NdArray [out_features; in_features] (repeat 0 (out_features * in_features));
   vec (repeat 0 out_features)].

Definition demo_args : args :=
  {| name := Some "demo"%string; epochs := 2; country := "india"; sat_type := "s1";
     year := 2015; label := "secc_cons_per_cap_scaled"; train_frac := 1;
     lr := 1e-5; weight_decay := 0; batch_size := 2; log_epoch_interval := 20;
     preload_model := None; data_subdir := None; fine_tune := false;
     verbose := false |}.

(** The world [train_model] starts from, as the entry point builds it. *)
Definition world0 (use_gpu : bool) : result (world unit) :=
  build use_gpu (fun _ _ => tt) resnet18_body resnet18_fc linear_init demo_args [].

Definition epochs_of (use_gpu : bool) (n : Z) : result (locals unit) :=
  w0 <- world0 use_gpu ;;
  run_epochs use_gpu forward criterion descend advance plateau r2_score iterate
             dataloaders dataset_sizes "demo" n false 20 (init_locals w0).

Definition trained (use_gpu : bool) : result (locals unit) :=
  w0 <- world0 use_gpu ;;
  train_model use_gpu forward criterion descend advance plateau r2_score iterate
              w0 dataloaders dataset_sizes "demo" 2 false 20.

(** Observations of a result. *)
Definition observe {A B : Type} (f : A -> B) (r : result A) : option B :=
  match r with Ok a => Some (f a) | Raise _ => None end.

Definition live_values (l : locals unit) : list ndarray :=
  param_values (st (w l)) (model (w l)).

Definition best_values (l : locals unit) : list ndarray :=
  map (read (st (w l))) (best_model_wts l).

(** The world and the locals of the runs above, as values. *)
Definition nowhere : world unit :=
  {| st := empty_store; model := Module_ [] [] true;
     opt := Optimizer [] tt; fs := [] |}.

Definition start (use_gpu : bool) : world unit := value nowhere (world0 use_gpu).

Definition after_epochs (use_gpu : bool) (n : Z) : locals unit :=
  value (init_locals nowhere) (epochs_of use_gpu n).

Definition final (use_gpu : bool) : locals unit :=
  value (init_locals nowhere) (trained use_gpu).

(** A validation phase run on its own, from the initial model on the GPU. *)
Definition first_val_phase : locals unit :=
  value (init_locals nowhere)
        (run_phase true forward criterion descend advance plateau r2_score
                   iterate dataloaders dataset_sizes "demo" false 20 1
                   (init_locals (start true)) val).

(** The per-batch mean losses of the validation batches under the current
    parameters, each with the size of its batch. *)
Definition val_batch_losses (l : locals unit) : list (float * nat) :=
  map (fun b => (criterion (forward false (live_values l) (b_inputs b)) (b_labels b),
                 size0 (b_labels b)))
      (get dataloaders val).

(** Three training samples in batches of two: the last batch has one. *)
Definition single_batch : batch (list float) :=
  {| b_inputs := [1]; b_labels := vec [2] |}.

Definition dataloaders_odd : per_phase (list (batch (list float))) :=
  {| at_train := [pair_batch; single_batch]; at_val := [pair_batch; pair_batch] |}.

Definition dataset_sizes_odd : per_phase Z := {| at_train := 3%Z; at_val := 4%Z |}.

(** Adapters for [load_dataset]: a dataset is its constructor's arguments. *)
Definition construct (_ : dataset_class) (a : adapter_args) : result adapter_args := Ok a.
Definition len (_ : adapter_args) : Z := 4%Z.

End Demo.


(** ** Reference definitions used to state the properties *)

Module Reference.

Import Torch Train.

(** The batch-size-weighted mean of per-batch mean losses: the sum over the
    batches of (batch mean loss times batch size), over the dataset size. *)
Definition weighted_mean_loss (batches : list (float * nat)) (dataset_size : Z)
  : float :=
  (fold_left (fun acc b => acc + fst b * float_of_int (Z.of_nat (snd b)))
             batches 0
   / float_of_int dataset_size)%float.

(** The sizes of the batches a [DataLoader] with the default
    [drop_last=False] cuts a dataset of [n] samples into. *)
Definition batch_sizes (n batch_size : nat) : list nat :=
  repeat batch_size (n / batch_size)
  ++ (if Nat.eqb (n mod batch_size) 0 then [] else [(n mod batch_size)%nat]).

(** The parameters named by a list of positions in [model.parameters()]. *)
Definition head_positions (m : module) : list nat :=
  seq (List.length (body m)) (List.length (fc m)).

Definition body_values (s : store) (m : module) : list ndarray :=
  map (read s) (map p_data (body m)).

(** A float that is not NaN: it compares equal to itself. *)
Definition number (x : float) : Prop := (x =? x)%float = true.

(** Addresses in use. *)
Definition allocated (s : store) (addrs : list nat) : Prop :=
  Forall (fun a => (a < next s)%nat) addrs.

(** Every tensor a module's parameters point to is allocated, and no two
    parameters share a tensor. *)
Definition well_formed (s : store) (m : module) : Prop :=
  NoDup (state_dict m) /\ allocated s (state_dict m).

(** After a move to another device every entry either is the tensor it was
    or is a tensor allocated at or above [n]. *)
Definition moved (n : nat) (old new : list nat) : Prop :=
  List.length old = List.length new
  /\ forall i a, nth_error new i = Some a ->
                 nth_error old i = Some a \/ (n <= a)%nat.

(** A saved state dict against the model's own: entry by entry, the saved
    tensor is the model's tensor or is no tensor of the model. *)
Definition compat (saved own : list nat) : Prop :=
  List.length saved = List.length own
  /\ forall i b, nth_error saved i = Some b ->
                 nth_error own i = Some b \/ ~ In b own.

(** What the training loop maintains, for the optimizer's group [g] and the
    parameter values [V] at the start: the store is well formed, the saved
    state dict is compatible with the model's, and every parameter outside
    the group holds its initial value, in the model and in the saved dict. *)
Definition invariant {opt_state : Type} (g : list nat) (nb : nat)
           (V : list ndarray) (best : list nat) (w0 : world opt_state) : Prop :=
  well_formed (st w0) (model w0)
  /\ allocated (st w0) best
  /\ compat best (state_dict (model w0))
  /\ group (opt w0) = g
  /\ List.length (body (model w0)) = nb
  /\ (forall i, ~ In i g ->
                nth_error (param_values (st w0) (model w0)) i = nth_error V i)
  /\ (forall i, ~ In i g ->
                nth_error (map (read (st w0)) best) i = nth_error V i).

End Reference.


(** ** What is observed of a run *)

Module Observations.

Import Torch Train Loader Main Reference.

(** The transforms that draw random numbers. *)
Definition randomized (t : transform) : bool :=
  match t with
  | RandomHorizontalFlip => true
  | _ => false
  end.

(** Line 97: the per-epoch subdirectory of a checkpoint. *)
Definition epoch_prefix (epoch_no : option Z) : string :=
  match epoch_no with
  | Some e => if e =? 0 then EmptyString else str e
  | None => EmptyString
  end.

(** The seven files of a checkpoint of [l], the latest write first. *)
Definition checkpoint {opt_state : Type} (model_name : string)
           (epoch_no : option Z) (l : locals opt_state) : filesystem :=
  let basedir := Path model_name (epoch_prefix epoch_no) in
  [(basedir "saved_model.model"%string,
    StateDict (param_values (st (w l)) (model (w l))));
   (basedir "rsq_val.npy"%string, NpyArray (get (r2s l) val));
   (basedir "rsq_train.npy"%string, NpyArray (get (r2s l) train));
   (basedir "losses_val.npy"%string, NpyArray (get (losses l) val));
   (basedir "losses_train.npy"%string, NpyArray (get (losses l) train));
   (basedir "y_true.npy"%string, NpyList (best_y_true l));
   (basedir "y_pred.npy"%string, NpyList (best_y_pred l))].

(** A single component of a file path: a name other than the empty one, "."
    and "..", without a separator.  [os.path.join] of such names gives a
    different file for a different list of names. *)
Fixpoint has_separator (s : string) : bool :=
  match s with
  | EmptyString => false
  | String c s' => Ascii.eqb c "/"%char || has_separator s'
  end.

Definition component (s : string) : bool :=
  negb (String.eqb s "") && negb (String.eqb s ".")
  && negb (String.eqb s "..") && negb (has_separator s).

(** A path whose run and file are single components, and whose subdirectory
    is one or is absent. *)
Definition plain (p : path) : bool :=
  component (p_run p)
  && (String.eqb (p_sub p) "" || component (p_sub p))
  && component (p_file p).

(** [str.startswith("/")] and [str.endswith("/")]. *)
Definition starts_with_separator (s : string) : bool :=
  match s with
  | EmptyString => false
  | String c _ => Ascii.eqb c "/"%char
  end.

Fixpoint ends_with_separator (s : string) : bool :=
  match s with
  | EmptyString => false
  | String c s' =>
    match s' with
    | EmptyString => Ascii.eqb c "/"%char
    | String _ _ => ends_with_separator s'
    end
  end.

(** [os.path.join] of two POSIX paths: an absolute second path replaces the
    first, otherwise the two are put together with one separator between. *)
Definition join (a b : string) : string :=
  if starts_with_separator b then b
  else if String.eqb a "" || ends_with_separator a then (a ++ b)%string
  else (a ++ "/" ++ b)%string.

(** Lines 98-99 and 103-111: the name of the file a [path] stands for, as
    [os.path.join] builds it below [home_dir]. *)
Definition location (home_dir : string) (p : path) : string :=
  let basedir :=
    join (join (join home_dir "predicting-poverty/models/") (p_run p))
         (p_sub p) in
  join basedir (p_file p).

(** What a read of a file name gives: the latest write to that name. *)
Fixpoint load_at (home_dir : string) (s : string) (fs : filesystem)
  : option content :=
  match fs with
  | [] => None
  | (q, c) :: fs' =>
    if String.eqb (location home_dir q) s then Some c
    else load_at home_dir s fs'
  end.

(** Every tensor of a list is on the device. *)
Definition on_device (dev : device) (s : store) (addrs : list nat) : Prop :=
  Forall (fun a => t_dev (cell s a) = dev) addrs.

(** A batch of [n] samples for a network with one output per sample: [n]
    labels in a vector, and an [n]-by-1 output whatever the weights. *)
Definition regular {image_batch : Type}
           (forward : bool -> list ndarray -> image_batch -> ndarray)
           (n : nat) (data : batch image_batch) : Prop :=
  shape (b_labels data) = [n]
  /\ forall (mode : bool) (ws : list ndarray),
      shape (forward mode ws (b_inputs data)) = [n; 1%nat].

(** The number of samples of a list of batches. *)
Definition samples {image_batch : Type} (batches : list (batch image_batch)) : nat :=
  fold_right (fun data n => (size0 (b_labels data) + n)%nat) 0%nat batches.

(** The values of the model's parameters, and the values that the tensors
    of the saved state dict hold. *)
Definition live {opt_state : Type} (l : locals opt_state) : list ndarray :=
  param_values (st (w l)) (model (w l)).

Definition saved {opt_state : Type} (l : locals opt_state) : list ndarray :=
  map (read (st (w l))) (best_model_wts l).

(** A run on the GPU: the model is well formed, all its parameters are on
    the GPU, and the tensors of the saved state dict [best] are allocated. *)
Definition on_gpu {opt_state : Type} (best : list nat) (w0 : world opt_state)
  : Prop :=
  well_formed (st w0) (model w0)
  /\ on_device CUDA (st w0) (state_dict (model w0))
  /\ allocated (st w0) best.

(** [fc.in_features] of a linear layer with the given weight and bias. *)
Definition in_features (fc_values : list ndarray) : nat :=
  match fc_values with
  | weight :: _ => nth 1 (shape weight) 0%nat
  | [] => 0%nat
  end.

(** Adapters that cannot read the manifest "missing.csv". *)
Definition picky (_ : dataset_class) (a : adapter_args) : result adapter_args :=
  if String.eqb (csv_file a) "missing.csv"
  then Raise (OSError "File missing.csv does not exist")
  else Ok a.

(** ** More runs of the small instance *)






(** Loaders as the entry point makes them: the shuffled train loader yields
    one batch, the validation loader two. *)
Definition demo_iterate (dl : DataLoader adapter_args) (_ : Z)
  : list (batch (list float)) :=
  if dl_shuffle dl then [Demo.pair_batch]
  else [Demo.pair_batch; Demo.pair_batch].

Definition demo_main : result (locals unit) * calls :=
  main true "/home/user" "Mon Jan  1 00:00:00 2018" (fun _ => false)
       Demo.construct Demo.len demo_iterate Demo.forward Demo.criterion
       Demo.descend Demo.advance Demo.plateau Demo.r2_score (fun _ _ => tt)
       Demo.resnet18_body Demo.resnet18_fc Demo.linear_init Demo.demo_args [].

Definition demo_main_locals : locals unit :=
  value (init_locals Demo.nowhere) (fst demo_main).

End Observations.


(** * Properties of [load_dataset] *)

Module LoaderFacts.

Import Loader.

Section Facts.

Variable dataset : Type.
Variable construct : dataset_class -> adapter_args -> result dataset.
Variable len : dataset -> Z.

Lemma select_class_unsupported (country : string) :
  country <> "bangladesh"%string -> country <> "india"%string ->
  select_class country
  = Raise (NotImplementedError "Only Bangladesh and India supported.").
Proof.
  intros Hb Hi. unfold select_class.
  apply String.eqb_neq in Hb. apply String.eqb_neq in Hi.
  now rewrite Hb, Hi.
Qed.

Lemma sat_transforms_else (sat_type : string) :
  sat_type <> "s1"%string ->
  sat_transforms sat_type = [CenterCrop 100; Resize 224].
Proof.
  intros H. unfold sat_transforms. apply String.eqb_neq in H. now rewrite H.
Qed.

(** C8: for every country selector other than "bangladesh" and "india",
    [load_dataset] raises [NotImplementedError] and no dataset adapter has
    been constructed. *)
Theorem unsupported_country_not_implemented
        (train_csv_path val_csv_path train_data_dir val_data_dir : string)
        (country label sat_type : string) (year batch_size : Z)
        (train_frac : float) :
  country <> "bangladesh"%string -> country <> "india"%string ->
  load_dataset construct len train_csv_path val_csv_path train_data_dir
               val_data_dir country label sat_type year batch_size train_frac
  = (Raise (NotImplementedError "Only Bangladesh and India supported."), []).
Proof.
  intros Hb Hi. unfold load_dataset.
  now rewrite (select_class_unsupported Hb Hi).
Qed.

(** C10: whenever the train adapter is constructed, the adapter constructions
    of [load_dataset] are the train one and then the validation one, and the
    validation adapter receives [frac = train_frac], the same sampling
    fraction as the train adapter. *)
Theorem val_adapter_sampled_with_train_frac
        (train_csv_path val_csv_path train_data_dir val_data_dir : string)
        (country label sat_type : string) (year batch_size : Z)
        (train_frac : float) (cls : dataset_class) (train_dataset : dataset) :
  select_class country = Ok cls ->
  construct cls (AdapterArgs train_csv_path train_data_dir label
                             (get (data_transforms sat_type) train)
                             sat_type year train_frac) = Ok train_dataset ->
  exists train_args val_args,
    snd (load_dataset construct len train_csv_path val_csv_path train_data_dir
                      val_data_dir country label sat_type year batch_size
                      train_frac)
    = [(cls, train_args); (cls, val_args)]
    /\ csv_file train_args = train_csv_path
    /\ csv_file val_args = val_csv_path
    /\ frac train_args = train_frac
    /\ frac val_args = train_frac.
Proof.
  intros Hc Ht. unfold load_dataset, new_dataset. rewrite Hc. cbv zeta.
  rewrite Ht. cbn [app]. clear Ht.
  destruct (construct cls _) as [val_dataset | e]; cbn [snd];
    (eexists; eexists; split; [reflexivity | repeat split]).
Qed.

(** C1 (amended): for every imagery type other than "s1" the crop preset is
    [CenterCrop(100)], [Resize(224)]; with a supported country the train
    adapter is constructed with that pipeline, so building the transforms
    raises nothing. *)
Theorem other_sat_type_takes_second_preset
        (train_csv_path val_csv_path train_data_dir val_data_dir : string)
        (country label sat_type : string) (year batch_size : Z)
        (train_frac : float) (cls : dataset_class) :
  sat_type <> "s1"%string ->
  select_class country = Ok cls ->
  sat_transforms sat_type = [CenterCrop 100; Resize 224]
  /\ exists rest,
      snd (load_dataset construct len train_csv_path val_csv_path train_data_dir
                        val_data_dir country label sat_type year batch_size
                        train_frac)
      = (cls, AdapterArgs train_csv_path train_data_dir label
                          [CenterCrop 100; Resize 224; RandomHorizontalFlip;
                           ToTensor; normalize]
                          sat_type year train_frac) :: rest.
Proof.
  intros Hs Hc. split; [now apply sat_transforms_else |].
  unfold load_dataset, new_dataset, data_transforms, Compose. rewrite Hc.
  cbv zeta. rewrite (sat_transforms_else Hs). cbn [get at_train at_val app].
  destruct (construct cls _) as [d | e]; [| eexists; reflexivity].
  destruct (construct cls _) as [d' | e]; eexists; reflexivity.
Qed.

End Facts.

(** C8, at the country "kenya". *)
Lemma unsupported_country_not_implemented_witness :
  load_dataset Demo.construct Demo.len "t.csv" "v.csv" "img" "img" "kenya"
               "y" "s1" 2015 128 1%float
  = (Raise (NotImplementedError "Only Bangladesh and India supported."), []).
Proof.
  apply (@unsupported_country_not_implemented _ Demo.construct Demo.len);
    discriminate.
Defined.

(** C10, at a training fraction of one half for India. *)
Lemma val_adapter_sampled_with_train_frac_witness :
  exists train_args val_args,
    snd (load_dataset Demo.construct Demo.len "t.csv" "v.csv" "img" "img"
                      "india" "y" "s1" 2015 128 0.5%float)
    = [(IndiaDataset, train_args); (IndiaDataset, val_args)]
    /\ csv_file train_args = "t.csv"%string
    /\ csv_file val_args = "v.csv"%string
    /\ frac train_args = 0.5%float
    /\ frac val_args = 0.5%float.
Proof.
  apply (@val_adapter_sampled_with_train_frac _ Demo.construct Demo.len
           "t.csv" "v.csv" "img" "img" "india" "y" "s1" 2015 128 0.5%float
           IndiaDataset
           (AdapterArgs "t.csv" "img" "y"
                        (get (data_transforms "s1") train) "s1" 2015 0.5%float));
    reflexivity.
Defined.

(** C1 as stated fails: the tag "not-a-satellite" is accepted, with the
    second crop preset, and both adapters are constructed. *)
Lemma unknown_sat_type_is_accepted :
  exists loaders,
    load_dataset Demo.construct Demo.len "t.csv" "v.csv" "img" "img" "india"
                 "y" "not-a-satellite" 2015 128 1%float
    = (Ok loaders,
       [(IndiaDataset,
         AdapterArgs "t.csv" "img" "y"
                     [CenterCrop 100; Resize 224; RandomHorizontalFlip;
                      ToTensor; normalize] "not-a-satellite" 2015 1%float);
        (IndiaDataset,
         AdapterArgs "v.csv" "img" "y"
                     [CenterCrop 100; Resize 224; ToTensor; normalize]
                     "not-a-satellite" 2015 1%float)]).
Proof. eexists. reflexivity. Qed.

(** C1 (amended), at the tag "not-a-satellite". *)
Lemma other_sat_type_takes_second_preset_witness :
  sat_transforms "not-a-satellite" = [CenterCrop 100; Resize 224]
  /\ exists rest,
      snd (load_dataset Demo.construct Demo.len "t.csv" "v.csv" "img" "img"
                        "india" "y" "not-a-satellite" 2015 128 1%float)
      = (IndiaDataset,
         AdapterArgs "t.csv" "img" "y"
                     [CenterCrop 100; Resize 224; RandomHorizontalFlip;
                      ToTensor; normalize]
                     "not-a-satellite" 2015 1%float) :: rest.
Proof.
  apply (@other_sat_type_takes_second_preset _ Demo.construct Demo.len);
    [discriminate | reflexivity].
Defined.

End LoaderFacts.


(** * The order of binary64 floats *)

Module FloatFacts.

Import Reference.

Lemma SFleb_of_ltb (x y : spec_float) : SFltb x y = true -> SFleb x y = true.
Proof. unfold SFltb, SFleb. destruct (SFcompare x y) as [[]|]; congruence. Qed.

Lemma SFeqb_refl_of_ltb (x y : spec_float) : SFltb x y = true -> SFeqb y y = true.
Proof.
  unfold SFltb, SFeqb.
  destruct x as [?|[]| |[] mx ex], y as [?|[]| |[] my ey]; cbn; try congruence;
    rewrite ?Z.compare_refl, ?Pos.compare_cont_refl; cbn; congruence.
Qed.

Lemma SFleb_refl (x : spec_float) : SFeqb x x = true -> SFleb x x = true.
Proof. unfold SFeqb, SFleb. destruct (SFcompare x x) as [[]|]; congruence. Qed.

Ltac compare_cases :=
  repeat match goal with
  | H : context [Z.compare ?a ?b] |- _ => destruct (Z.compare_spec a b); subst
  | |- context [Z.compare ?a ?b] => destruct (Z.compare_spec a b); subst
  | H : context [Pos.compare ?a ?b] |- _ => destruct (Pos.compare_spec a b); subst
  | |- context [Pos.compare ?a ?b] => destruct (Pos.compare_spec a b); subst
  end.

Lemma SFleb_trans (x y z : spec_float) :
  SFleb x y = true -> SFleb y z = true -> SFleb x z = true.
Proof.
  unfold SFleb.
  destruct x as [[]|[]| |[] mx ex], y as [[]|[]| |[] my ey],
           z as [[]|[]| |[] mz ez];
    cbn; try congruence; intros;
    change (Pos.compare_cont Eq) with Pos.compare in *;
    compare_cases; cbn in *; try congruence; try lia.
Qed.

Local Open Scope float_scope.

Lemma ltb_leb (x y : float) : (x <? y) = true -> (x <=? y) = true.
Proof. rewrite ltb_spec, leb_spec. apply SFleb_of_ltb. Qed.

Lemma ltb_number (x y : float) : (x <? y) = true -> number y.
Proof. unfold number. rewrite ltb_spec, eqb_spec. apply SFeqb_refl_of_ltb. Qed.

Lemma leb_refl (x : float) : number x -> (x <=? x) = true.
Proof. unfold number. rewrite eqb_spec, leb_spec. apply SFleb_refl. Qed.

Lemma leb_trans (x y z : float) :
  (x <=? y) = true -> (y <=? z) = true -> (x <=? z) = true.
Proof. rewrite !leb_spec. apply SFleb_trans. Qed.

Lemma neg_infinity_number : number neg_infinity.
Proof. reflexivity. Qed.

Lemma float_neq (x y : float) : (x =? y) = false -> (y =? y) = true -> x <> y.
Proof. intros H Hy E. rewrite E in H. congruence. Qed.

End FloatFacts.


(** * Loops in the error monad *)

Module LoopFacts.

Import Train.

Lemma foldM_app {A B : Type} (f : A -> B -> result A) (xs ys : list B) (a : A) :
  foldM f (xs ++ ys) a = (a' <- foldM f xs a ;; foldM f ys a').
Proof.
  revert a. induction xs as [| x xs IH]; intros a; cbn; [reflexivity |].
  destruct (f a x); cbn; auto.
Qed.

(** An invariant of the body is an invariant of the loop. *)
Lemma foldM_invariant {A B : Type} (P : A -> Prop) (f : A -> B -> result A)
      (xs : list B) :
  (forall a x a', In x xs -> P a -> f a x = Ok a' -> P a') ->
  forall a a', P a -> foldM f xs a = Ok a' -> P a'.
Proof.
  induction xs as [| x xs IH]; intros Hstep a a' Ha H; cbn in H.
  - now inversion H; subst.
  - destruct (f a x) as [a1 |] eqn:E; cbn in H; [| discriminate].
    apply IH with (a := a1); auto.
    + intros; eapply Hstep; eauto. now right.
    + eapply Hstep; eauto. now left.
Qed.

(** An exception of the body ends the loop with that exception. *)
Lemma foldM_raise {A B : Type} (f : A -> B -> result A) (xs ys : list B)
      (x : B) (a a1 : A) (e : exn) :
  foldM f xs a = Ok a1 -> f a1 x = Raise e ->
  foldM f (xs ++ x :: ys) a = Raise e.
Proof.
  intros H1 H2. rewrite foldM_app, H1. cbn. now rewrite H2.
Qed.

Lemma map_seq_from (f : nat -> Z) (s n : nat) :
  map f (seq s n) = map (fun i => f (s + i)%nat) (seq 0 n).
Proof.
  revert s. induction n as [| n IH]; intros s; cbn; [reflexivity |].
  rewrite Nat.add_0_r. f_equal.
  rewrite (IH (S s)), <- (seq_shift n 0), map_map.
  apply map_ext. intros i. f_equal. lia.
Qed.

Lemma range_split (a m b : Z) :
  a <= m <= b -> range a b = range a m ++ range m b.
Proof.
  intros H. unfold range.
  replace (Z.to_nat (b - a)) with (Z.to_nat (m - a) + Z.to_nat (b - m))%nat by lia.
  rewrite seq_app, map_app. f_equal. cbn [Nat.add].
  rewrite map_seq_from. apply map_ext. intros i. lia.
Qed.

Lemma range_one (a : Z) : range a (a + 1) = [a].
Proof.
  unfold range. replace (a + 1 - a) with 1 by lia.
  change (Z.to_nat 1) with 1%nat. cbn [seq map]. f_equal. lia.
Qed.


End LoopFacts.


(** * The tensor store *)

Module StoreFacts.

Import Torch Reference.

Local Open Scope nat_scope.

Lemma read_write_same (a : nat) (d : ndarray) (s : store) :
  read (write a d s) a = d.
Proof. unfold read, write. cbn. now rewrite Nat.eqb_refl. Qed.

Lemma cell_write_other (a x : nat) (d : ndarray) (s : store) :
  x <> a -> cell (write a d s) x = cell s x.
Proof. intros H. cbn. apply Nat.eqb_neq in H. now rewrite H. Qed.

Lemma read_write_other (a x : nat) (d : ndarray) (s : store) :
  x <> a -> read (write a d s) x = read s x.
Proof. intros H. unfold read. now rewrite cell_write_other. Qed.

Lemma allocated_mono (s s' : store) (addrs : list nat) :
  next s <= next s' -> allocated s addrs -> allocated s' addrs.
Proof.
  unfold allocated. intros Hle H. eapply Forall_impl; [| exact H].
  cbn. intros a Ha. lia.
Qed.

(** ** Moves between devices *)

Lemma tensor_to_spec (dev : device) (a a' : nat) (s s' : store) :
  tensor_to dev a s = (a', s') -> a < next s ->
  read s' a' = read s a
  /\ next s <= next s'
  /\ (forall x, x < next s -> cell s' x = cell s x)
  /\ a' < next s'
  /\ (a' = a \/ next s <= a').
Proof.
  unfold tensor_to. destruct (device_eqb _ _).
  - intros [= <- <-] H. repeat split; auto.
  - unfold alloc. intros [= <- <-] H. unfold read. cbn.
    rewrite Nat.eqb_refl. repeat split; auto.
    intros x Hx. destruct (Nat.eqb_spec x (next s)); [lia | reflexivity].
Qed.

Lemma moved_nil (n : nat) : moved n [] [].
Proof. split; [reflexivity |]. intros [| i] a H; discriminate. Qed.

Lemma moved_cons (n a a' : nat) (old new : list nat) :
  a' = a \/ n <= a' -> moved n old new -> moved n (a :: old) (a' :: new).
Proof.
  intros Ha [Hlen H]. split; [cbn; now rewrite Hlen |].
  intros [| i] x Hx; cbn in *.
  - injection Hx as <-. destruct Ha as [-> | Ha]; auto.
  - now apply H.
Qed.

Lemma moved_weaken (n n' : nat) (old new : list nat) :
  n <= n' -> moved n' old new -> moved n old new.
Proof.
  intros Hle [Hlen H]. split; [assumption |].
  intros i a Hi. destruct (H i a Hi); [auto | right; lia].
Qed.

Lemma moved_in (n x : nat) (old new : list nat) :
  moved n old new -> In x new -> In x old \/ n <= x.
Proof.
  intros [_ H] Hin. apply In_nth_error in Hin. destruct Hin as [i Hi].
  destruct (H i x Hi) as [Ho | Hn]; [left | now right].
  eapply nth_error_In; eauto.
Qed.

Lemma apply_params_length (fn : nat -> store -> nat * store) (ps : list Param) :
  forall (s s' : store) (qs : list Param),
    apply_params fn ps s = (qs, s') -> List.length qs = List.length ps.
Proof.
  induction ps as [| p ps IH]; cbn; intros s s' qs H.
  - now injection H as <- <-.
  - destruct (fn (p_data p) s) as [a s1].
    destruct (apply_params fn ps s1) as [qs' s2] eqn:E.
    injection H as <- <-. cbn. f_equal. eapply IH; eauto.
Qed.

Lemma apply_params_app (fn : nat -> store -> nat * store) (ps ps2 : list Param) :
  forall s : store,
    apply_params fn (ps ++ ps2) s
    = let (a, s1) := apply_params fn ps s in
      let (b, s2) := apply_params fn ps2 s1 in
      (a ++ b, s2).
Proof.
  induction ps as [| p ps IH]; cbn; intros s.
  - now destruct (apply_params fn ps2 s).
  - destruct (fn (p_data p) s) as [a s1]. rewrite IH.
    destruct (apply_params fn ps s1) as [qs s2].
    now destruct (apply_params fn ps2 s2).
Qed.

Lemma apply_params_spec (dev : device) (ps : list Param) :
  forall (s s' : store) (qs : list Param),
    apply_params (tensor_to dev) ps s = (qs, s') ->
    allocated s (map p_data ps) ->
    moved (next s) (map p_data ps) (map p_data qs)
    /\ map (read s') (map p_data qs) = map (read s) (map p_data ps)
    /\ next s <= next s'
    /\ (forall x, x < next s -> cell s' x = cell s x)
    /\ allocated s' (map p_data qs)
    /\ (NoDup (map p_data ps) -> NoDup (map p_data qs)).
Proof.
  induction ps as [| p ps IH]; cbn; intros s s' qs H Ha.
  - injection H as <- <-. cbn.
    split; [apply moved_nil |]. repeat split; auto; constructor.
  - destruct (tensor_to dev (p_data p) s) as [a s1] eqn:Et.
    destruct (apply_params (tensor_to dev) ps s1) as [qs' s2] eqn:Ep.
    injection H as <- <-. cbn.
    inversion Ha as [| ? ? Hp Hps]; subst.
    destruct (@tensor_to_spec _ _ _ _ _ Et Hp) as (Hr & Hn & Hf & Hlt & Hor).
    assert (Ha1 : allocated s1 (map p_data ps)) by (eapply allocated_mono; eauto).
    destruct (IH _ _ _ Ep Ha1) as (Hm & Hv & Hn' & Hf' & Ha' & Hnd).
    assert (Hm0 : moved (next s) (map p_data ps) (map p_data qs'))
      by (eapply moved_weaken; eauto).
    split; [apply moved_cons; auto |]. repeat split.
    + f_equal.
      * unfold read in *. rewrite Hf' by lia. exact Hr.
      * rewrite Hv. apply map_ext_in. intros x Hx. unfold read.
        rewrite Hf; [reflexivity |].
        unfold allocated in Hps. rewrite Forall_forall in Hps. now apply Hps.
    + lia.
    + intros x Hx. rewrite Hf' by lia. now apply Hf.
    + constructor; [lia | exact Ha'].
    + intros Hnd0. inversion Hnd0 as [| ? ? Hnotin Hnd1]; subst.
      constructor; [| now apply Hnd].
      intros Hin. destruct (@moved_in _ _ _ _ Hm Hin) as [Hold | Hge]; [| lia].
      destruct Hor as [-> | Hfresh]; [contradiction |].
      unfold allocated in Hps. rewrite Forall_forall in Hps.
      specialize (Hps _ Hold). lia.
Qed.

Lemma module_to_params (dev : device) (m m' : module) (s s' : store) :
  module_to dev m s = (m', s') ->
  apply_params (tensor_to dev) (parameters m) s = (parameters m', s')
  /\ List.length (body m') = List.length (body m)
  /\ List.length (fc m') = List.length (fc m)
  /\ training m' = training m.
Proof.
  unfold module_to, parameters. intros H. rewrite apply_params_app.
  destruct (apply_params (tensor_to dev) (body m) s) as [b s1] eqn:Eb.
  destruct (apply_params (tensor_to dev) (fc m) s1) as [f s2] eqn:Ef.
  injection H as <- <-. cbn.
  repeat split; eauto using apply_params_length.
Qed.

(** A move keeps every parameter's value and the well-formedness of the
    store; what was allocated before is left as it was. *)
Lemma module_to_spec (dev : device) (m m' : module) (s s' : store) :
  module_to dev m s = (m', s') ->
  allocated s (state_dict m) ->
  moved (next s) (state_dict m) (state_dict m')
  /\ param_values s' m' = param_values s m
  /\ next s <= next s'
  /\ (forall x, x < next s -> cell s' x = cell s x)
  /\ allocated s' (state_dict m')
  /\ (NoDup (state_dict m) -> NoDup (state_dict m'))
  /\ List.length (body m') = List.length (body m)
  /\ training m' = training m.
Proof.
  intros H Ha. destruct (@module_to_params _ _ _ _ _ H) as (Hp & Hb & _ & Ht).
  destruct (@apply_params_spec _ _ _ _ _ Hp Ha) as (H1 & H2 & H3 & H4 & H5 & H6).
  unfold param_values, state_dict. split; [exact H1 |]. repeat split; auto.
Qed.

(** ** Saved state dicts *)

Lemma compat_refl (l : list nat) : compat l l.
Proof. split; [reflexivity | auto]. Qed.

Lemma compat_moved (n : nat) (saved old new : list nat) :
  compat saved old -> NoDup old -> Forall (fun a => a < n) saved ->
  moved n old new -> compat saved new.
Proof.
  intros [Hlen Hc] Hnd Hlt [Hlen' Hm]. split; [congruence |].
  intros i b Hi.
  destruct (in_dec Nat.eq_dec b new) as [Hin | Hnot]; [left | now right].
  apply In_nth_error in Hin. destruct Hin as [j Hj].
  rewrite Forall_forall in Hlt.
  assert (Hb : b < n) by (apply Hlt; eapply nth_error_In; eauto).
  destruct (Hm j b Hj) as [Hoj | Hge]; [| lia].
  destruct (Hc i b Hi) as [Hoi | Hnotin].
  - assert (i = j).
    { rewrite NoDup_nth_error in Hnd. apply Hnd; [| congruence].
      apply nth_error_Some. congruence. }
    now subst.
  - exfalso. apply Hnotin. eapply nth_error_In; eauto.
Qed.

Lemma compat_tail (a b : nat) (saved own : list nat) :
  compat (b :: saved) (a :: own) -> ~ In a own ->
  compat saved own /\ ~ In a saved.
Proof.
  intros [Hlen Hc] Hna. split; [split |].
  - cbn in Hlen. lia.
  - intros i x Hi. destruct (Hc (S i) x Hi) as [H | H]; cbn in H;
      [left; exact H | right; intros Hin; apply H; now right].
  - intros Hin. apply In_nth_error in Hin. destruct Hin as [i Hi].
    destruct (Hc (S i) a Hi) as [H | H]; cbn in H.
    + apply Hna. eapply nth_error_In; eauto.
    + apply H. now left.
Qed.

(** ** [load_state_dict] *)

Lemma copy_all_frame (own : list nat) :
  forall (sd : list nat) (s : store) (x : nat),
    ~ In x own -> cell (copy_all own sd s) x = cell s x.
Proof.
  induction own as [| a own IH]; intros [| b sd] s x Hx; cbn; auto.
  rewrite IH by (intros Hin; apply Hx; now right).
  apply cell_write_other. intros ->. apply Hx. now left.
Qed.


(** When the saved dict is compatible with the model's, the entry-by-entry
    copy gives every parameter the value its saved tensor held before. *)
Lemma copy_all_values (own : list nat) :
  forall (sd : list nat) (s : store),
    NoDup own -> compat sd own ->
    map (read (copy_all own sd s)) own = map (read s) sd.
Proof.
  induction own as [| a own IH]; intros [| b sd] s Hnd Hc; cbn;
    try (destruct Hc as [Hlen _]; discriminate Hlen); [reflexivity |].
  inversion Hnd as [| ? ? Hna Hnd']; subst.
  destruct (@compat_tail _ _ _ _ Hc Hna) as [Hc' Hnb].
  f_equal.
  - unfold read. rewrite copy_all_frame by assumption.
    apply read_write_same.
  - rewrite IH by assumption. apply map_ext_in. intros x Hx.
    apply read_write_other. intros ->. contradiction.
Qed.

(** ** [optimizer.step] *)

Lemma writes_frame (sd : list nat) (f : nat -> ndarray) (g : list nat) :
  forall s : store,
    let s' := fold_left
                (fun s0 j => match nth_error sd j with
                             | Some a => write a (f j) s0
                             | None => s0
                             end) g s in
    next s' = next s
    /\ forall x, (forall j, In j g -> nth_error sd j <> Some x) ->
                 cell s' x = cell s x.
Proof.
  induction g as [| j g IH]; intros s; cbn; [auto |].
  destruct (IH (match nth_error sd j with
                | Some a => write a (f j) s
                | None => s
                end)) as [Hn Hf].
  split.
  - rewrite Hn. now destruct (nth_error sd j).
  - intros x Hx. rewrite Hf by (intros k Hk; apply Hx; now right).
    destruct (nth_error sd j) as [a |] eqn:E; [| reflexivity].
    apply cell_write_other. intros ->. apply (Hx j); [now left | assumption].
Qed.

End StoreFacts.


(** * Properties of [train_model] *)

Module TrainFacts.

Import Torch Train Reference FloatFacts LoopFacts StoreFacts.

Section Facts.

Variable use_gpu : bool.
Variable image_batch : Type.
Variable forward : bool -> list ndarray -> image_batch -> ndarray.
Variable criterion : ndarray -> ndarray -> float.
Variable opt_state : Type.
Variable descend : opt_state -> list ndarray -> batch image_batch -> nat -> ndarray.
Variable advance : opt_state -> list ndarray -> batch image_batch -> opt_state.
Variable plateau : float -> opt_state -> opt_state.
Variable r2_score : list pyval -> list pyval -> result float.
Variable loader : Type.
Variable iterate : loader -> Z -> list (batch image_batch).

Local Abbreviation batch_step := (batch_step forward criterion descend advance).
Local Abbreviation after_val := (after_val use_gpu plateau).
Local Abbreviation run_phase :=
  (run_phase use_gpu forward criterion descend advance plateau r2_score iterate).
Local Abbreviation run_epoch :=
  (run_epoch use_gpu forward criterion descend advance plateau r2_score iterate).
Local Abbreviation run_epochs :=
  (run_epochs use_gpu forward criterion descend advance plateau r2_score iterate).
Local Abbreviation train_model :=
  (train_model use_gpu forward criterion descend advance plateau r2_score iterate).

(** ** The shape of a phase *)

Lemma run_phase_inv (dl : per_phase loader) (ds : per_phase Z) (name : string)
      (verbose : bool) (k epoch : Z) (l l' : locals opt_state) (ph : phase) :
  run_phase dl ds name verbose k epoch l ph = Ok l' ->
  exists w1 r epoch_loss epoch_r2,
    foldM (batch_step ph) (iterate (get dl ph) epoch) (enter_phase ph (w l))
    = Ok (w1, r)
    /\ truediv (running_loss r) (get ds ph) = Ok epoch_loss
    /\ r2_score (y_true r) (y_pred r) = Ok epoch_r2
    /\ let l1 := record_metrics ph epoch_loss epoch_r2 w1 l in
       let l2 := if phase_eqb ph val then after_val epoch_r2 r l1 else l1 in
       l' = l2 \/ l' = save_logs name (Some epoch) l2.
Proof.
  unfold Train.run_phase. intros H.
  destruct (foldM _ _ _) as [[w1 r] |] eqn:Ef; cbn in H; [| discriminate].
  destruct (truediv _ _) as [epoch_loss |] eqn:Ed; cbn in H; [| discriminate].
  destruct (r2_score _ _) as [epoch_r2 |] eqn:Er; cbn in H; [| discriminate].
  exists w1, r, epoch_loss, epoch_r2.
  split; [reflexivity | split; [exact Ed | split; [exact Er |]]].
  cbv zeta.
  destruct verbose; [| left; congruence].
  destruct (k =? 0); [discriminate |].
  destruct (epoch mod k =? 0); [right | left]; congruence.
Qed.

Lemma run_epoch_inv (dl : per_phase loader) (ds : per_phase Z) (name : string)
      (verbose : bool) (k epoch : Z) (l l' : locals opt_state) :
  run_epoch dl ds name verbose k l epoch = Ok l' ->
  exists l1,
    run_phase dl ds name verbose k epoch l train = Ok l1
    /\ run_phase dl ds name verbose k epoch l1 val = Ok l'.
Proof.
  unfold Train.run_epoch. cbn [foldM]. intros H.
  destruct (run_phase dl ds name verbose k epoch l train) as [l1 |];
    cbn in H; [| discriminate].
  exists l1. split; [reflexivity |].
  destruct (run_phase dl ds name verbose k epoch l1 val); cbn in H; congruence.
Qed.

Lemma run_epochs_split (dl : per_phase loader) (ds : per_phase Z) (name : string)
      (verbose : bool) (k i j : Z) (l0 li lj : locals opt_state) :
  0 <= i <= j ->
  run_epochs dl ds name i verbose k l0 = Ok li ->
  run_epochs dl ds name j verbose k l0 = Ok lj ->
  foldM (run_epoch dl ds name verbose k) (range (i + 1) (j + 1)) li = Ok lj.
Proof.
  unfold Train.run_epochs. intros Hij Hi Hj.
  rewrite (@range_split 1 (i + 1) (j + 1)) in Hj by lia.
  rewrite foldM_app, Hi in Hj. exact Hj.
Qed.

(** ** The best validation R2 *)

Lemma run_phase_train_best (dl : per_phase loader) (ds : per_phase Z)
      (name : string) (verbose : bool) (k epoch : Z) (l l' : locals opt_state) :
  run_phase dl ds name verbose k epoch l train = Ok l' ->
  best_r2 l' = best_r2 l /\ get (r2s l') val = get (r2s l) val.
Proof.
  intros H. apply run_phase_inv in H.
  destruct H as (w1 & r & el & er & _ & _ & _ & [-> | ->]); cbn; auto.
Qed.


Lemma run_phase_val_best (dl : per_phase loader) (ds : per_phase Z)
      (name : string) (verbose : bool) (k epoch : Z) (l l' : locals opt_state) :
  run_phase dl ds name verbose k epoch l val = Ok l' ->
  exists epoch_r2,
    get (r2s l') val = get (r2s l) val ++ [epoch_r2]
    /\ best_r2 l' = if (best_r2 l <? epoch_r2)%float then epoch_r2 else best_r2 l.
Proof.
  intros H. apply run_phase_inv in H.
  destruct H as (w1 & r & el & er & _ & _ & _ & H).
  exists er.
  cbv zeta in H. cbn [phase_eqb] in H. unfold Train.after_val in H.
  cbn [best_r2 record_metrics w] in H.
  destruct (best_r2 l <? er)%float.
  - destruct (if use_gpu then _ else _) as [m1 s1].
    destruct (if use_gpu then _ else _) as [m2 s2].
    destruct H as [-> | ->]; cbn; auto.
  - destruct H as [-> | ->]; cbn; auto.
Qed.

Lemma run_epoch_best (dl : per_phase loader) (ds : per_phase Z)
      (name : string) (verbose : bool) (k epoch : Z) (l l' : locals opt_state) :
  run_epoch dl ds name verbose k l epoch = Ok l' ->
  exists epoch_r2,
    get (r2s l') val = get (r2s l) val ++ [epoch_r2]
    /\ best_r2 l' = if (best_r2 l <? epoch_r2)%float then epoch_r2 else best_r2 l.
Proof.
  intros H. apply run_epoch_inv in H. destruct H as (l1 & Ht & Hv).
  apply run_phase_train_best in Ht. destruct Ht as [Hb Hr].
  apply run_phase_val_best in Hv. destruct Hv as (r & Hr' & Hb').
  exists r. now rewrite Hr', Hb', Hb, Hr.
Qed.

Lemma run_epoch_best_le (dl : per_phase loader) (ds : per_phase Z)
      (name : string) (verbose : bool) (k epoch : Z) (l l' : locals opt_state) :
  number (best_r2 l) ->
  run_epoch dl ds name verbose k l epoch = Ok l' ->
  number (best_r2 l') /\ (best_r2 l <=? best_r2 l')%float = true.
Proof.
  intros Hn H. apply run_epoch_best in H. destruct H as (r & _ & ->).
  destruct (best_r2 l <? r)%float eqn:E.
  - split; [eapply ltb_number; eauto | now apply ltb_leb].
  - split; [assumption | now apply leb_refl].
Qed.

(** C5: over the epochs of a run the best validation R2 never decreases, and
    an epoch replaces it exactly when that epoch's validation R2 is strictly
    greater than the best so far. *)
Theorem best_r2_monotone_strict_replacement
        (dl : per_phase loader) (ds : per_phase Z) (name : string)
        (verbose : bool) (k i j : Z) (w0 : world opt_state)
        (li lj : locals opt_state) :
  0 <= i <= j ->
  run_epochs dl ds name i verbose k (init_locals w0) = Ok li ->
  run_epochs dl ds name j verbose k (init_locals w0) = Ok lj ->
  (best_r2 li <=? best_r2 lj)%float = true
  /\ forall (epoch : Z) (l l' : locals opt_state),
      run_epoch dl ds name verbose k l epoch = Ok l' ->
      exists epoch_r2,
        get (r2s l') val = get (r2s l) val ++ [epoch_r2]
        /\ best_r2 l'
           = if (best_r2 l <? epoch_r2)%float then epoch_r2 else best_r2 l.
Proof.
  intros Hij Hi Hj. split; [| intros; eapply run_epoch_best; eauto].
  assert (Hni : number (best_r2 li)).
  { unfold Train.run_epochs in Hi.
    eapply (@foldM_invariant _ _ (fun l => number (best_r2 l))); [| | exact Hi].
    - intros a x a' _ Ha Hs. eapply run_epoch_best_le; eauto.
    - exact neg_infinity_number. }
  assert (Hs : foldM (run_epoch dl ds name verbose k) (range (i + 1) (j + 1)) li
               = Ok lj) by (eapply run_epochs_split; eauto).
  eapply proj2.
  eapply (@foldM_invariant _ _
            (fun l => number (best_r2 l) /\ (best_r2 li <=? best_r2 l)%float = true));
    [| | exact Hs].
  - intros a x a' _ [Ha Hle] Hstep.
    edestruct run_epoch_best_le as [Hn' Hle']; [exact Ha | exact Hstep |].
    split; [assumption | eapply leb_trans; eauto].
  - split; [assumption | now apply leb_refl].
Qed.

(** ** The validation phase does not touch the parameters *)

Lemma batch_step_val_world (w0 : world opt_state) (r : running)
      (data : batch image_batch) (acc : world opt_state * running) :
  batch_step val (w0, r) data = Ok acc -> fst acc = w0.
Proof.
  unfold Train.batch_step. cbn [phase_eqb].
  destruct (iadd (y_true r) _); cbn; [| discriminate].
  destruct (iadd (y_pred r) _); cbn; [| discriminate].
  now intros [= <-].
Qed.

Lemma batches_val_world (batches : list (batch image_batch)) :
  forall (w0 w1 : world opt_state) (r r1 : running),
    foldM (batch_step val) batches (w0, r) = Ok (w1, r1) -> w1 = w0.
Proof.
  induction batches as [| data batches IH]; cbn [foldM]; intros w0 w1 r r1 H.
  - congruence.
  - destruct (batch_step val (w0, r) data) as [[w2 r2] |] eqn:E;
      cbn [Py.bind] in H; [| discriminate].
    apply batch_step_val_world in E. cbn in E. subst w2. eauto.
Qed.

Lemma map_read_frame (s s' : store) (addrs : list nat) :
  allocated s addrs ->
  (forall x, (x < next s)%nat -> cell s' x = cell s x) ->
  map (read s') addrs = map (read s) addrs.
Proof.
  intros Ha Hf. apply map_ext_in. intros a Hin. unfold read.
  rewrite Hf; [reflexivity |].
  unfold allocated in Ha. rewrite Forall_forall in Ha. now apply Ha.
Qed.

Lemma after_val_values (epoch_r2 : float) (r : running) (l : locals opt_state) :
  allocated (st (w l)) (state_dict (model (w l))) ->
  param_values (st (w (after_val epoch_r2 r l))) (model (w (after_val epoch_r2 r l)))
  = param_values (st (w l)) (model (w l)).
Proof.
  intros Ha. unfold Train.after_val.
  destruct (best_r2 l <? epoch_r2)%float; [| reflexivity].
  destruct use_gpu; [| reflexivity].
  destruct (module_to CPU (model (w l)) (st (w l))) as [m1 s1] eqn:E1.
  destruct (module_to CUDA m1 s1) as [m2 s2] eqn:E2. cbn.
  destruct (@module_to_spec _ _ _ _ _ E1 Ha) as (_ & Hv1 & _ & _ & Ha1 & _).
  destruct (@module_to_spec _ _ _ _ _ E2 Ha1) as (_ & Hv2 & _).
  congruence.
Qed.

(** C6: in the validation phase no batch changes the model, the optimizer or
    the store (there is no backward pass and no optimizer step), and after
    the whole phase every parameter holds the value it held before it. *)
Theorem val_phase_leaves_parameters
        (dl : per_phase loader) (ds : per_phase Z) (name : string)
        (verbose : bool) (k epoch : Z) (l l' : locals opt_state) :
  allocated (st (w l)) (state_dict (model (w l))) ->
  run_phase dl ds name verbose k epoch l val = Ok l' ->
  param_values (st (w l')) (model (w l')) = param_values (st (w l)) (model (w l))
  /\ forall (w0 : world opt_state) (r : running) (data : batch image_batch)
            (acc : world opt_state * running),
      batch_step val (w0, r) data = Ok acc -> fst acc = w0.
Proof.
  intros Ha H. split; [| intros; eapply batch_step_val_world; eauto].
  apply run_phase_inv in H. destruct H as (w1 & r & el & er & Hf & _ & _ & H).
  unfold enter_phase in Hf. apply batches_val_world in Hf. subst w1.
  cbv zeta in H. cbn [phase_eqb] in H.
  set (l1 := record_metrics val el er _ l) in H.
  assert (H1 : param_values (st (w (after_val er r l1)))
                            (model (w (after_val er r l1)))
               = param_values (st (w l)) (model (w l))).
  { rewrite after_val_values; [reflexivity | exact Ha]. }
  destruct H as [-> | ->]; exact H1.
Qed.

(** ** The invariant of the training loop *)

Lemma unchanged_outside (s s' : store) (sd g : list nat) (i a : nat) :
  NoDup sd ->
  (forall x, (forall j, In j g -> nth_error sd j <> Some x) ->
             cell s' x = cell s x) ->
  ~ In i g -> nth_error sd i = Some a -> read s' a = read s a.
Proof.
  intros Hnd Hf Hi Ha. unfold read. rewrite Hf; [reflexivity |].
  intros j Hj E. apply Hi.
  rewrite NoDup_nth_error in Hnd.
  assert (i = j); [| now subst].
  apply Hnd; [| congruence]. apply nth_error_Some. congruence.
Qed.

Lemma invariant_optimizer_step (g : list nat) (nb : nat) (V : list ndarray)
      (best : list nat) (w0 : world opt_state) (data : batch image_batch)
      (s' : store) (o' : optimizer opt_state) :
  invariant g nb V best w0 ->
  optimizer_step descend advance (opt w0) data (model w0) (st w0) = (s', o') ->
  invariant g nb V best
            {| st := s'; model := model w0; opt := o'; fs := fs w0 |}.
Proof.
  intros ([Hnd Ha] & Hb & Hc & Hg & Hn & Hm & Hs) H.
  unfold optimizer_step in H. injection H as <- <-.
  match goal with
  | |- context [fold_left ?f ?gr ?s0] =>
    destruct (writes_frame (state_dict (model w0))
                (descend (o_state (opt w0)) (param_values (st w0) (model w0)) data)
                (group (opt w0)) (st w0)) as [Hnext Hframe];
      set (s1 := fold_left f gr s0) in *
  end.
  cbv zeta in Hnext, Hframe. rewrite Hg in *.
  assert (Hle : (next (st w0) <= next s1)%nat) by lia.
  unfold invariant. cbn [st model opt fs group].
  split; [split; [exact Hnd | eapply allocated_mono; eauto] |].
  split; [eapply allocated_mono; eauto |].
  split; [exact Hc |]. split; [reflexivity |]. split; [exact Hn |].
  split.
  - intros i Hi. rewrite <- (Hm i Hi). unfold param_values.
    rewrite !nth_error_map.
    destruct (nth_error (state_dict (model w0)) i) as [a |] eqn:E; cbn;
      [| reflexivity].
    f_equal. eapply unchanged_outside; eauto.
  - intros i Hi. rewrite <- (Hs i Hi). rewrite !nth_error_map.
    destruct (nth_error best i) as [b |] eqn:E; cbn; [| reflexivity].
    f_equal. destruct Hc as [_ Hc]. destruct (Hc i b E) as [Hown | Hnot].
    + eapply unchanged_outside; eauto.
    + unfold read. rewrite Hframe; [reflexivity |].
      intros j _ Ej. apply Hnot. eapply nth_error_In; eauto.
Qed.

Lemma invariant_batch_step (g : list nat) (nb : nat) (V : list ndarray)
      (best : list nat) (ph : phase) (acc acc' : world opt_state * running)
      (data : batch image_batch) :
  invariant g nb V best (fst acc) ->
  batch_step ph acc data = Ok acc' ->
  invariant g nb V best (fst acc').
Proof.
  destruct acc as [w0 r]. cbn [fst]. intros Hinv. unfold Train.batch_step.
  destruct (iadd (y_true r) _); cbn [Py.bind]; [| discriminate].
  destruct (iadd (y_pred r) _); cbn [Py.bind]; [| discriminate].
  destruct (phase_eqb ph train).
  - destruct (optimizer_step descend advance (opt w0) data (model w0) (st w0))
      as [s' o'] eqn:E.
    intros [= <-]. cbn [fst]. eapply invariant_optimizer_step; eauto.
  - intros [= <-]. exact Hinv.
Qed.

Lemma invariant_after_val (g : list nat) (nb : nat) (V : list ndarray)
      (epoch_r2 : float) (r : running) (l : locals opt_state) :
  invariant g nb V (best_model_wts l) (w l) ->
  invariant g nb V (best_model_wts (after_val epoch_r2 r l))
            (w (after_val epoch_r2 r l)).
Proof.
  intros ([Hnd Ha] & Hb & Hc & Hg & Hn & Hm & Hs). unfold Train.after_val.
  destruct (best_r2 l <? epoch_r2)%float.
  2: { cbn. unfold invariant. cbn. repeat split; auto; apply Hc. }
  destruct use_gpu.
  2: { cbn. unfold invariant. cbn.
       split; [split; assumption |]. split; [assumption |].
       split; [apply compat_refl |]. repeat split; auto. }
  destruct (module_to CPU (model (w l)) (st (w l))) as [m1 s1] eqn:E1.
  destruct (module_to CUDA m1 s1) as [m2 s2] eqn:E2. cbn.
  destruct (@module_to_spec _ _ _ _ _ E1 Ha)
    as (_ & Hv1 & Hn1 & Hf1 & Ha1 & Hnd1 & Hb1 & _).
  destruct (@module_to_spec _ _ _ _ _ E2 Ha1)
    as (Hm2 & Hv2 & Hn2 & Hf2 & Ha2 & Hnd2 & Hb2 & _).
  unfold invariant. cbn [st model opt fs group].
  split; [split; [auto | exact Ha2] |].
  split; [eapply allocated_mono; eauto |].
  split; [eapply compat_moved; eauto using compat_refl |].
  split; [exact Hg |]. split; [congruence |].
  split.
  - intros i Hi. rewrite Hv2, Hv1. now apply Hm.
  - intros i Hi. rewrite (@map_read_frame _ _ _ Ha1 Hf2).
    change (map (read s1) (state_dict m1)) with (param_values s1 m1).
    rewrite Hv1. now apply Hm.
Qed.

Lemma invariant_run_phase (g : list nat) (nb : nat) (V : list ndarray)
      (dl : per_phase loader) (ds : per_phase Z) (name : string)
      (verbose : bool) (k epoch : Z) (l l' : locals opt_state) (ph : phase) :
  invariant g nb V (best_model_wts l) (w l) ->
  run_phase dl ds name verbose k epoch l ph = Ok l' ->
  invariant g nb V (best_model_wts l') (w l').
Proof.
  intros Hinv H. apply run_phase_inv in H.
  destruct H as (w1 & r & el & er & Hf & _ & _ & H).
  assert (H1 : invariant g nb V (best_model_wts l) w1).
  { change w1 with (fst (w1, r)).
    eapply (@foldM_invariant _ _
              (fun acc => invariant g nb V (best_model_wts l) (fst acc)));
      [| | exact Hf].
    - intros acc data acc' _ Hacc Hstep. eapply invariant_batch_step; eauto.
    - exact Hinv. }
  cbv zeta in H.
  set (l1 := record_metrics ph el er w1 l) in H.
  assert (H2 : invariant g nb V (best_model_wts l1) (w l1)) by exact H1.
  assert (H3 : invariant g nb V
                 (best_model_wts (if phase_eqb ph val
                                  then after_val er r l1
                                  else l1))
                 (w (if phase_eqb ph val
                     then after_val er r l1
                     else l1))).
  { destruct (phase_eqb ph val); [now apply invariant_after_val | exact H2]. }
  destruct H as [-> | ->]; exact H3.
Qed.

Lemma invariant_run_epochs (g : list nat) (nb : nat) (V : list ndarray)
      (dl : per_phase loader) (ds : per_phase Z) (name : string)
      (verbose : bool) (k n : Z) (l l' : locals opt_state) :
  invariant g nb V (best_model_wts l) (w l) ->
  run_epochs dl ds name n verbose k l = Ok l' ->
  invariant g nb V (best_model_wts l') (w l').
Proof.
  intros Hinv H. unfold Train.run_epochs in H.
  eapply (@foldM_invariant _ _
            (fun l0 => invariant g nb V (best_model_wts l0) (w l0)));
    [| exact Hinv | exact H].
  intros a epoch a' _ Ha Hstep. unfold Train.run_epoch in Hstep.
  eapply (@foldM_invariant _ _
            (fun l0 => invariant g nb V (best_model_wts l0) (w l0)));
    [| exact Ha | exact Hstep].
  intros b ph b' _ Hb Hph. eapply invariant_run_phase; eauto.
Qed.

Lemma invariant_init (w0 : world opt_state) :
  well_formed (st w0) (model w0) ->
  invariant (group (opt w0)) (List.length (body (model w0)))
            (param_values (st w0) (model w0))
            (best_model_wts (init_locals w0)) (w (init_locals w0)).
Proof.
  intros Hwf. unfold invariant, init_locals. cbn.
  split; [exact Hwf |]. split; [apply Hwf |].
  split; [apply compat_refl |]. repeat split; auto.
Qed.

(** ** After the last epoch *)

Lemma path_eqb_refl (p : path) : path_eqb p p = true.
Proof. unfold path_eqb. now rewrite !String.eqb_refl. Qed.

Lemma finish_spec (g : list nat) (nb : nat) (V : list ndarray)
      (name : string) (l : locals opt_state) :
  invariant g nb V (best_model_wts l) (w l) ->
  load (Path name "" "saved_model.model") (fs (w (finish name l)))
  = Some (StateDict (param_values (st (w l)) (model (w l))))
  /\ param_values (st (w (finish name l))) (model (w (finish name l)))
     = map (read (st (w l))) (best_model_wts l)
  /\ List.length (body (model (w (finish name l)))) = nb.
Proof.
  intros ([Hnd Ha] & Hb & Hc & Hg & Hn & Hm & Hs).
  unfold finish. cbn [save_logs w st model best_model_wts fs opt].
  destruct (module_to CPU (model (w l)) (st (w l))) as [m s] eqn:E.
  cbn [w st model fs].
  destruct (@module_to_spec _ _ _ _ _ E Ha)
    as (Hmv & Hv & Hnx & Hf & Ha' & Hnd' & Hbl & _).
  split; [| split].
  - cbn [fold_left save load]. now rewrite path_eqb_refl.
  - unfold load_state_dict, param_values.
    rewrite copy_all_values; [apply (@map_read_frame _ _ _ Hb Hf) | auto |].
    eapply compat_moved; eauto.
  - congruence.
Qed.

(** C3 (amended): after the last epoch [train_model] first writes the final
    checkpoint, whose model file holds the parameters as the last epoch left
    them, and only then loads [best_model_wts] into the model; the returned
    model carries the values the tensors of [best_model_wts] held at that
    point. *)
Theorem final_checkpoint_written_before_restore
        (dl : per_phase loader) (ds : per_phase Z) (name : string)
        (num_epochs : Z) (verbose : bool) (k : Z) (w0 : world opt_state)
        (lf : locals opt_state) :
  well_formed (st w0) (model w0) ->
  train_model w0 dl ds name num_epochs verbose k = Ok lf ->
  exists l : locals opt_state,
    run_epochs dl ds name num_epochs verbose k (init_locals w0) = Ok l
    /\ load (Path name "" "saved_model.model") (fs (w lf))
       = Some (StateDict (param_values (st (w l)) (model (w l))))
    /\ param_values (st (w lf)) (model (w lf))
       = map (read (st (w l))) (best_model_wts l).
Proof.
  intros Hwf H. unfold Train.train_model in H.
  destruct (run_epochs dl ds name num_epochs verbose k (init_locals w0))
    as [l |] eqn:E; cbn [Py.bind] in H; [| discriminate].
  injection H as <-. exists l. split; [reflexivity |].
  assert (Hinv : invariant (group (opt w0)) (List.length (body (model w0)))
                           (param_values (st w0) (model w0))
                           (best_model_wts l) (w l))
    by (eapply invariant_run_epochs; [apply invariant_init; exact Hwf | exact E]).
  destruct (@finish_spec _ _ _ name l Hinv) as (H1 & H2 & _). auto.
Qed.

(** ** Parameters outside the optimizer's group *)

Lemma body_values_firstn (s : store) (m : module) :
  body_values s m = firstn (List.length (body m)) (param_values s m).
Proof.
  unfold body_values, param_values, state_dict, parameters.
  rewrite !map_app.
  replace (List.length (body m))
    with (List.length (map (read s) (map p_data (body m))))
    by now rewrite !length_map.
  rewrite firstn_app, Nat.sub_diag, firstn_all. cbn [firstn].
  now rewrite app_nil_r.
Qed.

Lemma train_model_frozen
      (dl : per_phase loader) (ds : per_phase Z) (name : string)
      (num_epochs : Z) (verbose : bool) (k : Z) (w0 : world opt_state)
      (lf : locals opt_state) :
  well_formed (st w0) (model w0) ->
  train_model w0 dl ds name num_epochs verbose k = Ok lf ->
  List.length (body (model (w lf))) = List.length (body (model w0))
  /\ forall i, ~ In i (group (opt w0)) ->
       nth_error (param_values (st (w lf)) (model (w lf))) i
       = nth_error (param_values (st w0) (model w0)) i.
Proof.
  intros Hwf H. unfold Train.train_model in H.
  destruct (run_epochs dl ds name num_epochs verbose k (init_locals w0))
    as [l |] eqn:E; cbn [Py.bind] in H; [| discriminate].
  injection H as <-.
  assert (Hinv : invariant (group (opt w0)) (List.length (body (model w0)))
                           (param_values (st w0) (model w0))
                           (best_model_wts l) (w l))
    by (eapply invariant_run_epochs; [apply invariant_init; exact Hwf | exact E]).
  destruct (@finish_spec _ _ _ name l Hinv) as (_ & H2 & H3).
  split; [exact H3 |]. intros i Hi. rewrite H2.
  destruct Hinv as (_ & _ & _ & _ & _ & _ & Hs). now apply Hs.
Qed.

(** With the head's positions as the optimizer's group, training leaves the
    values of the body's parameters as they were. *)
Lemma train_model_keeps_body
      (dl : per_phase loader) (ds : per_phase Z) (name : string)
      (num_epochs : Z) (verbose : bool) (k : Z) (w0 : world opt_state)
      (lf : locals opt_state) :
  well_formed (st w0) (model w0) ->
  group (opt w0) = head_positions (model w0) ->
  train_model w0 dl ds name num_epochs verbose k = Ok lf ->
  body_values (st (w lf)) (model (w lf)) = body_values (st w0) (model w0).
Proof.
  intros Hwf Hg H. destruct (@train_model_frozen _ _ _ _ _ _ _ _ Hwf H) as [Hlen Hf].
  rewrite !body_values_firstn, Hlen. apply nth_error_ext. intros i.
  rewrite !nth_error_firstn.
  destruct (Nat.ltb_spec i (List.length (body (model w0)))) as [Hlt | Hge];
    [| reflexivity].
  apply Hf. rewrite Hg. unfold head_positions. rewrite in_seq. lia.
Qed.

(** ** A batch of a single sample *)

Lemma squeeze_single (t : ndarray) :
  shape t = [1%nat; 1%nat] -> shape (squeeze t) = [1%nat].
Proof. unfold squeeze. cbn [shape]. intros ->. reflexivity. Qed.

Lemma tolist_single (t : ndarray) :
  shape t = [1%nat] -> exists x, tolist t = PyList [PyFloat x].
Proof. unfold tolist. intros ->. cbn. eauto. Qed.

Lemma iadd_raises_type_error (xs : list pyval) (v : pyval) (e : exn) :
  iadd xs v = Raise e -> exists msg, e = TypeError msg.
Proof. destruct v; cbn; intros [= <-]. eauto. Qed.

Lemma batch_step_raises_type_error (ph : phase)
      (acc : world opt_state * running) (data : batch image_batch) (e : exn) :
  batch_step ph acc data = Raise e -> exists msg, e = TypeError msg.
Proof.
  destruct acc as [w0 r]. unfold Train.batch_step.
  destruct (iadd (y_true r) _) eqn:E1; cbn [Py.bind].
  - destruct (iadd (y_pred r) _) eqn:E2; cbn [Py.bind]; [discriminate |].
    intros [= <-]. eapply iadd_raises_type_error; eauto.
  - intros [= <-]. eapply iadd_raises_type_error; eauto.
Qed.

(** C9 (amended): a batch of exactly one sample is collected like any other.
    Its 1-by-1 output squeezes to a vector of one element, not to a scalar,
    so [y_pred += ...] appends that one prediction and the batch raises
    nothing. *)
Theorem single_sample_batch_is_collected
        (ph : phase) (w0 : world opt_state) (r : running)
        (data : batch image_batch) :
  shape (b_labels data) = [1%nat] ->
  shape (forward (training (model w0)) (param_values (st w0) (model w0))
                 (b_inputs data)) = [1%nat; 1%nat] ->
  exists w1 r1 x,
    tolist (squeeze (forward (training (model w0))
                             (param_values (st w0) (model w0))
                             (b_inputs data)))
    = PyList [PyFloat x]
    /\ batch_step ph (w0, r) data = Ok (w1, r1)
    /\ y_pred r1 = y_pred r ++ [PyFloat x]
    /\ List.length (y_true r1) = S (List.length (y_true r)).
Proof.
  intros Hl Ho.
  destruct (@tolist_single _ Hl) as [y Ey].
  destruct (@tolist_single _ (@squeeze_single _ Ho)) as [x Ex].
  unfold Train.batch_step. rewrite Ey. cbn [iadd Py.bind]. rewrite Ex.
  cbn [iadd Py.bind].
  eexists. eexists. exists x. split; [reflexivity |].
  split; [reflexivity |]. cbn [y_true y_pred].
  split; [reflexivity |]. rewrite length_app. cbn. lia.
Qed.

(** ** The recorded epoch loss *)

Lemma val_running_loss (batches : list (batch image_batch)) :
  forall (w0 w1 : world opt_state) (r r1 : running),
    foldM (batch_step val) batches (w0, r) = Ok (w1, r1) ->
    running_loss r1
    = fold_left
        (fun acc b =>
           (acc + criterion (forward (training (model w0))
                                     (param_values (st w0) (model w0))
                                     (b_inputs b))
                            (b_labels b))%float)
        batches (running_loss r).
Proof.
  induction batches as [| data batches IH]; cbn [foldM fold_left];
    intros w0 w1 r r1 H.
  - congruence.
  - destruct (batch_step val (w0, r) data) as [[w2 r2] |] eqn:E;
      cbn [Py.bind] in H; [| discriminate].
    pose proof (batch_step_val_world _ _ _ E) as Hw. cbn in Hw. subst w2.
    rewrite (IH _ _ _ _ H). f_equal.
    unfold Train.batch_step in E. cbn [phase_eqb] in E.
    destruct (iadd (y_true r) _); cbn [Py.bind] in E; [| discriminate].
    destruct (iadd (y_pred r) _); cbn [Py.bind] in E; [| discriminate].
    now injection E as <-.
Qed.

(** The validation loss recorded for an epoch is the plain sum of the
    per-batch losses over the dataset size: no batch size enters it. *)
Lemma val_epoch_loss_is_plain_sum
      (dl : per_phase loader) (ds : per_phase Z) (name : string)
      (verbose : bool) (k epoch : Z) (l l' : locals opt_state) :
  run_phase dl ds name verbose k epoch l val = Ok l' ->
  exists epoch_loss,
    truediv
      (fold_left
         (fun acc b =>
            (acc + criterion (forward false (param_values (st (w l)) (model (w l)))
                                      (b_inputs b))
                             (b_labels b))%float)
         (iterate (get dl val) epoch) 0%float)
      (get ds val) = Ok epoch_loss
    /\ get (losses l') val = get (losses l) val ++ [epoch_loss].
Proof.
  intros H. apply run_phase_inv in H.
  destruct H as (w1 & r & el & er & Hf & Hd & _ & H).
  unfold enter_phase in Hf. apply val_running_loss in Hf.
  cbn [phase_eqb running_loss model st training module_train] in Hf.
  rewrite Hf in Hd. exists el. split; [exact Hd |].
  cbv zeta in H. cbn [phase_eqb] in H. unfold Train.after_val in H.
  destruct (best_r2 _ <? _)%float.
  - destruct (if use_gpu then _ else _) as [m1 s1].
    destruct (if use_gpu then _ else _) as [m2 s2].
    destruct H as [-> | ->]; reflexivity.
  - destruct H as [-> | ->]; reflexivity.
Qed.

End Facts.

End TrainFacts.


(** * Properties of the entry point *)

Module MainFacts.

Import Torch Train Loader Main Reference StoreFacts TrainFacts.

Local Open Scope nat_scope.

Lemma new_params_spec (dev : device) (vals : list ndarray) :
  forall (s s' : store) (ps : list Param),
    new_params dev vals s = (ps, s') ->
    map p_data ps = seq (next s) (List.length vals)
    /\ next s' = next s + List.length vals.
Proof.
  induction vals as [| v vals IH]; cbn; intros s s' ps H.
  - injection H as <- <-. cbn. split; [reflexivity | lia].
  - destruct (new_params dev vals _) as [qs s2] eqn:E.
    injection H as <- <-. destruct (IH _ _ _ E) as [Hm Hn]. cbn in *.
    split; [now rewrite Hm | lia].
Qed.

Lemma copy_values_next (own : list nat) :
  forall (ws : list ndarray) (s s' : store),
    copy_values own ws s = Ok s' -> next s' = next s.
Proof.
  induction own as [| a own IH]; intros [| v ws] s s' H; cbn in H;
    try discriminate.
  - now injection H as <-.
  - destruct (shape_eqb _ _); [| discriminate].
    now rewrite (IH _ _ _ H).
Qed.

Lemma freeze_data (ps : list Param) : map p_data (freeze ps) = map p_data ps.
Proof. unfold freeze. rewrite map_map. reflexivity. Qed.


Section Facts.

Variable use_gpu : bool.
Variable opt_state : Type.
Variable adam : float -> float -> opt_state.
Variable resnet18_body : list ndarray.
Variable resnet18_fc : list ndarray.
Variable linear_init : nat -> nat -> list ndarray.

Local Abbreviation build :=
  (build use_gpu adam resnet18_body resnet18_fc linear_init).

Lemma preload_next (a : args) (files : filesystem) (m : module) (s s' : store) :
  preload a files m s = Ok s' -> next s' = next s.
Proof.
  unfold preload. destruct (truthy _); [| now intros [= <-]].
  destruct (load _ files) as [[| | ws] |]; try discriminate.
  apply copy_values_next.
Qed.

Lemma replace_head_spec (a : args) (m m2 : module) (s s4 : store) :
  replace_head linear_init a m s = (m2, s4) ->
  exists k,
    state_dict m2 = map p_data (body m) ++ seq (next s) k
    /\ next s4 = next s + k.
Proof.
  unfold replace_head.
  destruct (new_params CPU _ s) as [head s5] eqn:Eh.
  intros [= <- <-].
  destruct (@new_params_spec _ _ _ _ _ Eh) as [Hh Hn].
  eexists. split; [| exact Hn].
  unfold state_dict, parameters. cbn [body fc]. rewrite map_app, Hh.
  f_equal. destruct (negb (fine_tune a)); cbn [body]; now rewrite ?freeze_data.
Qed.

(** The model that [train_model] receives is well formed, and the optimizer
    was given the parameters that [params] selects. *)
Lemma build_well_formed (a : args) (files : filesystem) (w0 : world opt_state) :
  build a files = Ok w0 ->
  well_formed (st w0) (model w0) /\ group (opt w0) = params a (model w0).
Proof.
  unfold Main.build, resnet18.
  destruct (new_params CPU resnet18_body empty_store) as [b s1] eqn:Eb.
  destruct (new_params CPU resnet18_fc s1) as [f s2] eqn:Ef.
  destruct (preload a files _ s2) as [s3 |] eqn:Ep; cbn [Py.bind];
    [| discriminate].
  destruct (replace_head linear_init a _ s3) as [m2 s4] eqn:Er.
  destruct (@new_params_spec _ _ _ _ _ Eb) as [Hb Hn1].
  destruct (@new_params_spec _ _ _ _ _ Ef) as [Hf Hn2].
  apply preload_next in Ep. cbn [next empty_store] in *.
  destruct (@replace_head_spec _ _ _ _ _ Er) as (k & Hsd & Hn4).
  cbn [body] in Hsd. rewrite Hb in Hsd.
  assert (Hwf2 : well_formed s4 m2).
  { split; unfold allocated; rewrite Hsd.
    - apply NoDup_app; try apply seq_NoDup.
      intros x. rewrite !in_seq. lia.
    - rewrite Forall_forall. intros x Hx.
      apply in_app_or in Hx. rewrite !in_seq in Hx. lia. }
  destruct use_gpu.
  - destruct (module_to CUDA m2 s4) as [m3 s5] eqn:Em.
    intros [= <-]. cbn [st model opt group].
    destruct (@module_to_spec _ _ _ _ _ Em (proj2 Hwf2))
      as (_ & _ & _ & _ & Ha & Hnd & _).
    split; [split; [apply Hnd, Hwf2 | exact Ha] | reflexivity].
  - intros [= <-]. cbn [st model opt group]. split; [exact Hwf2 | reflexivity].
Qed.

End Facts.

Section FineTune.

Variable use_gpu : bool.
Variable image_batch : Type.
Variable forward : bool -> list ndarray -> image_batch -> ndarray.
Variable criterion : ndarray -> ndarray -> float.
Variable opt_state : Type.
Variable descend : opt_state -> list ndarray -> batch image_batch -> nat -> ndarray.
Variable advance : opt_state -> list ndarray -> batch image_batch -> opt_state.
Variable plateau : float -> opt_state -> opt_state.
Variable r2_score : list pyval -> list pyval -> result float.
Variable loader : Type.
Variable iterate : loader -> Z -> list (batch image_batch).
Variable adam : float -> float -> opt_state.
Variable resnet18_body : list ndarray.
Variable resnet18_fc : list ndarray.
Variable linear_init : nat -> nat -> list ndarray.

(** C7: with fine-tuning switched off the optimizer is given exactly the
    parameters of the new regression head, and after [train_model] every
    parameter of the backbone holds the value it held before training. *)
Theorem frozen_backbone_without_fine_tune
        (a : args) (files : filesystem) (w0 : world opt_state) :
  fine_tune a = false ->
  build use_gpu adam resnet18_body resnet18_fc linear_init a files = Ok w0 ->
  group (opt w0) = head_positions (model w0)
  /\ forall (dl : per_phase loader) (ds : per_phase Z) (name : string)
            (num_epochs : Z) (verbose : bool) (k : Z) (lf : locals opt_state),
      train_model use_gpu forward criterion descend advance plateau r2_score
                  iterate w0 dl ds name num_epochs verbose k = Ok lf ->
      body_values (st (w lf)) (model (w lf)) = body_values (st w0) (model w0).
Proof.
  intros Hft Hb. destruct (@build_well_formed _ _ _ _ _ _ _ _ _ Hb) as [Hwf Hg].
  assert (Hh : group (opt w0) = head_positions (model w0)).
  { rewrite Hg. unfold params. now rewrite Hft. }
  split; [exact Hh |]. intros dl ds name num_epochs verbose k lf H.
  eapply train_model_keeps_body; eauto.
Qed.

End FineTune.

End MainFacts.


(** * The small instance, run *)

Module DemoFacts.

Import Torch Train Loader Main Reference Demo FloatFacts.

Local Open Scope float_scope.

Lemma value_of_ok {A : Type} (d : A) (m : result A) :
  is_ok m = true -> m = Ok (value d m).
Proof. destruct m; [reflexivity | discriminate]. Qed.

Lemma world0_ok (use_gpu : bool) : world0 use_gpu = Ok (start use_gpu).
Proof. apply value_of_ok. now destruct use_gpu; vm_compute. Qed.

Lemma epochs_of_run (use_gpu : bool) (n : Z) :
  epochs_of use_gpu n
  = run_epochs use_gpu forward criterion descend advance plateau r2_score
               iterate dataloaders dataset_sizes "demo" n false 20
               (init_locals (start use_gpu)).
Proof. unfold epochs_of. now rewrite world0_ok. Qed.

Lemma trained_run (use_gpu : bool) :
  trained use_gpu
  = train_model use_gpu forward criterion descend advance plateau r2_score
                iterate (start use_gpu) dataloaders dataset_sizes "demo" 2
                false 20.
Proof. unfold trained. now rewrite world0_ok. Qed.

(** A loader with batches of [batch_size >= 2] over a dataset whose size is
    congruent to 1 modulo [batch_size] ends with a batch of one sample. *)
Lemma final_batch_of_one (n batch_size : nat) :
  (2 <= batch_size)%nat -> (n mod batch_size = 1)%nat ->
  last (batch_sizes n batch_size) 0%nat = 1%nat.
Proof.
  intros _ H. unfold batch_sizes. rewrite H. cbn [Nat.eqb]. apply last_last.
Qed.

Lemma start_well_formed (use_gpu : bool) :
  well_formed (st (start use_gpu)) (model (start use_gpu)).
Proof.
  split; unfold allocated; destruct use_gpu; vm_compute;
    repeat constructor; cbn; intuition lia.
Qed.

Lemma two_is_not_one : (2 : float) <> 1.
Proof. now apply float_neq. Qed.

Lemma half_is_not_one : (0.5 : float) <> 1.
Proof. now apply float_neq. Qed.

(** C2: two validation batches of two samples, each with mean loss 1, over
    a dataset of four samples.  The code records 0.5 for the epoch; the
    batch-size-weighted mean of the per-batch mean losses is 1. *)
Theorem epoch_loss_ignores_batch_sizes :
  val_batch_losses (after_epochs false 2) = [(1, 2%nat); (1, 2%nat)]
  /\ get dataset_sizes val = 4%Z
  /\ last (get (losses (after_epochs false 2)) val) 0 = 0.5
  /\ weighted_mean_loss (val_batch_losses (after_epochs false 2))
                        (get dataset_sizes val) = 1
  /\ last (get (losses (after_epochs false 2)) val) 0
     <> weighted_mean_loss (val_batch_losses (after_epochs false 2))
                           (get dataset_sizes val).
Proof.
  assert (H1 : last (get (losses (after_epochs false 2)) val) 0 = 0.5)
    by (vm_compute; reflexivity).
  assert (H2 : weighted_mean_loss (val_batch_losses (after_epochs false 2))
                                  (get dataset_sizes val) = 1)
    by (vm_compute; reflexivity).
  split; [vm_compute; reflexivity |]. split; [reflexivity |].
  split; [exact H1 |]. split; [exact H2 |].
  rewrite H1, H2. exact half_is_not_one.
Qed.

(** C4: without a GPU the saved state dict is the live tensors.  Epoch 1 is
    the best epoch (validation R2 1, then 0) and ends with the head at 1, but
    after epoch 2 the saved dict holds the head at 2; with a GPU the saved
    dict still holds the head at 1. *)
Theorem cpu_snapshot_follows_later_training :
  get (r2s (after_epochs false 2)) val = [1; 0]
  /\ best_r2 (after_epochs false 2) = 1
  /\ live_values (after_epochs false 1)
     = [vec [1]; NdArray [1%nat; 1%nat] [1]; vec [1]]
  /\ best_values (after_epochs false 2)
     = [vec [1]; NdArray [1%nat; 1%nat] [2]; vec [2]]
  /\ best_values (after_epochs true 2)
     = [vec [1]; NdArray [1%nat; 1%nat] [1]; vec [1]].
Proof. repeat split; vm_compute; reflexivity. Qed.

(** C3 as stated fails: with a GPU, epoch 1 is the best epoch and ends with
    the head at 1, yet the model file of the final checkpoint written by
    [train_model] holds the head at 2, the parameters of the last epoch. *)
Lemma final_checkpoint_holds_last_epoch :
  get (r2s (final true)) val = [1; 0]
  /\ best_r2 (final true) = 1
  /\ live_values (after_epochs true 1)
     = [vec [1]; NdArray [1%nat; 1%nat] [1]; vec [1]]
  /\ load (Path "demo" "" "saved_model.model") (fs (w (final true)))
     = Some (StateDict [vec [1]; NdArray [1%nat; 1%nat] [2]; vec [2]])
  /\ load (Path "demo" "" "saved_model.model") (fs (w (final true)))
     <> Some (StateDict (live_values (after_epochs true 1))).
Proof.
  assert (H : load (Path "demo" "" "saved_model.model") (fs (w (final true)))
              = Some (StateDict [vec [1]; NdArray [1%nat; 1%nat] [2]; vec [2]]))
    by (vm_compute; reflexivity).
  assert (H1 : live_values (after_epochs true 1)
               = [vec [1]; NdArray [1%nat; 1%nat] [1]; vec [1]])
    by (vm_compute; reflexivity).
  split; [vm_compute; reflexivity |]. split; [vm_compute; reflexivity |].
  split; [exact H1 |]. split; [exact H |].
  rewrite H, H1. intros E.
  apply (f_equal (fun c => match c with
                           | Some (StateDict ws) => scalar (nth 1 ws (vec []))
                           | _ => 0
                           end)) in E.
  vm_compute in E. exact (two_is_not_one E).
Qed.

(** C5, at the first and the second epoch of the run without a GPU. *)
Lemma best_r2_monotone_strict_replacement_witness :
  (best_r2 (after_epochs false 1) <=? best_r2 (after_epochs false 2)) = true.
Proof.
  refine (proj1 (@TrainFacts.best_r2_monotone_strict_replacement
                   false _ forward criterion _ descend advance plateau r2_score
                   _ iterate dataloaders dataset_sizes "demo" false 20%Z 1%Z 2%Z
                   (start false) (after_epochs false 1) (after_epochs false 2)
                   _ _ _)).
  - lia.
  - rewrite <- epochs_of_run. apply value_of_ok. vm_compute. reflexivity.
  - rewrite <- epochs_of_run. apply value_of_ok. vm_compute. reflexivity.
Defined.

(** C6, at a validation phase that takes a snapshot on the GPU. *)
Lemma val_phase_leaves_parameters_witness :
  param_values (st (w first_val_phase)) (model (w first_val_phase))
  = param_values (st (start true)) (model (start true)).
Proof.
  refine (proj1 (@TrainFacts.val_phase_leaves_parameters
                   true _ forward criterion _ descend advance plateau r2_score
                   _ iterate dataloaders dataset_sizes "demo" false 20%Z 1%Z
                   (init_locals (start true)) first_val_phase _ _)).
  - exact (proj2 (start_well_formed true)).
  - apply value_of_ok. vm_compute. reflexivity.
Defined.

(** C3 (amended), at the run with a GPU. *)
Lemma final_checkpoint_written_before_restore_witness :
  exists l : locals unit,
    run_epochs true forward criterion descend advance plateau r2_score iterate
               dataloaders dataset_sizes "demo" 2 false 20
               (init_locals (start true)) = Ok l
    /\ load (Path "demo" "" "saved_model.model") (fs (w (final true)))
       = Some (StateDict (param_values (st (w l)) (model (w l))))
    /\ param_values (st (w (final true))) (model (w (final true)))
       = map (read (st (w l))) (best_model_wts l).
Proof.
  refine (@TrainFacts.final_checkpoint_written_before_restore
            true _ forward criterion _ descend advance plateau r2_score
            _ iterate dataloaders dataset_sizes "demo" 2%Z false 20%Z
            (start true) (final true) _ _).
  - exact (start_well_formed true).
  - rewrite <- trained_run. apply value_of_ok. vm_compute. reflexivity.
Defined.

(** C9 as stated fails: three training samples in batches of two leave a
    final batch of one sample; its 1-by-1 output squeezes to a vector of one
    element, and [train_model] returns instead of raising a type error. *)
Lemma single_sample_final_batch_does_not_abort :
  batch_sizes 3 2 = [2%nat; 1%nat]
  /\ map (fun b => size0 (b_labels b)) (get dataloaders_odd train)
     = [2%nat; 1%nat]
  /\ shape (squeeze (forward true (live_values (init_locals (start false)))
                             (b_inputs single_batch)))
     = [1%nat]
  /\ is_ok (train_model false forward criterion descend advance plateau
                        r2_score iterate (start false) dataloaders_odd
                        dataset_sizes_odd "demo" 2 false 20)
     = true.
Proof. repeat split; vm_compute; reflexivity. Qed.

(** C9 (amended), at the batch of one sample. *)
Lemma single_sample_batch_is_collected_witness :
  exists w1 r1 x,
    tolist (squeeze (forward (training (model (start false)))
                             (param_values (st (start false))
                                           (model (start false)))
                             (b_inputs single_batch)))
    = PyList [PyFloat x]
    /\ batch_step forward criterion descend advance train
                  (start false, Running [] [] 0) single_batch
       = Ok (w1, r1)
    /\ y_pred r1 = y_pred (Running [] [] 0) ++ [PyFloat x]
    /\ List.length (y_true r1) = S (List.length (y_true (Running [] [] 0))).
Proof.
  apply (@TrainFacts.single_sample_batch_is_collected
           _ forward criterion _ descend advance train (start false)
           (Running [] [] 0) single_batch);
    reflexivity.
Defined.

(** C7, at the demo arguments, which switch fine-tuning off. *)
Lemma frozen_backbone_without_fine_tune_witness :
  group (opt (start true)) = head_positions (model (start true))
  /\ forall (dl : per_phase (list (batch (list float)))) (ds : per_phase Z)
            (name : string) (num_epochs : Z) (verbose : bool) (k : Z)
            (lf : locals unit),
      train_model true forward criterion descend advance plateau r2_score
                  iterate (start true) dl ds name num_epochs verbose k = Ok lf ->
      body_values (st (w lf)) (model (w lf))
      = body_values (st (start true)) (model (start true)).
Proof.
  refine (@MainFacts.frozen_backbone_without_fine_tune
            true _ forward criterion _ descend advance plateau r2_score
            _ iterate (fun _ _ => tt) resnet18_body resnet18_fc linear_init
            demo_args [] (start true) _ _).
  - reflexivity.
  - exact (world0_ok true).
Defined.

End DemoFacts.


(** * More on [load_dataset] *)

Module LoaderMore.

Import Loader Observations.

Section Facts.

Variable dataset : Type.
Variable construct : dataset_class -> adapter_args -> result dataset.
Variable len : dataset -> Z.

(** X1: with a supported country, an exception of an adapter's constructor
    is the exception of [load_dataset].  When the train adapter fails the
    validation adapter is never constructed; when the validation adapter
    fails the train adapter has been constructed before it. *)
Theorem adapter_failure_propagates
        (train_csv_path val_csv_path train_data_dir val_data_dir : string)
        (country label sat_type : string) (year batch_size : Z)
        (train_frac : float) (cls : dataset_class) :
  select_class country = Ok cls ->
  let train_args :=
    AdapterArgs train_csv_path train_data_dir label
                (get (data_transforms sat_type) train) sat_type year train_frac in
  let val_args :=
    AdapterArgs val_csv_path val_data_dir label
                (get (data_transforms sat_type) val) sat_type year train_frac in
  let result :=
    load_dataset construct len train_csv_path val_csv_path train_data_dir
                 val_data_dir country label sat_type year batch_size train_frac in
  (forall e, construct cls train_args = Raise e ->
             result = (Raise e, [(cls, train_args)]))
  /\ (forall d e, construct cls train_args = Ok d ->
                  construct cls val_args = Raise e ->
                  result = (Raise e, [(cls, train_args); (cls, val_args)])).
Proof.
  intros Hc train_args val_args result. subst result train_args val_args.
  unfold load_dataset, new_dataset. rewrite Hc. cbv zeta. split.
  - intros e He. now rewrite He.
  - intros d e Hd He. rewrite Hd. cbn [app]. now rewrite He.
Qed.

(** X2: when [load_dataset] returns, both adapters were constructed, the
    train one first; the train loader shuffles and the validation loader
    does not; both loaders have the given batch size and eight workers; the
    dataset sizes are the lengths of the two adapters. *)
Theorem loaders_of_a_successful_load
        (train_csv_path val_csv_path train_data_dir val_data_dir : string)
        (country label sat_type : string) (year batch_size : Z)
        (train_frac : float) :
  let train_args :=
    AdapterArgs train_csv_path train_data_dir label
                (get (data_transforms sat_type) train) sat_type year train_frac in
  let val_args :=
    AdapterArgs val_csv_path val_data_dir label
                (get (data_transforms sat_type) val) sat_type year train_frac in
  let result :=
    load_dataset construct len train_csv_path val_csv_path train_data_dir
                 val_data_dir country label sat_type year batch_size train_frac in
  is_ok (fst result) = true ->
  exists cls train_dataset val_dataset,
    select_class country = Ok cls
    /\ construct cls train_args = Ok train_dataset
    /\ construct cls val_args = Ok val_dataset
    /\ result
       = (Ok (PerPhase (MkDataLoader train_dataset batch_size 8 true)
                       (MkDataLoader val_dataset batch_size 8 false),
              PerPhase (len train_dataset) (len val_dataset)),
          [(cls, train_args); (cls, val_args)]).
Proof.
  intros train_args val_args result. subst result train_args val_args.
  unfold load_dataset, new_dataset.
  destruct (select_class country) as [cls |]; [| discriminate]. cbv zeta.
  destruct (construct cls (AdapterArgs train_csv_path _ _ _ _ _ _))
    as [d1 |] eqn:E1; [| discriminate].
  cbn [app].
  destruct (construct cls (AdapterArgs val_csv_path _ _ _ _ _ _))
    as [d2 |] eqn:E2; [| discriminate].
  intros _. exists cls, d1, d2. repeat split; assumption.
Qed.

End Facts.

(** X3: the validation pipeline is the train pipeline without its one
    randomized transform, the horizontal flip; no transform of the validation
    pipeline draws random numbers. *)
Theorem val_pipeline_is_train_without_flip (sat_type : string) :
  get (data_transforms sat_type) val
  = filter (fun t => negb (randomized t)) (get (data_transforms sat_type) train)
  /\ forallb (fun t => negb (randomized t)) (get (data_transforms sat_type) val)
     = true
  /\ existsb randomized (get (data_transforms sat_type) train) = true.
Proof.
  unfold data_transforms, sat_transforms, Compose.
  destruct (String.eqb sat_type "s1"); repeat split.
Qed.

(** X1, at a train manifest and at a validation manifest that cannot be
    read. *)
Lemma adapter_failure_propagates_witness :
  load_dataset picky Demo.len "missing.csv" "v.csv" "img" "img" "india" "y"
               "s1" 2015 128 1%float
  = (Raise (OSError "File missing.csv does not exist"),
     [(IndiaDataset,
       AdapterArgs "missing.csv" "img" "y" (get (data_transforms "s1") train)
                   "s1" 2015 1%float)])
  /\ load_dataset picky Demo.len "t.csv" "missing.csv" "img" "img" "india" "y"
                  "s1" 2015 128 1%float
     = (Raise (OSError "File missing.csv does not exist"),
        [(IndiaDataset,
          AdapterArgs "t.csv" "img" "y" (get (data_transforms "s1") train)
                      "s1" 2015 1%float);
         (IndiaDataset,
          AdapterArgs "missing.csv" "img" "y" (get (data_transforms "s1") val)
                      "s1" 2015 1%float)]).
Proof.
  split.
  - apply (proj1 (@adapter_failure_propagates
                    _ picky Demo.len "missing.csv" "v.csv" "img" "img" "india"
                    "y" "s1" 2015 128 1%float IndiaDataset eq_refl)).
    reflexivity.
  - eapply (proj2 (@adapter_failure_propagates
                     _ picky Demo.len "t.csv" "missing.csv" "img" "img" "india"
                     "y" "s1" 2015 128 1%float IndiaDataset eq_refl));
      reflexivity.
Defined.

(** X2, at the two adapters of India. *)
Lemma loaders_of_a_successful_load_witness :
  exists cls train_dataset val_dataset,
    select_class "india" = Ok cls
    /\ Demo.construct cls
         (AdapterArgs "t.csv" "img" "y" (get (data_transforms "s1") train)
                      "s1" 2015 0.5%float) = Ok train_dataset
    /\ Demo.construct cls
         (AdapterArgs "v.csv" "img" "y" (get (data_transforms "s1") val)
                      "s1" 2015 0.5%float) = Ok val_dataset
    /\ load_dataset Demo.construct Demo.len "t.csv" "v.csv" "img" "img" "india"
                    "y" "s1" 2015 128 0.5%float
       = (Ok (PerPhase (MkDataLoader train_dataset 128 8 true)
                       (MkDataLoader val_dataset 128 8 false),
              PerPhase (Demo.len train_dataset) (Demo.len val_dataset)),
          [(cls, AdapterArgs "t.csv" "img" "y" (get (data_transforms "s1") train)
                             "s1" 2015 0.5%float);
           (cls, AdapterArgs "v.csv" "img" "y" (get (data_transforms "s1") val)
                             "s1" 2015 0.5%float)]).
Proof.
  apply (@loaders_of_a_successful_load
           _ Demo.construct Demo.len "t.csv" "v.csv" "img" "img" "india" "y"
           "s1" 2015 128 0.5%float).
  reflexivity.
Defined.

End LoaderMore.


(** * File names *)

Module PathFacts.

Import Train Observations.

Local Open Scope string_scope.

Lemma append_assoc (a b c : string) : (a ++ b) ++ c = a ++ b ++ c.
Proof. induction a as [| x a IH]; cbn; [reflexivity | now rewrite IH]. Qed.

Lemma append_cancel (a b c : string) : a ++ b = a ++ c -> b = c.
Proof.
  induction a as [| x a IH]; cbn; [auto |]. intros H. injection H as H. auto.
Qed.

Lemma append_empty (a b : string) : b <> "" -> a ++ b <> "".
Proof. destruct a; cbn; [auto | discriminate]. Qed.

Lemma ends_with_separator_append (a b : string) :
  b <> "" -> ends_with_separator (a ++ b) = ends_with_separator b.
Proof.
  intros Hb. induction a as [| x a IH]; [reflexivity |].
  cbn [append ends_with_separator].
  destruct (a ++ b) eqn:E; [| exact IH].
  exfalso. revert E. now apply append_empty.
Qed.

Lemma separator_free_start (s : string) :
  has_separator s = false -> starts_with_separator s = false.
Proof. destruct s; cbn; [auto |]. now intros [H _]%orb_false_iff. Qed.

Lemma separator_free_end (s : string) :
  has_separator s = false -> ends_with_separator s = false.
Proof.
  induction s as [| x s IH]; [auto |]. cbn [has_separator ends_with_separator].
  intros [H1 H2]%orb_false_iff. destruct s; auto.
Qed.

(** Two names without a separator, each followed by one, are the same name
    when the results are the same string. *)
Lemma separator_free_split (a a' r r' : string) :
  has_separator a = false -> has_separator a' = false ->
  a ++ String "/" r = a' ++ String "/" r' -> a = a'.
Proof.
  revert a'. induction a as [| x a IH]; intros [| x' a']; cbn;
    intros H H' E.
  - reflexivity.
  - injection E as <- _. discriminate.
  - injection E as -> _. discriminate.
  - apply orb_false_iff in H, H'. injection E as -> E.
    f_equal. now apply IH.
Qed.

Lemma models_dir_ends (home_dir : string) :
  ends_with_separator (join home_dir "predicting-poverty/models/") = true.
Proof.
  unfold join. cbn [starts_with_separator].
  change (("p" =? "/")%char) with false. cbv iota.
  destruct (_ || _); now rewrite ends_with_separator_append.
Qed.

(** A path whose run is a single name, and whose subdirectory and file are
    relative, is a file of the run's directory below the models directory. *)
Lemma location_below_run (home_dir : string) (p : path) :
  p_run p <> "" -> has_separator (p_run p) = false ->
  starts_with_separator (p_sub p) = false ->
  starts_with_separator (p_file p) = false ->
  exists rest,
    location home_dir p
    = join home_dir "predicting-poverty/models/" ++ p_run p ++ String "/" rest.
Proof.
  intros Hne Hrun Hsub Hfile. unfold location.
  set (models := join home_dir "predicting-poverty/models/").
  assert (E1 : join models (p_run p) = models ++ p_run p).
  { unfold join. rewrite separator_free_start by exact Hrun.
    unfold models. now rewrite models_dir_ends, orb_true_r. }
  rewrite E1.
  assert (E2 : join (models ++ p_run p) (p_sub p)
               = models ++ p_run p ++ String "/" (p_sub p)).
  { unfold join. rewrite Hsub.
    rewrite ends_with_separator_append by exact Hne.
    rewrite separator_free_end by exact Hrun.
    destruct (String.eqb_spec (models ++ p_run p) "") as [E | _].
    - exfalso. revert E. now apply append_empty.
    - cbn [orb]. now rewrite append_assoc. }
  rewrite E2. unfold join at 1. rewrite Hfile.
  destruct (_ || _); rewrite !append_assoc; cbn [append]; eauto.
Qed.

(** Files of two runs with different single names have different names. *)
Lemma location_of_another_run (home_dir : string) (p q : path) :
  p_run p <> "" -> has_separator (p_run p) = false ->
  starts_with_separator (p_sub p) = false ->
  starts_with_separator (p_file p) = false ->
  p_run q <> "" -> has_separator (p_run q) = false ->
  starts_with_separator (p_sub q) = false ->
  starts_with_separator (p_file q) = false ->
  p_run p <> p_run q ->
  location home_dir p <> location home_dir q.
Proof.
  intros P1 P2 P3 P4 Q1 Q2 Q3 Q4 Hd E.
  destruct (@location_below_run home_dir p P1 P2 P3 P4) as [r Er].
  destruct (@location_below_run home_dir q Q1 Q2 Q3 Q4) as [r' Er'].
  rewrite Er, Er' in E. apply append_cancel in E.
  apply Hd. eapply separator_free_split; eauto.
Qed.

Lemma component_facts (s : string) :
  component s = true ->
  s <> "" /\ has_separator s = false /\ starts_with_separator s = false.
Proof.
  unfold component. rewrite !andb_true_iff, !negb_true_iff.
  intros [[[H1 _] _] H2]. apply String.eqb_neq in H1.
  auto using separator_free_start.
Qed.

Lemma plain_facts (p : path) :
  plain p = true ->
  p_run p <> "" /\ has_separator (p_run p) = false
  /\ starts_with_separator (p_sub p) = false
  /\ starts_with_separator (p_file p) = false.
Proof.
  unfold plain. rewrite !andb_true_iff, orb_true_iff.
  intros [[H1 H2] H3].
  apply component_facts in H1, H3. destruct H1 as (A & B & _), H3 as (_ & _ & C).
  repeat split; auto.
  destruct H2 as [->%String.eqb_eq | H2]; [reflexivity |].
  now apply component_facts in H2.
Qed.

Lemma str_relative (z : Z) : starts_with_separator (str z) = false.
Proof.
  unfold str. destruct z as [| p | p]; cbn; [reflexivity | |];
    now destruct (Pos.to_uint p).
Qed.

Lemma epoch_prefix_relative (e : option Z) :
  starts_with_separator (epoch_prefix e) = false.
Proof.
  destruct e as [z |]; cbn; [| reflexivity].
  destruct (z =? 0)%Z; [reflexivity | apply str_relative].
Qed.

(** A run name with a separator in it: the final checkpoint of the run
    [demo/1] and the first epoch's checkpoint of the run [demo] are the same
    files. *)
Lemma nested_run_name_is_a_subdirectory :
  location "/home/u" (Path "demo/1" "" "saved_model.model")
  = location "/home/u" (Path "demo" (str 1) "saved_model.model")
  /\ location "/home/u" (Path "demo" (str 1) "saved_model.model")
     = "/home/u/predicting-poverty/models/demo/1/saved_model.model".
Proof. split; vm_compute; reflexivity. Qed.

End PathFacts.


(** * Checkpoints *)

Module CheckpointFacts.

Import Torch Train Observations TrainFacts PathFacts.

Lemma path_eqb_eq (p q : path) : path_eqb p q = true <-> p = q.
Proof.
  split; [| intros ->; apply path_eqb_refl].
  unfold path_eqb. destruct p as [r s f], q as [r' s' f']. cbn.
  rewrite !andb_true_iff, !String.eqb_eq. intros [[-> ->] ->]. reflexivity.
Qed.

Lemma load_app (p : path) (a b : filesystem) :
  load p (a ++ b)
  = match load p a with Some c => Some c | None => load p b end.
Proof.
  induction a as [| [q c] a IH]; cbn; [reflexivity |].
  now destruct (path_eqb p q).
Qed.

Lemma load_not_in (p : path) (a : filesystem) :
  ~ In p (map fst a) -> load p a = None.
Proof.
  induction a as [| [q c] a IH]; cbn; intros H; [reflexivity |].
  destruct (path_eqb p q) eqn:E.
  - apply path_eqb_eq in E. subst. exfalso. apply H. now left.
  - apply IH. intros Hin. apply H. now right.
Qed.

Lemma load_behind (p : path) (a b : filesystem) :
  ~ In p (map fst a) -> load p (a ++ b) = load p b.
Proof. intros H. now rewrite load_app, load_not_in. Qed.

(** What [save_logs] writes, and what it leaves. *)
Lemma save_logs_fs {opt_state : Type} (name : string) (epoch_no : option Z)
      (l : locals opt_state) :
  fs (w (save_logs name epoch_no l)) = checkpoint name epoch_no l ++ fs (w l).
Proof. reflexivity. Qed.

Lemma checkpoint_run {opt_state : Type} (name : string) (epoch_no : option Z)
      (l : locals opt_state) (p : path) :
  In p (map fst (checkpoint name epoch_no l)) ->
  p_run p = name /\ p_sub p = epoch_prefix epoch_no.
Proof.
  unfold checkpoint. cbn [map fst In].
  intros H. repeat (destruct H as [<- | H]; [now split |]). contradiction.
Qed.

Lemma checkpoint_relative {opt_state : Type} (name : string)
      (epoch_no : option Z) (l : locals opt_state) (p : path) :
  In p (map fst (checkpoint name epoch_no l)) ->
  starts_with_separator (p_file p) = false.
Proof.
  unfold checkpoint. cbn [map fst In].
  intros H. repeat (destruct H as [<- | H]; [reflexivity |]). contradiction.
Qed.

Lemma load_at_behind (home_dir s : string) (a b : filesystem) :
  (forall q, In q (map fst a) -> location home_dir q <> s) ->
  load_at home_dir s (a ++ b) = load_at home_dir s b.
Proof.
  induction a as [| [q c] a IH]; cbn [app load_at map fst In]; intros H;
    [reflexivity |].
  destruct (String.eqb_spec (location home_dir q) s) as [E | _].
  - exfalso. now apply (H q); [left |].
  - apply IH. intros q' Hq'. apply H. now right.
Qed.

(** A checkpoint of a run with a single name is written to other file names
    than those of the files of another run. *)
Lemma checkpoint_elsewhere {opt_state : Type} (home_dir name : string)
      (epoch_no : option Z) (l : locals opt_state) (p : path)
      (b : filesystem) :
  component name = true -> plain p = true -> p_run p <> name ->
  load_at home_dir (location home_dir p) (checkpoint name epoch_no l ++ b)
  = load_at home_dir (location home_dir p) b.
Proof.
  intros Hn Hp Hd. apply load_at_behind. intros q Hq.
  pose proof (checkpoint_relative Hq) as Hf.
  apply checkpoint_run in Hq. destruct Hq as [Hr Hs].
  apply component_facts in Hn. destruct Hn as (N1 & N2 & _).
  apply plain_facts in Hp. destruct Hp as (P1 & P2 & P3 & P4).
  apply location_of_another_run; auto; try congruence.
  rewrite Hs. apply epoch_prefix_relative.
Qed.

(** X4: [save_logs] followed by a load gives back, for each of its seven
    files, what the call was to write: no file of a checkpoint is overwritten
    by another file of the same checkpoint. *)
Theorem checkpoint_files_load_back {opt_state : Type} (name : string)
        (epoch_no : option Z) (l : locals opt_state) :
  let files := fs (w (save_logs name epoch_no l)) in
  let basedir := Path name (epoch_prefix epoch_no) in
  load (basedir "y_pred.npy"%string) files = Some (NpyList (best_y_pred l))
  /\ load (basedir "y_true.npy"%string) files = Some (NpyList (best_y_true l))
  /\ load (basedir "losses_train.npy"%string) files
     = Some (NpyArray (get (losses l) train))
  /\ load (basedir "losses_val.npy"%string) files
     = Some (NpyArray (get (losses l) val))
  /\ load (basedir "rsq_train.npy"%string) files
     = Some (NpyArray (get (r2s l) train))
  /\ load (basedir "rsq_val.npy"%string) files
     = Some (NpyArray (get (r2s l) val))
  /\ load (basedir "saved_model.model"%string) files
     = Some (StateDict (param_values (st (w l)) (model (w l)))).
Proof.
  cbv zeta. rewrite save_logs_fs. unfold checkpoint.
  cbn [app load]. unfold path_eqb. cbn [p_run p_sub p_file].
  rewrite !String.eqb_refl. repeat split.
Qed.

(** X5: a second [save_logs] with the same name and epoch tag right after a
    first changes the content of no file. *)
Theorem save_logs_twice_is_once {opt_state : Type} (name : string)
        (epoch_no : option Z) (l : locals opt_state) (p : path) :
  load p (fs (w (save_logs name epoch_no (save_logs name epoch_no l))))
  = load p (fs (w (save_logs name epoch_no l))).
Proof.
  rewrite (save_logs_fs name epoch_no (save_logs name epoch_no l)).
  change (checkpoint name epoch_no (save_logs name epoch_no l))
    with (checkpoint name epoch_no l).
  rewrite save_logs_fs, !load_app.
  now destruct (load p (checkpoint name epoch_no l)).
Qed.


(** ** Directories of different epochs *)






End CheckpointFacts.


(** * More on the order of binary64 floats *)

Module FloatMore.

Import Reference FloatFacts.

Lemma SFltb_irrefl (x : spec_float) : SFltb x x = false.
Proof.
  unfold SFltb.
  destruct x as [[]|[]| |[] m e]; cbn;
    rewrite ?Z.compare_refl, ?Pos.compare_cont_refl; reflexivity.
Qed.

Lemma SFltb_trans (x y z : spec_float) :
  SFltb x y = true -> SFltb y z = true -> SFltb x z = true.
Proof.
  unfold SFltb.
  destruct x as [[]|[]| |[] mx ex], y as [[]|[]| |[] my ey],
           z as [[]|[]| |[] mz ez];
    cbn; try congruence; intros;
    change (Pos.compare_cont Eq) with Pos.compare in *;
    compare_cases; cbn in *; try congruence; try lia.
Qed.

Lemma SFltb_leb_false (x y : spec_float) :
  SFltb x y = true -> SFleb y x = true -> False.
Proof.
  unfold SFltb, SFleb.
  destruct x as [[]|[]| |[] mx ex], y as [[]|[]| |[] my ey];
    cbn; try congruence; intros;
    change (Pos.compare_cont Eq) with Pos.compare in *;
    compare_cases; cbn in *; try congruence; try lia.
Qed.

Lemma SFltb_neg_infinity (x : spec_float) : SFltb x (S754_infinity true) = false.
Proof. destruct x as [[]|[]| |[] m e]; reflexivity. Qed.

Local Open Scope float_scope.

Lemma ltb_irrefl (x : float) : (x <? x) = false.
Proof. rewrite ltb_spec. apply SFltb_irrefl. Qed.

Lemma ltb_trans (x y z : float) :
  (x <? y) = true -> (y <? z) = true -> (x <? z) = true.
Proof. rewrite !ltb_spec. apply SFltb_trans. Qed.

Lemma ltb_leb_false (x y : float) :
  (x <? y) = true -> (y <=? x) = true -> False.
Proof. rewrite ltb_spec, leb_spec. apply SFltb_leb_false. Qed.

Lemma ltb_not_neg_infinity (x y : float) :
  (x <? y) = true -> y <> neg_infinity.
Proof.
  intros H ->. rewrite ltb_spec in H.
  replace (Prim2SF neg_infinity) with (S754_infinity true) in H by reflexivity.
  rewrite SFltb_neg_infinity in H. discriminate.
Qed.

End FloatMore.


(** * More on [train_model] *)

Module RunFacts.

Import Torch Train Reference Observations.
Import FloatFacts FloatMore LoopFacts StoreFacts TrainFacts CheckpointFacts.

Section Facts.

Variable use_gpu : bool.
Variable image_batch : Type.
Variable forward : bool -> list ndarray -> image_batch -> ndarray.
Variable criterion : ndarray -> ndarray -> float.
Variable opt_state : Type.
Variable descend : opt_state -> list ndarray -> batch image_batch -> nat -> ndarray.
Variable advance : opt_state -> list ndarray -> batch image_batch -> opt_state.
Variable plateau : float -> opt_state -> opt_state.
Variable r2_score : list pyval -> list pyval -> result float.
Variable loader : Type.
Variable iterate : loader -> Z -> list (batch image_batch).

Local Abbreviation batch_step := (batch_step forward criterion descend advance).
Local Abbreviation after_val := (after_val use_gpu plateau).
Local Abbreviation run_phase :=
  (run_phase use_gpu forward criterion descend advance plateau r2_score iterate).
Local Abbreviation run_epoch :=
  (run_epoch use_gpu forward criterion descend advance plateau r2_score iterate).
Local Abbreviation run_epochs :=
  (run_epochs use_gpu forward criterion descend advance plateau r2_score iterate).
Local Abbreviation train_model :=
  (train_model use_gpu forward criterion descend advance plateau r2_score iterate).

(** ** The shape of a run *)

Lemma run_phase_cases (dl : per_phase loader) (ds : per_phase Z) (name : string)
      (verbose : bool) (k epoch : Z) (l l' : locals opt_state) (ph : phase) :
  run_phase dl ds name verbose k epoch l ph = Ok l' ->
  exists w1 r epoch_loss epoch_r2,
    foldM (batch_step ph) (iterate (get dl ph) epoch) (enter_phase ph (w l))
    = Ok (w1, r)
    /\ truediv (running_loss r) (get ds ph) = Ok epoch_loss
    /\ r2_score (y_true r) (y_pred r) = Ok epoch_r2
    /\ let l1 := record_metrics ph epoch_loss epoch_r2 w1 l in
       let l2 := if phase_eqb ph val then after_val epoch_r2 r l1 else l1 in
       (l' = l2 /\ (verbose = false \/ epoch mod k <> 0))
       \/ (l' = save_logs name (Some epoch) l2
           /\ verbose = true /\ k <> 0 /\ epoch mod k = 0).
Proof.
  unfold Train.run_phase. intros H.
  destruct (foldM _ _ _) as [[w1 r] |] eqn:Ef; cbn in H; [| discriminate].
  destruct (truediv _ _) as [epoch_loss |] eqn:Ed; cbn in H; [| discriminate].
  destruct (r2_score _ _) as [epoch_r2 |] eqn:Er; cbn in H; [| discriminate].
  exists w1, r, epoch_loss, epoch_r2.
  split; [reflexivity | split; [exact Ed | split; [exact Er |]]].
  cbv zeta.
  destruct verbose; [| left; split; [congruence | now left]].
  destruct (Z.eqb_spec k 0) as [Hk | Hk]; [discriminate |].
  destruct (Z.eqb_spec (epoch mod k) 0) as [Hm | Hm].
  - right. repeat split; auto; congruence.
  - left. split; [congruence | now right].
Qed.

Lemma train_model_inv (w0 : world opt_state) (dl : per_phase loader)
      (ds : per_phase Z) (name : string) (n : Z) (verbose : bool) (k : Z)
      (lf : locals opt_state) :
  train_model w0 dl ds name n verbose k = Ok lf ->
  exists l, run_epochs dl ds name n verbose k (init_locals w0) = Ok l
            /\ lf = finish name l.
Proof.
  unfold Train.train_model. intros H.
  destruct (run_epochs dl ds name n verbose k (init_locals w0)) as [l |];
    cbn [Py.bind] in H; [| discriminate].
  exists l. split; [reflexivity | congruence].
Qed.

(** ** What a batch, the bookkeeping and the last lines leave alone *)

Lemma batch_step_keeps (ph : phase) (acc acc' : world opt_state * running)
      (data : batch image_batch) :
  batch_step ph acc data = Ok acc' ->
  model (fst acc') = model (fst acc)
  /\ fs (fst acc') = fs (fst acc)
  /\ group (opt (fst acc')) = group (opt (fst acc)).
Proof.
  destruct acc as [w0 r]. unfold Train.batch_step.
  destruct (iadd (y_true r) _); cbn [Py.bind]; [| discriminate].
  destruct (iadd (y_pred r) _); cbn [Py.bind]; [| discriminate].
  destruct (phase_eqb ph train).
  - unfold optimizer_step. intros [= <-]. cbn [fst model fs opt group]. auto.
  - intros [= <-]. auto.
Qed.

Lemma batches_keep (ph : phase) (batches : list (batch image_batch))
      (acc acc' : world opt_state * running) :
  foldM (batch_step ph) batches acc = Ok acc' ->
  model (fst acc') = model (fst acc)
  /\ fs (fst acc') = fs (fst acc)
  /\ group (opt (fst acc')) = group (opt (fst acc)).
Proof.
  intros H.
  eapply (@foldM_invariant _ _
            (fun a => model (fst a) = model (fst acc)
                      /\ fs (fst a) = fs (fst acc)
                      /\ group (opt (fst a)) = group (opt (fst acc))));
    [| | exact H]; [| auto].
  intros a x a' _ (H1 & H2 & H3) Hs.
  destruct (batch_step_keeps _ _ _ Hs) as (K1 & K2 & K3).
  repeat split; congruence.
Qed.

Lemma after_val_keeps (epoch_r2 : float) (r : running) (l : locals opt_state) :
  let l' := after_val epoch_r2 r l in
  fs (w l') = fs (w l)
  /\ training (model (w l')) = training (model (w l))
  /\ group (opt (w l')) = group (opt (w l))
  /\ losses l' = losses l /\ r2s l' = r2s l.
Proof.
  cbv zeta. unfold Train.after_val.
  destruct (best_r2 l <? epoch_r2)%float; [| cbn; auto].
  destruct use_gpu; [| cbn; auto].
  destruct (module_to CPU (model (w l)) (st (w l))) as [m1 s1] eqn:E1.
  destruct (module_to CUDA m1 s1) as [m2 s2] eqn:E2. cbn.
  destruct (@module_to_params _ _ _ _ _ E1) as (_ & _ & _ & T1).
  destruct (@module_to_params _ _ _ _ _ E2) as (_ & _ & _ & T2).
  repeat split; congruence.
Qed.

Lemma finish_keeps (name : string) (l : locals opt_state) :
  let lf := finish name l in
  fs (w lf) = checkpoint name None l ++ fs (w l)
  /\ training (model (w lf)) = training (model (w l))
  /\ opt (w lf) = opt (w l)
  /\ best_r2 lf = best_r2 l
  /\ best_y_pred lf = best_y_pred l /\ best_y_true lf = best_y_true l
  /\ losses lf = losses l /\ r2s lf = r2s l.
Proof.
  cbv zeta. unfold finish. cbn [save_logs w st model best_model_wts opt].
  destruct (module_to CPU (model (w l)) (st (w l))) as [m s] eqn:E.
  destruct (@module_to_params _ _ _ _ _ E) as (_ & _ & _ & T).
  cbn. repeat split; auto.
Qed.

(** One phase: the mode it leaves, the histories it extends, the files it
    leaves alone. *)
Lemma run_phase_light (dl : per_phase loader) (ds : per_phase Z) (name : string)
      (verbose : bool) (k epoch : Z) (l l' : locals opt_state) (ph : phase) :
  run_phase dl ds name verbose k epoch l ph = Ok l' ->
  training (model (w l')) = phase_eqb ph train
  /\ group (opt (w l')) = group (opt (w l))
  /\ (exists epoch_loss epoch_r2,
         losses l' = set (losses l) ph (get (losses l) ph ++ [epoch_loss])
         /\ r2s l' = set (r2s l) ph (get (r2s l) ph ++ [epoch_r2]))
  /\ (verbose = false -> fs (w l') = fs (w l))
  /\ (forall p, p_run p <> name \/ p_sub p <> epoch_prefix (Some epoch) ->
                load p (fs (w l')) = load p (fs (w l))).
Proof.
  intros H. apply run_phase_cases in H.
  destruct H as (w1 & r & el & er & Hf & _ & _ & H). cbv zeta in H.
  apply batches_keep in Hf. cbn [fst enter_phase model fs opt] in Hf.
  destruct Hf as (Hm & Hfs & Hg).
  set (l1 := record_metrics ph el er w1 l) in H.
  set (l2 := if phase_eqb ph val then after_val er r l1 else l1) in H.
  assert (H2 : fs (w l2) = fs (w l)
                /\ training (model (w l2)) = phase_eqb ph train
                /\ group (opt (w l2)) = group (opt (w l))
                /\ losses l2 = losses l1 /\ r2s l2 = r2s l1).
  { assert (H1 : fs (w l1) = fs (w l)
                  /\ training (model (w l1)) = phase_eqb ph train
                  /\ group (opt (w l1)) = group (opt (w l))).
    { subst l1. cbn [record_metrics w]. rewrite Hm, Hfs, Hg. cbn. auto. }
    subst l2. destruct (phase_eqb ph val); [| intuition].
    destruct (after_val_keeps er r l1) as (A1 & A2 & A3 & A4 & A5).
    destruct H1 as (B1 & B2 & B3). repeat split; congruence. }
  destruct H2 as (F1 & F2 & F3 & F4 & F5).
  destruct H as [[-> _] | (-> & Hv & _)].
  - repeat split; auto.
    + exists el, er. now rewrite F4, F5.
    + intros p _. now rewrite F1.
  - repeat split; auto.
    + exists el, er. cbn [save_logs losses r2s]. now rewrite F4, F5.
    + intros Hq. congruence.
    + intros p Hp. rewrite save_logs_fs, load_behind, F1; [reflexivity |].
      intros Hin. apply checkpoint_run in Hin. destruct Hin, Hp; contradiction.
Qed.

Lemma run_epoch_light (dl : per_phase loader) (ds : per_phase Z) (name : string)
      (verbose : bool) (k epoch : Z) (l l' : locals opt_state) :
  run_epoch dl ds name verbose k l epoch = Ok l' ->
  training (model (w l')) = false
  /\ group (opt (w l')) = group (opt (w l))
  /\ (exists lt lv rt rv,
         losses l' = PerPhase (at_train (losses l) ++ [lt])
                              (at_val (losses l) ++ [lv])
         /\ r2s l' = PerPhase (at_train (r2s l) ++ [rt])
                              (at_val (r2s l) ++ [rv]))
  /\ (verbose = false -> fs (w l') = fs (w l))
  /\ (forall p, p_run p <> name \/ p_sub p <> epoch_prefix (Some epoch) ->
                load p (fs (w l')) = load p (fs (w l))).
Proof.
  intros H. apply run_epoch_inv in H. destruct H as (l1 & Ht & Hv).
  apply run_phase_light in Ht. apply run_phase_light in Hv.
  destruct Ht as (_ & G1 & (lt & rt & L1 & R1) & Q1 & O1).
  destruct Hv as (T2 & G2 & (lv & rv & L2 & R2) & Q2 & O2).
  repeat split.
  - exact T2.
  - congruence.
  - exists lt, lv, rt, rv. rewrite L2, R2, L1, R1. cbn. auto.
  - intros Hq. rewrite Q2, Q1; auto.
  - intros p Hp. rewrite O2, O1; auto.
Qed.

(** A sequence of epochs extends each history by one entry per epoch. *)
Lemma epochs_histories (dl : per_phase loader) (ds : per_phase Z) (name : string)
      (verbose : bool) (k : Z) (epochs : list Z) :
  forall l l' : locals opt_state,
    foldM (run_epoch dl ds name verbose k) epochs l = Ok l' ->
    forall ph, exists more_losses more_r2s,
        get (losses l') ph = get (losses l) ph ++ more_losses
        /\ get (r2s l') ph = get (r2s l) ph ++ more_r2s
        /\ List.length more_losses = List.length epochs
        /\ List.length more_r2s = List.length epochs.
Proof.
  induction epochs as [| e epochs IH]; cbn [foldM]; intros l l' H ph.
  - injection H as <-. exists [], []. now rewrite !app_nil_r.
  - destruct (run_epoch dl ds name verbose k l e) as [l1 |] eqn:E;
      cbn [Py.bind] in H; [| discriminate].
    apply run_epoch_light in E.
    destruct E as (_ & _ & (lt & lv & rt & rv & L & R) & _).
    destruct (IH _ _ H ph) as (ml & mr & H1 & H2 & H3 & H4).
    rewrite H1, H2, L, R.
    destruct ph; cbn [get at_train at_val]; rewrite <- !app_assoc;
      eexists; eexists; (split; [reflexivity |]); (split; [reflexivity |]);
      cbn [app List.length]; auto.
Qed.

Lemma range_length (a b : Z) : List.length (range a b) = Z.to_nat (b - a).
Proof. unfold range. now rewrite length_map, length_seq. Qed.

Lemma range_empty (a b : Z) : b <= a -> range a b = [].
Proof.
  intros H. unfold range. replace (Z.to_nat (b - a)) with 0%nat by lia.
  reflexivity.
Qed.

Lemma range_first (a b : Z) : a < b -> range a b = a :: range (a + 1) b.
Proof.
  intros H. rewrite (@range_split a (a + 1) b) by lia. now rewrite range_one.
Qed.

Lemma range_last (a b : Z) : a < b -> range a b = range a (b - 1) ++ [b - 1].
Proof.
  intros H. rewrite (@range_split a (b - 1) b) by lia. f_equal.
  replace b with (b - 1 + 1) at 2 by lia. apply range_one.
Qed.

(** X7: without [verbose], [train_model] writes the seven files of the final
    checkpoint, in the run's own directory, and nothing else: no epoch writes
    a file. *)
Theorem quiet_run_writes_final_checkpoint_only
        (w0 : world opt_state) (dl : per_phase loader) (ds : per_phase Z)
        (name : string) (n k : Z) (lf : locals opt_state) :
  train_model w0 dl ds name n false k = Ok lf ->
  exists l,
    run_epochs dl ds name n false k (init_locals w0) = Ok l
    /\ fs (w l) = fs w0
    /\ fs (w lf) = checkpoint name None l ++ fs w0.
Proof.
  intros H. apply train_model_inv in H. destruct H as (l & Hl & ->).
  exists l. split; [exact Hl |].
  assert (Hq : fs (w l) = fs w0).
  { unfold Train.run_epochs in Hl.
    eapply (@foldM_invariant _ _ (fun l0 => fs (w l0) = fs w0));
      [| | exact Hl]; [| reflexivity].
    intros a e a' _ Ha Hs. apply run_epoch_light in Hs.
    destruct Hs as (_ & _ & _ & Q & _). now rewrite Q. }
  split; [exact Hq |].
  destruct (finish_keeps name l) as (F & _). now rewrite F, Hq.
Qed.

(** One phase leaves the files as they are or adds one checkpoint of the
    run. *)
Lemma run_phase_adds (dl : per_phase loader) (ds : per_phase Z) (name : string)
      (verbose : bool) (k epoch : Z) (l l' : locals opt_state) (ph : phase) :
  run_phase dl ds name verbose k epoch l ph = Ok l' ->
  fs (w l') = fs (w l)
  \/ exists l2 : locals opt_state,
       fs (w l') = checkpoint name (Some epoch) l2 ++ fs (w l).
Proof.
  intros H. apply run_phase_cases in H.
  destruct H as (w1 & r & el & er & Hf & _ & _ & H). cbv zeta in H.
  apply batches_keep in Hf. cbn [fst enter_phase model fs opt] in Hf.
  destruct Hf as (_ & Hfs & _).
  set (l1 := record_metrics ph el er w1 l) in H.
  set (l2 := if phase_eqb ph val then after_val er r l1 else l1) in H.
  assert (F : fs (w l2) = fs (w l)).
  { assert (H1 : fs (w l1) = fs (w l)) by (subst l1; exact Hfs).
    subst l2. destruct (phase_eqb ph val); [| exact H1].
    destruct (after_val_keeps er r l1) as (A1 & _). congruence. }
  destruct H as [[-> _] | (-> & _)]; [now left |].
  right. exists l2. now rewrite save_logs_fs, F.
Qed.

(** X8: whatever the verbosity, [train_model] writes only below its run's
    directory.  When the run's name is a single path component, a file of
    another run, given by single components too, holds what it held before:
    as a record of the file system, and as the file of the name that
    [os.path.join] makes of it below the home directory. *)
Theorem train_model_keeps_other_runs
        (home_dir : string)
        (w0 : world opt_state) (dl : per_phase loader) (ds : per_phase Z)
        (name : string) (n : Z) (verbose : bool) (k : Z)
        (lf : locals opt_state) (p : path) :
  component name = true ->
  plain p = true ->
  p_run p <> name ->
  train_model w0 dl ds name n verbose k = Ok lf ->
  load p (fs (w lf)) = load p (fs w0)
  /\ load_at home_dir (location home_dir p) (fs (w lf))
     = load_at home_dir (location home_dir p) (fs w0).
Proof.
  intros Hn Hpl Hp H. apply train_model_inv in H. destruct H as (l & Hl & ->).
  destruct (finish_keeps name l) as (F & _). rewrite F. split.
  - rewrite load_behind.
    + unfold Train.run_epochs in Hl.
      eapply (@foldM_invariant _ _ (fun l0 => load p (fs (w l0)) = load p (fs w0)));
        [| | exact Hl]; [| reflexivity].
      intros a e a' _ Ha Hs. apply run_epoch_light in Hs.
      destruct Hs as (_ & _ & _ & _ & O). rewrite O; auto.
    + intros Hin. apply checkpoint_run in Hin. now destruct Hin.
  - rewrite checkpoint_elsewhere by assumption.
    unfold Train.run_epochs in Hl.
    eapply (@foldM_invariant
              _ _ (fun l0 => load_at home_dir (location home_dir p) (fs (w l0))
                             = load_at home_dir (location home_dir p) (fs w0)));
      [| | exact Hl]; [| reflexivity].
    intros a e a' _ Ha Hs. apply run_epoch_inv in Hs.
    destruct Hs as (l1 & Ht & Hv).
    apply run_phase_adds in Ht, Hv.
    destruct Hv as [-> | (lv & ->)], Ht as [-> | (lt & ->)];
      rewrite ?checkpoint_elsewhere by assumption; exact Ha.
Qed.

(** ** Divisions by zero *)

Lemma first_phase_raises (w0 : world opt_state) (dl : per_phase loader)
      (ds : per_phase Z) (name : string) (n : Z) (verbose : bool) (k : Z)
      (e : exn) :
  1 <= n ->
  run_phase dl ds name verbose k 1 (init_locals w0) train = Raise e ->
  train_model w0 dl ds name n verbose k = Raise e.
Proof.
  intros Hn H. unfold Train.train_model, Train.run_epochs.
  rewrite range_first by lia. cbn [foldM]. unfold Train.run_epoch at 1.
  cbn [foldM]. rewrite H. reflexivity.
Qed.

(** X9: with [verbose] and a logging interval of zero, [epoch % 0] raises a
    ZeroDivisionError at the end of the first training phase, once its
    batches have run, the loss has been divided by the dataset size and
    [r2_score] has returned. *)
Theorem zero_log_interval_raises
        (w0 : world opt_state) (dl : per_phase loader) (ds : per_phase Z)
        (name : string) (n : Z) (w1 : world opt_state) (r : running) :
  1 <= n ->
  foldM (batch_step train) (iterate (get dl train) 1) (enter_phase train w0)
  = Ok (w1, r) ->
  is_ok (truediv (running_loss r) (get ds train)) = true ->
  is_ok (r2_score (y_true r) (y_pred r)) = true ->
  exists msg,
    train_model w0 dl ds name n true 0 = Raise (ZeroDivisionError msg).
Proof.
  intros Hn Hb Hd Hr. eexists. apply first_phase_raises; [exact Hn |].
  unfold Train.run_phase. cbn [init_locals w]. rewrite Hb. cbn [Py.bind].
  destruct (truediv _ _); [| discriminate]. cbn [Py.bind].
  destruct (r2_score _ _); [| discriminate]. cbn. reflexivity.
Qed.

(** X10: when [dataset_sizes] gives zero for the training set, as for an
    empty dataset, [running_loss / 0] raises a ZeroDivisionError at the end
    of the first training phase. *)
Theorem zero_dataset_size_raises
        (w0 : world opt_state) (dl : per_phase loader) (ds : per_phase Z)
        (name : string) (n : Z) (verbose : bool) (k : Z) :
  1 <= n ->
  is_ok (foldM (batch_step train) (iterate (get dl train) 1)
               (enter_phase train w0)) = true ->
  get ds train = 0 ->
  exists msg,
    train_model w0 dl ds name n verbose k = Raise (ZeroDivisionError msg).
Proof.
  intros Hn Hb Hs. eexists. apply first_phase_raises; [exact Hn |].
  unfold Train.run_phase. cbn [init_locals w].
  destruct (foldM _ _ _) as [[w1 r] |]; [| discriminate]. cbn [Py.bind].
  unfold truediv. rewrite Hs. cbn. reflexivity.
Qed.

(** ** No epoch at all *)

(** X11: with [num_epochs <= 0] no epoch runs: [train_model] returns the
    model with the parameter values it was given, the histories are empty,
    the best R2 is minus infinity, and the final checkpoint is still written,
    with those parameter values. *)
Theorem no_epochs_returns_the_model_as_given
        (w0 : world opt_state) (dl : per_phase loader) (ds : per_phase Z)
        (name : string) (n : Z) (verbose : bool) (k : Z) :
  n <= 0 ->
  well_formed (st w0) (model w0) ->
  exists lf,
    train_model w0 dl ds name n verbose k = Ok lf
    /\ param_values (st (w lf)) (model (w lf)) = param_values (st w0) (model w0)
    /\ losses lf = PerPhase [] [] /\ r2s lf = PerPhase [] []
    /\ best_r2 lf = neg_infinity
    /\ best_y_pred lf = [] /\ best_y_true lf = []
    /\ fs (w lf) = checkpoint name None (init_locals w0) ++ fs w0.
Proof.
  intros Hn Hwf. exists (finish name (init_locals w0)).
  split.
  { unfold Train.train_model, Train.run_epochs.
    rewrite range_empty by lia. reflexivity. }
  destruct (finish_keeps name (init_locals w0))
    as (F1 & _ & _ & F4 & F5 & F6 & F7 & F8).
  destruct (@finish_spec _ _ _ _ name (init_locals w0) (invariant_init w0 Hwf))
    as (_ & Hv & _).
  repeat split; auto.
Qed.

(** ** The histories *)

(** X12: after [n] epochs each of the four histories (loss and R2, train and
    validation) has one entry per epoch. *)
Theorem one_history_entry_per_epoch
        (w0 : world opt_state) (dl : per_phase loader) (ds : per_phase Z)
        (name : string) (n : Z) (verbose : bool) (k : Z)
        (l : locals opt_state) :
  run_epochs dl ds name n verbose k (init_locals w0) = Ok l ->
  forall ph,
    List.length (get (losses l) ph) = Z.to_nat n
    /\ List.length (get (r2s l) ph) = Z.to_nat n.
Proof.
  intros H ph. unfold Train.run_epochs in H.
  destruct (epochs_histories _ _ _ _ _ _ _ H ph) as (ml & mr & H1 & H2 & H3 & H4).
  rewrite H1, H2.
  replace (get (losses (init_locals w0)) ph) with (@nil float)
    by now destruct ph.
  replace (get (r2s (init_locals w0)) ph) with (@nil float)
    by now destruct ph.
  cbn [app]. rewrite H3, H4, range_length. split; f_equal; lia.
Qed.

(** X13: the histories are append-only: what [i] epochs recorded is a prefix
    of what [j >= i] epochs record, and the rest has [j - i] entries. *)
Theorem histories_are_append_only
        (w0 : world opt_state) (dl : per_phase loader) (ds : per_phase Z)
        (name : string) (verbose : bool) (k i j : Z)
        (li lj : locals opt_state) :
  0 <= i <= j ->
  run_epochs dl ds name i verbose k (init_locals w0) = Ok li ->
  run_epochs dl ds name j verbose k (init_locals w0) = Ok lj ->
  forall ph, exists more_losses more_r2s,
      get (losses lj) ph = get (losses li) ph ++ more_losses
      /\ get (r2s lj) ph = get (r2s li) ph ++ more_r2s
      /\ List.length more_losses = Z.to_nat (j - i)
      /\ List.length more_r2s = Z.to_nat (j - i).
Proof.
  intros Hij Hi Hj ph.
  pose proof (@run_epochs_split _ _ _ _ _ _ _ _ _ _ _ _ _ _ _ _ _ _ _ _ _ Hij Hi Hj)
    as Hs.
  destruct (epochs_histories _ _ _ _ _ _ _ Hs ph) as (ml & mr & H1 & H2 & H3 & H4).
  exists ml, mr. rewrite H3, H4, range_length.
  repeat split; auto; f_equal; lia.
Qed.

(** ** The best epoch *)

Lemma run_phase_train_bests (dl : per_phase loader) (ds : per_phase Z)
      (name : string) (verbose : bool) (k epoch : Z) (l l' : locals opt_state) :
  run_phase dl ds name verbose k epoch l train = Ok l' ->
  best_r2 l' = best_r2 l /\ best_y_true l' = best_y_true l
  /\ best_y_pred l' = best_y_pred l /\ best_model_wts l' = best_model_wts l
  /\ get (r2s l') val = get (r2s l) val.
Proof.
  intros H. apply run_phase_inv in H.
  destruct H as (w1 & r & el & er & _ & _ & _ & [-> | ->]); cbn; auto.
Qed.

Lemma run_phase_val_bests (dl : per_phase loader) (ds : per_phase Z)
      (name : string) (verbose : bool) (k epoch : Z) (l l' : locals opt_state) :
  run_phase dl ds name verbose k epoch l val = Ok l' ->
  exists yt yp epoch_r2,
    r2_score yt yp = Ok epoch_r2
    /\ get (r2s l') val = get (r2s l) val ++ [epoch_r2]
    /\ if (best_r2 l <? epoch_r2)%float
       then best_r2 l' = epoch_r2
            /\ best_y_true l' = yt /\ best_y_pred l' = yp
       else best_r2 l' = best_r2 l
            /\ best_y_true l' = best_y_true l /\ best_y_pred l' = best_y_pred l.
Proof.
  intros H. apply run_phase_inv in H.
  destruct H as (w1 & r & el & er & _ & _ & Hr & H).
  exists (y_true r), (y_pred r), er. split; [exact Hr |].
  cbv zeta in H. cbn [phase_eqb] in H. unfold Train.after_val in H.
  cbn [best_r2 record_metrics w] in H.
  destruct (best_r2 l <? er)%float.
  - destruct (if use_gpu then _ else _) as [m1 s1].
    destruct (if use_gpu then _ else _) as [m2 s2].
    destruct H as [-> | ->]; cbn; auto.
  - destruct H as [-> | ->]; cbn; auto.
Qed.

Lemma run_epoch_bests (dl : per_phase loader) (ds : per_phase Z)
      (name : string) (verbose : bool) (k epoch : Z) (l l' : locals opt_state) :
  run_epoch dl ds name verbose k l epoch = Ok l' ->
  exists yt yp epoch_r2,
    r2_score yt yp = Ok epoch_r2
    /\ get (r2s l') val = get (r2s l) val ++ [epoch_r2]
    /\ if (best_r2 l <? epoch_r2)%float
       then best_r2 l' = epoch_r2
            /\ best_y_true l' = yt /\ best_y_pred l' = yp
       else best_r2 l' = best_r2 l
            /\ best_y_true l' = best_y_true l /\ best_y_pred l' = best_y_pred l.
Proof.
  intros H. apply run_epoch_inv in H. destruct H as (l1 & Ht & Hv).
  apply run_phase_train_bests in Ht. destruct Ht as (B1 & B2 & B3 & _ & B5).
  apply run_phase_val_bests in Hv. destruct Hv as (yt & yp & er & He & Hr & Hb).
  exists yt, yp, er. split; [exact He |].
  now rewrite <- B1, <- B2, <- B3, <- B5.
Qed.

(** X14: after any number of epochs no recorded validation R2 is greater
    than [best_r2], and [best_r2] is minus infinity or one of the recorded
    validation R2 values. *)
Theorem best_r2_bounds_validation_history
        (w0 : world opt_state) (dl : per_phase loader) (ds : per_phase Z)
        (name : string) (n : Z) (verbose : bool) (k : Z)
        (l : locals opt_state) :
  run_epochs dl ds name n verbose k (init_locals w0) = Ok l ->
  (forall r, In r (get (r2s l) val) -> (best_r2 l <? r)%float = false)
  /\ (best_r2 l = neg_infinity \/ In (best_r2 l) (get (r2s l) val)).
Proof.
  intros H. unfold Train.run_epochs in H.
  eapply (@foldM_invariant _ _
            (fun l0 => (forall r, In r (get (r2s l0) val) ->
                                  (best_r2 l0 <? r)%float = false)
                       /\ (best_r2 l0 = neg_infinity
                           \/ In (best_r2 l0) (get (r2s l0) val))));
    [| | exact H].
  - intros a e a' _ [Hle Hin] Hs. apply run_epoch_bests in Hs.
    destruct Hs as (yt & yp & er & _ & Hr & Hb). rewrite Hr.
    destruct (best_r2 a <? er)%float eqn:E.
    + destruct Hb as (-> & _). split.
      * intros r Hr'. apply in_app_or in Hr'. destruct Hr' as [Hr' | [<- | []]].
        -- destruct (er <? r)%float eqn:E'; [| reflexivity].
           rewrite <- (Hle r Hr'). symmetry. eapply ltb_trans; eauto.
        -- apply ltb_irrefl.
      * right. apply in_or_app. right. now left.
    + destruct Hb as (-> & _). split.
      * intros r Hr'. apply in_app_or in Hr'. destruct Hr' as [Hr' | [<- | []]];
          auto.
      * destruct Hin as [Hin | Hin]; [now left | right].
        apply in_or_app. now left.
  - cbn. split; [intros r [] | now left].
Qed.

(** X15: the stored predictions and labels belong to [best_r2]: either no
    epoch has improved on minus infinity and both lists are empty, or
    [best_r2] is the R2 score of [best_y_true] against [best_y_pred]. *)
Theorem best_r2_is_the_score_of_the_best_lists
        (w0 : world opt_state) (dl : per_phase loader) (ds : per_phase Z)
        (name : string) (n : Z) (verbose : bool) (k : Z)
        (l : locals opt_state) :
  run_epochs dl ds name n verbose k (init_locals w0) = Ok l ->
  (best_r2 l = neg_infinity /\ best_y_true l = [] /\ best_y_pred l = [])
  \/ (r2_score (best_y_true l) (best_y_pred l) = Ok (best_r2 l)
      /\ best_r2 l <> neg_infinity).
Proof.
  intros H. unfold Train.run_epochs in H.
  eapply (@foldM_invariant _ _
            (fun l0 => (best_r2 l0 = neg_infinity
                        /\ best_y_true l0 = [] /\ best_y_pred l0 = [])
                       \/ (r2_score (best_y_true l0) (best_y_pred l0)
                           = Ok (best_r2 l0)
                           /\ best_r2 l0 <> neg_infinity)));
    [| | exact H].
  - intros a e a' _ Ha Hs. apply run_epoch_bests in Hs.
    destruct Hs as (yt & yp & er & He & _ & Hb).
    destruct (best_r2 a <? er)%float eqn:E.
    + destruct Hb as (-> & -> & ->). right. split; [exact He |].
      eapply ltb_not_neg_infinity; eauto.
    + destruct Hb as (-> & -> & ->). exact Ha.
  - left. cbn. auto.
Qed.

(** ** The mode of the model *)

(** X16: after at least one epoch the model that [train_model] returns is in
    evaluation mode: the last phase of every epoch is the validation phase,
    and neither the snapshot nor the last lines switch the mode back. *)
Theorem returned_model_is_in_eval_mode
        (w0 : world opt_state) (dl : per_phase loader) (ds : per_phase Z)
        (name : string) (n : Z) (verbose : bool) (k : Z)
        (lf : locals opt_state) :
  1 <= n ->
  train_model w0 dl ds name n verbose k = Ok lf ->
  training (model (w lf)) = false.
Proof.
  intros Hn H. apply train_model_inv in H. destruct H as (l & Hl & ->).
  destruct (finish_keeps name l) as (_ & T & _). rewrite T.
  unfold Train.run_epochs in Hl. rewrite range_last, foldM_app in Hl by lia.
  destruct (foldM _ (range 1 (n + 1 - 1)) _) as [l0 |]; cbn [Py.bind foldM] in Hl;
    [| discriminate].
  destruct (run_epoch dl ds name verbose k l0 (n + 1 - 1)) as [l1 |] eqn:E;
    cbn [Py.bind] in Hl; [| discriminate].
  injection Hl as <-. apply run_epoch_light in E. now destruct E.
Qed.

(** ** The scheduler *)

(** X17: a validation phase steps the plateau scheduler once, with the
    validation loss that the phase has just appended to the history; the
    optimizer keeps its parameter group. *)
Theorem scheduler_steps_on_recorded_val_loss
        (dl : per_phase loader) (ds : per_phase Z) (name : string)
        (verbose : bool) (k epoch : Z) (l l' : locals opt_state) :
  run_phase dl ds name verbose k epoch l val = Ok l' ->
  exists epoch_loss,
    get (losses l') val = get (losses l) val ++ [epoch_loss]
    /\ o_state (opt (w l')) = plateau epoch_loss (o_state (opt (w l)))
    /\ group (opt (w l')) = group (opt (w l)).
Proof.
  intros H. apply run_phase_inv in H.
  destruct H as (w1 & r & el & er & Hf & _ & _ & H).
  unfold enter_phase in Hf. apply batches_val_world in Hf. subst w1.
  exists el. cbv zeta in H. cbn [phase_eqb] in H. unfold Train.after_val in H.
  cbn [record_metrics w losses get set at_val opt o_state group] in H.
  rewrite last_last in H.
  destruct (best_r2 _ <? _)%float.
  - destruct (if use_gpu then _ else _) as [m1 s1].
    destruct (if use_gpu then _ else _) as [m2 s2].
    destruct H as [-> | ->]; cbn; auto.
  - destruct H as [-> | ->]; cbn; auto.
Qed.

(** ** Parameters the optimizer was not given *)

(** X18: whatever parameters the optimizer was given, [train_model] returns
    every other parameter with the value it had at the start, and the
    backbone keeps its number of parameters. *)
Theorem parameters_outside_the_group_are_kept
        (w0 : world opt_state) (dl : per_phase loader) (ds : per_phase Z)
        (name : string) (n : Z) (verbose : bool) (k : Z)
        (lf : locals opt_state) (i : nat) :
  well_formed (st w0) (model w0) ->
  ~ In i (group (opt w0)) ->
  train_model w0 dl ds name n verbose k = Ok lf ->
  nth_error (param_values (st (w lf)) (model (w lf))) i
  = nth_error (param_values (st w0) (model w0)) i.
Proof.
  intros Hwf Hi H. apply train_model_inv in H. destruct H as (l & Hl & ->).
  assert (Hinv : invariant (group (opt w0)) (List.length (body (model w0)))
                           (param_values (st w0) (model w0))
                           (best_model_wts l) (w l))
    by (eapply invariant_run_epochs; [apply invariant_init; exact Hwf | exact Hl]).
  destruct (@finish_spec _ _ _ _ name l Hinv) as (_ & H2 & _). rewrite H2.
  destruct Hinv as (_ & _ & _ & _ & _ & _ & Hs). now apply Hs.
Qed.

(** ** Batches of more than one sample *)

Lemma pieces_length {A : Type} (n k : nat) :
  forall xs : list A, List.length (pieces n k xs) = n.
Proof. induction n as [| n IH]; intros xs; cbn; [reflexivity | now rewrite IH]. Qed.

Lemma tolist_vector (t : ndarray) (n : nat) :
  shape t = [n] -> exists ys, tolist t = PyList ys /\ List.length ys = n.
Proof.
  unfold tolist. intros ->. cbn [tolist_rec]. eexists. split; [reflexivity |].
  now rewrite length_map, pieces_length.
Qed.

Lemma squeeze_column (t : ndarray) (n : nat) :
  n <> 1%nat -> shape t = [n; 1%nat] -> shape (squeeze t) = [n].
Proof.
  intros Hn Hs. unfold squeeze. cbn [shape]. rewrite Hs. cbn [filter].
  apply Nat.eqb_neq in Hn. rewrite Hn. reflexivity.
Qed.

Lemma batch_step_regular (ph : phase) (w0 : world opt_state) (r : running)
      (data : batch image_batch) (n : nat) :
  n <> 1%nat -> regular forward n data ->
  exists w1 r1,
    batch_step ph (w0, r) data = Ok (w1, r1)
    /\ List.length (y_true r1)
       = (List.length (y_true r) + size0 (b_labels data))%nat
    /\ List.length (y_pred r1)
       = (List.length (y_pred r) + size0 (b_labels data))%nat.
Proof.
  intros Hn [Hs Hf].
  destruct (@tolist_vector _ _ Hs) as (yt & Et & Lt).
  destruct (@tolist_vector _ _
              (@squeeze_column _ _ Hn
                 (Hf (training (model w0)) (param_values (st w0) (model w0)))))
    as (yp & Ep & Lp).
  unfold Train.batch_step. rewrite Et. cbn [iadd Py.bind]. rewrite Ep.
  cbn [iadd Py.bind].
  assert (Hz : size0 (b_labels data) = n) by (unfold size0; now rewrite Hs).
  eexists. eexists. split; [reflexivity |].
  cbn [y_true y_pred]. rewrite !length_app, Hz, Lt, Lp. auto.
Qed.

Lemma batches_regular (ph : phase) (batches : list (batch image_batch)) :
  (forall data, In data batches ->
                exists n, n <> 1%nat /\ regular forward n data) ->
  forall (w0 : world opt_state) (r : running),
  exists w1 r1,
    foldM (batch_step ph) batches (w0, r) = Ok (w1, r1)
    /\ List.length (y_true r1) = (List.length (y_true r) + samples batches)%nat
    /\ List.length (y_pred r1) = (List.length (y_pred r) + samples batches)%nat.
Proof.
  induction batches as [| data batches IH]; intros Hreg w0 r; cbn [foldM samples fold_right].
  - exists w0, r. repeat split; lia.
  - destruct (Hreg data (or_introl eq_refl)) as (n & Hn & Hr).
    destruct (@batch_step_regular ph w0 r data n Hn Hr) as (w1 & r1 & E & L1 & L2).
    rewrite E. cbn [Py.bind].
    destruct (IH (fun d Hd => Hreg d (or_intror Hd)) w1 r1)
      as (w2 & r2 & E2 & M1 & M2).
    exists w2, r2. split; [exact E2 |]. fold (samples batches). lia.
Qed.

(** X19: a phase whose batches all hold a number of samples other than one,
    with one label and one output per sample, raises nothing in its batch
    loop and collects one label and one prediction per sample. *)
Theorem regular_batches_are_collected
        (ph : phase) (batches : list (batch image_batch))
        (w0 : world opt_state) :
  (forall data, In data batches ->
                exists n, n <> 1%nat /\ regular forward n data) ->
  exists w1 r,
    foldM (batch_step ph) batches (enter_phase ph w0) = Ok (w1, r)
    /\ List.length (y_true r) = samples batches
    /\ List.length (y_pred r) = samples batches.
Proof.
  intros Hreg. unfold enter_phase.
  destruct (@batches_regular ph batches Hreg
              {| st := st w0; model := module_train (phase_eqb ph train) (model w0);
                 opt := opt w0; fs := fs w0 |}
              {| y_true := []; y_pred := []; running_loss := 0%float |})
    as (w1 & r & E & L1 & L2).
  exists w1, r. split; [exact E |]. cbn in L1, L2. auto.
Qed.

(** ** Checkpoints of logged epochs *)






End Facts.

End RunFacts.


(** * Devices and the saved state dict *)

Module DeviceFacts.

Import Torch Train Reference Observations.
Import FloatFacts FloatMore LoopFacts StoreFacts TrainFacts CheckpointFacts RunFacts.

Local Open Scope nat_scope.

Lemma device_eqb_eq (d e : device) : device_eqb d e = true <-> d = e.
Proof. destruct d, e; cbn; split; congruence. Qed.

Lemma tensor_to_dev (dev : device) (a a' : nat) (s s' : store) :
  tensor_to dev a s = (a', s') -> t_dev (cell s' a') = dev.
Proof.
  unfold tensor_to. destruct (device_eqb _ _) eqn:E.
  - intros [= <- <-]. now apply device_eqb_eq.
  - unfold alloc. intros [= <- <-]. cbn. now rewrite Nat.eqb_refl.
Qed.

Lemma apply_params_on_device (dev : device) (ps : list Param) :
  forall (s s' : store) (qs : list Param),
    apply_params (tensor_to dev) ps s = (qs, s') ->
    allocated s (map p_data ps) ->
    on_device dev s' (map p_data qs).
Proof.
  unfold on_device.
  induction ps as [| p ps IH]; cbn; intros s s' qs H Ha.
  - injection H as <- <-. constructor.
  - destruct (tensor_to dev (p_data p) s) as [a s1] eqn:Et.
    destruct (apply_params (tensor_to dev) ps s1) as [qs' s2] eqn:Ep.
    injection H as <- <-. cbn.
    inversion Ha as [| ? ? Hp Hps]; subst.
    destruct (@tensor_to_spec _ _ _ _ _ Et Hp) as (_ & Hn & _ & Hlt & _).
    assert (Ha1 : allocated s1 (map p_data ps)) by (eapply allocated_mono; eauto).
    destruct (@apply_params_spec _ _ _ _ _ Ep Ha1) as (_ & _ & _ & Hf' & _).
    constructor.
    + rewrite Hf' by exact Hlt. eapply tensor_to_dev; eauto.
    + eapply IH; eauto.
Qed.

Lemma module_to_on_device (dev : device) (m m' : module) (s s' : store) :
  module_to dev m s = (m', s') ->
  allocated s (state_dict m) ->
  on_device dev s' (state_dict m').
Proof.
  intros H Ha. destruct (@module_to_params _ _ _ _ _ H) as (Hp & _).
  unfold state_dict. eapply apply_params_on_device; eauto.
Qed.

Lemma write_dev (a x : nat) (d : ndarray) (s : store) :
  t_dev (cell (write a d s) x) = t_dev (cell s x).
Proof. cbn. destruct (Nat.eqb_spec x a); [subst |]; reflexivity. Qed.

Lemma copy_all_dev (own : list nat) :
  forall (sd : list nat) (s : store) (x : nat),
    t_dev (cell (copy_all own sd s) x) = t_dev (cell s x).
Proof.
  induction own as [| a own IH]; intros [| b sd] s x; cbn [copy_all]; auto.
  now rewrite IH, write_dev.
Qed.

Lemma writes_dev (sd : list nat) (f : nat -> ndarray) (g : list nat) :
  forall (s : store) (x : nat),
    t_dev (cell (fold_left
                   (fun s0 j => match nth_error sd j with
                                | Some a => write a (f j) s0
                                | None => s0
                                end) g s) x)
    = t_dev (cell s x).
Proof.
  induction g as [| j g IH]; intros s x; cbn [fold_left]; [reflexivity |].
  rewrite IH. destruct (nth_error sd j); [apply write_dev | reflexivity].
Qed.

Lemma on_device_frame (dev : device) (s s' : store) (addrs : list nat) :
  (forall x, In x addrs -> t_dev (cell s' x) = t_dev (cell s x)) ->
  on_device dev s addrs -> on_device dev s' addrs.
Proof.
  unfold on_device. rewrite !Forall_forall. intros Hf H x Hx.
  rewrite Hf by assumption. now apply H.
Qed.

Section Facts.

Variable use_gpu : bool.
Variable image_batch : Type.
Variable forward : bool -> list ndarray -> image_batch -> ndarray.
Variable criterion : ndarray -> ndarray -> float.
Variable opt_state : Type.
Variable descend : opt_state -> list ndarray -> batch image_batch -> nat -> ndarray.
Variable advance : opt_state -> list ndarray -> batch image_batch -> opt_state.
Variable plateau : float -> opt_state -> opt_state.
Variable r2_score : list pyval -> list pyval -> result float.
Variable loader : Type.
Variable iterate : loader -> Z -> list (batch image_batch).

(** X21: the model that [train_model] returns has every parameter on the
    CPU, whether or not the run used the GPU. *)
Theorem returned_model_is_on_the_cpu
        (w0 : world opt_state) (dl : per_phase loader) (ds : per_phase Z)
        (name : string) (n : Z) (verbose : bool) (k : Z)
        (lf : locals opt_state) :
  well_formed (st w0) (model w0) ->
  train_model use_gpu forward criterion descend advance plateau r2_score iterate
              w0 dl ds name n verbose k = Ok lf ->
  on_device CPU (st (w lf)) (state_dict (model (w lf))).
Proof.
  intros Hwf H. apply train_model_inv in H. destruct H as (l & Hl & ->).
  assert (Hinv : invariant (group (opt w0)) (List.length (body (model w0)))
                           (param_values (st w0) (model w0))
                           (best_model_wts l) (w l))
    by (eapply invariant_run_epochs; [apply invariant_init; exact Hwf | exact Hl]).
  destruct Hinv as ([_ Ha] & _).
  unfold finish. cbn [save_logs w st model best_model_wts opt].
  destruct (module_to CPU (model (w l)) (st (w l))) as [m s] eqn:E.
  cbn [w st model]. unfold load_state_dict.
  eapply on_device_frame; [| eapply module_to_on_device; eauto].
  intros x _. apply copy_all_dev.
Qed.

End Facts.

(** ** Without a GPU *)

Section Cpu.

Variable image_batch : Type.
Variable forward : bool -> list ndarray -> image_batch -> ndarray.
Variable criterion : ndarray -> ndarray -> float.
Variable opt_state : Type.
Variable descend : opt_state -> list ndarray -> batch image_batch -> nat -> ndarray.
Variable advance : opt_state -> list ndarray -> batch image_batch -> opt_state.
Variable plateau : float -> opt_state -> opt_state.
Variable r2_score : list pyval -> list pyval -> result float.
Variable loader : Type.
Variable iterate : loader -> Z -> list (batch image_batch).

Local Abbreviation run_phase :=
  (run_phase false forward criterion descend advance plateau r2_score iterate).
Local Abbreviation run_epochs :=
  (run_epochs false forward criterion descend advance plateau r2_score iterate).
Local Abbreviation train_model :=
  (train_model false forward criterion descend advance plateau r2_score iterate).

Lemma cpu_run_phase_alias (dl : per_phase loader) (ds : per_phase Z)
      (name : string) (verbose : bool) (k epoch : Z) (l l' : locals opt_state)
      (ph : phase) :
  best_model_wts l = state_dict (model (w l)) ->
  run_phase dl ds name verbose k epoch l ph = Ok l' ->
  best_model_wts l' = state_dict (model (w l')).
Proof.
  intros Ha H. apply run_phase_inv in H.
  destruct H as (w1 & r & el & er & Hf & _ & _ & H).
  apply batches_keep in Hf. destruct Hf as (Hm & _).
  cbn [fst enter_phase model] in Hm.
  assert (Hsd : state_dict (model w1) = state_dict (model (w l)))
    by (rewrite Hm; reflexivity).
  cbv zeta in H. destruct ph; cbn [phase_eqb] in H.
  - destruct H as [-> | ->]; cbn; congruence.
  - unfold Train.after_val in H. cbn [record_metrics w best_r2 best_model_wts] in H.
    destruct (best_r2 l <? _)%float; destruct H as [-> | ->]; cbn; congruence.
Qed.

(** X22: without a GPU the saved state dict is, after every epoch, the
    model's own tensors, so loading it back changes nothing: [train_model]
    returns the parameters as the last epoch left them, whichever epoch had
    the best validation R2. *)
Theorem cpu_run_returns_last_epoch_parameters
        (w0 : world opt_state) (dl : per_phase loader) (ds : per_phase Z)
        (name : string) (n : Z) (verbose : bool) (k : Z)
        (lf : locals opt_state) :
  well_formed (st w0) (model w0) ->
  train_model w0 dl ds name n verbose k = Ok lf ->
  exists l,
    run_epochs dl ds name n verbose k (init_locals w0) = Ok l
    /\ best_model_wts l = state_dict (model (w l))
    /\ live lf = live l.
Proof.
  intros Hwf H. apply train_model_inv in H. destruct H as (l & Hl & ->).
  exists l. split; [exact Hl |].
  assert (Ha : best_model_wts l = state_dict (model (w l))).
  { unfold Train.run_epochs in Hl.
    eapply (@foldM_invariant _ _
              (fun l0 => best_model_wts l0 = state_dict (model (w l0))));
      [| | exact Hl]; [| reflexivity].
    intros a e a' _ Hb Hs. unfold Train.run_epoch in Hs.
    eapply (@foldM_invariant _ _
              (fun l0 => best_model_wts l0 = state_dict (model (w l0))));
      [| exact Hb | exact Hs].
    intros b ph b' _ Hb' Hph. eapply cpu_run_phase_alias; eauto. }
  split; [exact Ha |].
  assert (Hinv : invariant (group (opt w0)) (List.length (body (model w0)))
                           (param_values (st w0) (model w0))
                           (best_model_wts l) (w l))
    by (eapply invariant_run_epochs; [apply invariant_init; exact Hwf | exact Hl]).
  destruct (@finish_spec _ _ _ _ name l Hinv) as (_ & H2 & _).
  unfold live. rewrite H2, Ha. reflexivity.
Qed.

End Cpu.

(** ** With a GPU *)

Section Gpu.

Variable image_batch : Type.
Variable forward : bool -> list ndarray -> image_batch -> ndarray.
Variable criterion : ndarray -> ndarray -> float.
Variable opt_state : Type.
Variable descend : opt_state -> list ndarray -> batch image_batch -> nat -> ndarray.
Variable advance : opt_state -> list ndarray -> batch image_batch -> opt_state.
Variable plateau : float -> opt_state -> opt_state.
Variable r2_score : list pyval -> list pyval -> result float.
Variable loader : Type.
Variable iterate : loader -> Z -> list (batch image_batch).

Local Abbreviation batch_step := (batch_step forward criterion descend advance).
Local Abbreviation after_val := (after_val true plateau).
Local Abbreviation run_phase :=
  (run_phase true forward criterion descend advance plateau r2_score iterate).
Local Abbreviation run_epoch :=
  (run_epoch true forward criterion descend advance plateau r2_score iterate).
Local Abbreviation run_epochs :=
  (run_epochs true forward criterion descend advance plateau r2_score iterate).
Local Abbreviation train_model :=
  (train_model true forward criterion descend advance plateau r2_score iterate).

(** The saved state dict is a snapshot of its own, on the CPU. *)
Local Abbreviation detached l :=
  (on_device CPU (st (w l)) (best_model_wts l)).

Lemma on_gpu_disjoint (best : list nat) (w0 : world opt_state) (b : nat) :
  on_gpu best w0 -> on_device CPU (st w0) best -> In b best ->
  ~ In b (state_dict (model w0)).
Proof.
  intros (_ & Hc & _) Hb Hin Hin'. unfold on_device in *.
  rewrite Forall_forall in Hc, Hb.
  specialize (Hc _ Hin'). specialize (Hb _ Hin). congruence.
Qed.

Lemma optimizer_step_gpu (best : list nat) (w0 : world opt_state)
      (data : batch image_batch) (s' : store) (o' : optimizer opt_state) :
  on_gpu best w0 ->
  optimizer_step descend advance (opt w0) data (model w0) (st w0) = (s', o') ->
  on_gpu best {| st := s'; model := model w0; opt := o'; fs := fs w0 |}
  /\ (on_device CPU (st w0) best ->
      on_device CPU s' best /\ map (read s') best = map (read (st w0)) best).
Proof.
  intros Hg H. pose proof Hg as ([Hnd Ha] & Hc & Hb).
  unfold optimizer_step in H. injection H as <- <-.
  pose proof (writes_dev (state_dict (model w0))
                (descend (o_state (opt w0)) (param_values (st w0) (model w0)) data)
                (group (opt w0)) (st w0)) as Hdev.
  match goal with
  | |- context [fold_left ?f ?gr ?s0] =>
    destruct (writes_frame (state_dict (model w0))
                (descend (o_state (opt w0)) (param_values (st w0) (model w0)) data)
                (group (opt w0)) (st w0)) as [Hnext Hframe];
      set (s1 := fold_left f gr s0) in *
  end.
  cbv zeta in Hnext, Hframe.
  assert (Hle : next (st w0) <= next s1) by lia.
  split.
  - unfold on_gpu. cbn [st model].
    split; [split; [exact Hnd | eapply allocated_mono; eauto] |].
    split; [| eapply allocated_mono; eauto].
    eapply on_device_frame; [| exact Hc]. intros x _. apply Hdev.
  - intros Hcpu. split.
    + eapply on_device_frame; [| exact Hcpu]. intros x _. apply Hdev.
    + apply map_ext_in. intros b Hin. unfold read. rewrite Hframe; [reflexivity |].
      intros j _ Ej. eapply on_gpu_disjoint; eauto. eapply nth_error_In; eauto.
Qed.

Lemma batch_step_gpu (best : list nat) (ph : phase)
      (acc acc' : world opt_state * running) (data : batch image_batch) :
  on_gpu best (fst acc) ->
  batch_step ph acc data = Ok acc' ->
  on_gpu best (fst acc')
  /\ (on_device CPU (st (fst acc)) best ->
      on_device CPU (st (fst acc')) best
      /\ map (read (st (fst acc'))) best = map (read (st (fst acc))) best).
Proof.
  destruct acc as [w0 r]. cbn [fst]. intros Hg. unfold Train.batch_step.
  destruct (iadd (y_true r) _); cbn [Py.bind]; [| discriminate].
  destruct (iadd (y_pred r) _); cbn [Py.bind]; [| discriminate].
  destruct (phase_eqb ph train).
  - destruct (optimizer_step descend advance (opt w0) data (model w0) (st w0))
      as [s' o'] eqn:E.
    intros [= <-]. cbn [fst]. eapply optimizer_step_gpu in E; eauto.
  - intros [= <-]. cbn [fst]. auto.
Qed.

Lemma batches_gpu (best : list nat) (ph : phase)
      (batches : list (batch image_batch))
      (acc acc' : world opt_state * running) :
  on_gpu best (fst acc) ->
  foldM (batch_step ph) batches acc = Ok acc' ->
  on_gpu best (fst acc')
  /\ (on_device CPU (st (fst acc)) best ->
      on_device CPU (st (fst acc')) best
      /\ map (read (st (fst acc'))) best = map (read (st (fst acc))) best).
Proof.
  intros Hg H.
  eapply (@foldM_invariant _ _
            (fun a => on_gpu best (fst a)
                      /\ (on_device CPU (st (fst acc)) best ->
                          on_device CPU (st (fst a)) best
                          /\ map (read (st (fst a))) best
                             = map (read (st (fst acc))) best)));
    [| | exact H]; [| auto].
  intros a x a' _ [Ga Ca] Hs.
  destruct (@batch_step_gpu best ph a a' x Ga Hs) as [Ga' Ca'].
  split; [exact Ga' |]. intros Hcpu.
  destruct (Ca Hcpu) as [C1 V1]. destruct (Ca' C1) as [C2 V2].
  split; [exact C2 | congruence].
Qed.

Lemma after_val_gpu (epoch_r2 : float) (r : running) (l : locals opt_state) :
  on_gpu (best_model_wts l) (w l) ->
  let l' := after_val epoch_r2 r l in
  on_gpu (best_model_wts l') (w l')
  /\ if (best_r2 l <? epoch_r2)%float
     then best_r2 l' = epoch_r2 /\ detached l' /\ saved l' = live l'
     else best_r2 l' = best_r2 l
          /\ best_model_wts l' = best_model_wts l /\ st (w l') = st (w l).
Proof.
  intros ([Hnd Ha] & Hc & Hb). cbv zeta. unfold Train.after_val.
  destruct (best_r2 l <? epoch_r2)%float.
  - destruct (module_to CPU (model (w l)) (st (w l))) as [m1 s1] eqn:E1.
    destruct (module_to CUDA m1 s1) as [m2 s2] eqn:E2.
    cbn [w st model best_model_wts best_r2].
    destruct (@module_to_spec _ _ _ _ _ E1 Ha)
      as (_ & Hv1 & Hn1 & Hf1 & Ha1 & Hnd1 & _).
    destruct (@module_to_spec _ _ _ _ _ E2 Ha1)
      as (_ & Hv2 & Hn2 & Hf2 & Ha2 & Hnd2 & _).
    pose proof (@module_to_on_device _ _ _ _ _ E1 Ha) as D1.
    pose proof (@module_to_on_device _ _ _ _ _ E2 Ha1) as D2.
    split.
    + unfold on_gpu. cbn [st model].
      split; [split; [auto | exact Ha2] |].
      split; [exact D2 | eapply allocated_mono; eauto].
    + split; [reflexivity |]. split.
      * eapply on_device_frame; [| exact D1]. intros x Hx. rewrite Hf2; auto.
        unfold allocated in Ha1. rewrite Forall_forall in Ha1. now apply Ha1.
      * unfold saved, live. cbn [w st model best_model_wts].
        rewrite (@map_read_frame _ _ _ Ha1 Hf2).
        change (map (read s1) (state_dict m1)) with (param_values s1 m1).
        congruence.
  - cbn [w st model best_model_wts best_r2]. split; [| repeat split].
    unfold on_gpu. cbn [st model].
    split; [split; assumption | split; assumption].
Qed.

Lemma run_phase_gpu (dl : per_phase loader) (ds : per_phase Z) (name : string)
      (verbose : bool) (k epoch : Z) (l l' : locals opt_state) (ph : phase) :
  on_gpu (best_model_wts l) (w l) ->
  run_phase dl ds name verbose k epoch l ph = Ok l' ->
  on_gpu (best_model_wts l') (w l')
  /\ match ph with
     | train =>
       best_r2 l' = best_r2 l
       /\ (detached l -> detached l' /\ saved l' = saved l)
     | val =>
       exists epoch_r2,
         if (best_r2 l <? epoch_r2)%float
         then best_r2 l' = epoch_r2 /\ detached l' /\ saved l' = live l'
         else best_r2 l' = best_r2 l
              /\ (detached l -> detached l' /\ saved l' = saved l)
     end.
Proof.
  intros Hg H. apply run_phase_inv in H.
  destruct H as (w1 & r & el & er & Hf & _ & _ & H).
  assert (Hg0 : on_gpu (best_model_wts l) (fst (enter_phase ph (w l))))
    by exact Hg.
  destruct (@batches_gpu _ _ _ _ _ Hg0 Hf) as [G1 C1].
  cbn [fst enter_phase st] in G1, C1.
  cbv zeta in H.
  set (l1 := record_metrics ph el er w1 l) in H.
  assert (G1' : on_gpu (best_model_wts l1) (w l1)) by exact G1.
  destruct ph; cbn [phase_eqb] in H.
  - assert (K : on_gpu (best_model_wts l1) (w l1)
                /\ best_r2 l1 = best_r2 l
                /\ (detached l -> detached l1 /\ saved l1 = saved l))
      by (split; [exact G1 | split; [reflexivity | exact C1]]).
    destruct H as [-> | ->]; exact K.
  - destruct (after_val_gpu er r l1 G1') as [G2 B2]. cbv zeta in G2, B2.
    change (best_r2 l1) with (best_r2 l) in B2.
    set (l2 := after_val er r l1) in *.
    assert (K : on_gpu (best_model_wts l2) (w l2)
                /\ exists epoch_r2,
                    if (best_r2 l <? epoch_r2)%float
                    then best_r2 l2 = epoch_r2 /\ detached l2 /\ saved l2 = live l2
                    else best_r2 l2 = best_r2 l
                         /\ (detached l -> detached l2 /\ saved l2 = saved l)).
    { split; [exact G2 |]. exists er.
      destruct (best_r2 l <? er)%float; [exact B2 |].
      destruct B2 as (B & Hb & Hs). split; [exact B |].
      intros Hd. unfold saved. rewrite Hb, Hs. apply C1. exact Hd. }
    destruct H as [-> | ->]; exact K.
Qed.

Lemma run_epoch_gpu (dl : per_phase loader) (ds : per_phase Z) (name : string)
      (verbose : bool) (k epoch : Z) (l l' : locals opt_state) :
  on_gpu (best_model_wts l) (w l) ->
  run_epoch dl ds name verbose k l epoch = Ok l' ->
  on_gpu (best_model_wts l') (w l')
  /\ exists epoch_r2,
      if (best_r2 l <? epoch_r2)%float
      then best_r2 l' = epoch_r2 /\ detached l' /\ saved l' = live l'
      else best_r2 l' = best_r2 l
           /\ (detached l -> detached l' /\ saved l' = saved l).
Proof.
  intros Hg H. apply run_epoch_inv in H. destruct H as (l1 & Ht & Hv).
  destruct (@run_phase_gpu _ _ _ _ _ _ _ _ train Hg Ht) as (G1 & B1 & D1).
  destruct (@run_phase_gpu _ _ _ _ _ _ _ _ val G1 Hv) as (G2 & er & K).
  split; [exact G2 |]. exists er. rewrite B1 in K.
  destruct (best_r2 l <? er)%float; [exact K |].
  destruct K as [B2 D2]. split; [congruence |].
  intros Hd. destruct (D1 Hd) as [Hd1 S1]. destruct (D2 Hd1) as [Hd2 S2].
  split; [exact Hd2 | congruence].
Qed.

Lemma run_epochs_gpu (dl : per_phase loader) (ds : per_phase Z) (name : string)
      (verbose : bool) (k n : Z) (w0 : world opt_state) (l : locals opt_state) :
  well_formed (st w0) (model w0) ->
  on_device CUDA (st w0) (state_dict (model w0)) ->
  run_epochs dl ds name n verbose k (init_locals w0) = Ok l ->
  on_gpu (best_model_wts l) (w l).
Proof.
  intros Hwf Hc H. unfold Train.run_epochs in H.
  eapply (@foldM_invariant _ _ (fun l0 => on_gpu (best_model_wts l0) (w l0)));
    [| | exact H].
  - intros a e a' _ Ha Hs. eapply run_epoch_gpu; eauto.
  - unfold on_gpu. cbn. split; [exact Hwf | split; [exact Hc | apply Hwf]].
Qed.

(** X23: with a GPU, when epoch [i] strictly improved the best validation
    R2 and no later epoch improved it again, [train_model] returns the
    parameters as they were at the end of epoch [i]: the snapshot taken on
    the CPU is untouched by the training of the later epochs. *)
Theorem gpu_run_returns_best_epoch_parameters
        (w0 : world opt_state) (dl : per_phase loader) (ds : per_phase Z)
        (name : string) (n : Z) (verbose : bool) (k i : Z)
        (lp li lf : locals opt_state) :
  well_formed (st w0) (model w0) ->
  on_device CUDA (st w0) (state_dict (model w0)) ->
  (1 <= i <= n)%Z ->
  run_epochs dl ds name (i - 1) verbose k (init_locals w0) = Ok lp ->
  run_epochs dl ds name i verbose k (init_locals w0) = Ok li ->
  (best_r2 lp <? best_r2 li)%float = true ->
  train_model w0 dl ds name n verbose k = Ok lf ->
  best_r2 lf = best_r2 li ->
  live lf = live li.
Proof.
  intros Hwf Hc Hi Hp Hli Himp H Hbest.
  apply train_model_inv in H. destruct H as (ln & Hn & ->).
  destruct (finish_keeps name ln) as (_ & _ & _ & Fb & _). rewrite Fb in Hbest.
  (* epoch i takes the snapshot *)
  pose proof (@run_epochs_gpu _ _ _ _ _ _ _ _ Hwf Hc Hp) as Gp.
  assert (Hstep : run_epoch dl ds name verbose k lp i = Ok li).
  { assert (Hs : foldM (run_epoch dl ds name verbose k)
                       (range (i - 1 + 1) (i + 1)) lp = Ok li)
      by (eapply run_epochs_split; [| exact Hp | exact Hli]; lia).
    replace (i - 1 + 1)%Z with i in Hs by lia. rewrite range_one in Hs.
    cbn [foldM] in Hs.
    destruct (run_epoch dl ds name verbose k lp i); cbn [Py.bind] in Hs;
      congruence. }
  destruct (@run_epoch_gpu _ _ _ _ _ _ _ _ Gp Hstep) as (Gi & er & Ki).
  assert (Hi' : number (best_r2 li) /\ detached li /\ saved li = live li).
  { destruct (best_r2 lp <? er)%float eqn:E.
    - destruct Ki as (B & D & S). split; [| auto].
      rewrite B. eapply ltb_number; eauto.
    - destruct Ki as (B & _). rewrite B, ltb_irrefl in Himp. discriminate. }
  destruct Hi' as (Ni & Di & Si).
  (* the later epochs leave it alone *)
  assert (Hs : foldM (run_epoch dl ds name verbose k)
                     (range (i + 1) (n + 1)) li = Ok ln)
    by (eapply run_epochs_split; [| exact Hli | exact Hn]; lia).
  assert (Kn : on_gpu (best_model_wts ln) (w ln)
               /\ number (best_r2 ln)
               /\ (best_r2 li <=? best_r2 ln)%float = true
               /\ (best_r2 ln = best_r2 li -> detached ln /\ saved ln = saved li)).
  { eapply (@foldM_invariant _ _
              (fun l0 => on_gpu (best_model_wts l0) (w l0)
                         /\ number (best_r2 l0)
                         /\ (best_r2 li <=? best_r2 l0)%float = true
                         /\ (best_r2 l0 = best_r2 li ->
                             detached l0 /\ saved l0 = saved li)));
      [| | exact Hs].
    - intros a e a' _ (Ga & Na & La & Da) Hst.
      destruct (@run_epoch_gpu _ _ _ _ _ _ _ _ Ga Hst) as (Ga' & r & K).
      split; [exact Ga' |].
      destruct (best_r2 a <? r)%float eqn:E.
      + destruct K as (B & _). rewrite B.
        split; [eapply ltb_number; eauto |].
        split; [eapply leb_trans; [exact La | now apply ltb_leb] |].
        intros Heq. exfalso. rewrite Heq in E.
        exact (ltb_leb_false E La).
      + destruct K as (B & D). rewrite B.
        split; [exact Na |]. split; [exact La |].
        intros Heq. destruct (Da Heq) as [D1 S1]. destruct (D D1) as [D2 S2].
        split; [exact D2 | congruence].
    - split; [exact Gi |]. split; [exact Ni |].
      split; [now apply leb_refl | auto]. }
  destruct Kn as (_ & _ & _ & Dn). destruct (Dn Hbest) as [_ Sn].
  assert (Hinv : invariant (group (opt w0)) (List.length (body (model w0)))
                           (param_values (st w0) (model w0))
                           (best_model_wts ln) (w ln))
    by (eapply invariant_run_epochs; [apply invariant_init; exact Hwf | exact Hn]).
  destruct (@finish_spec _ _ _ _ name ln Hinv) as (_ & H2 & _).
  unfold live at 1. rewrite H2. fold (saved ln). congruence.
Qed.

End Gpu.

End DeviceFacts.


(** * More on the entry point *)

Module EntryFacts.

Import Torch Train Loader Main Reference Observations.
Import LoopFacts StoreFacts TrainFacts MainFacts CheckpointFacts RunFacts.

Local Open Scope nat_scope.



Lemma new_params_values (dev : device) (vals : list ndarray) :
  forall (s s' : store) (ps : list Param),
    new_params dev vals s = (ps, s') ->
    map (read s') (map p_data ps) = vals
    /\ (forall x, x < next s -> cell s' x = cell s x)
    /\ (forall p, In p ps -> requires_grad p = true).
Proof.
  induction vals as [| v vals IH]; cbn; intros s s' ps H.
  - injection H as <- <-. cbn. repeat split; auto; intros ? [].
  - destruct (new_params dev vals _) as [qs s2] eqn:E.
    injection H as <- <-. destruct (IH _ _ _ E) as (Hv & Hf & Hg).
    cbn [next] in Hf. cbn [map p_data].
    split; [| split].
    + f_equal; [| exact Hv]. unfold read. rewrite Hf by lia. cbn.
      now rewrite Nat.eqb_refl.
    + intros x Hx. rewrite Hf by lia. cbn.
      destruct (Nat.eqb_spec x (next s)); [lia | reflexivity].
    + intros p [<- | Hp]; [reflexivity | now apply Hg].
Qed.



Lemma apply_params_flags (fn : nat -> store -> nat * store) (ps : list Param) :
  forall (s s' : store) (qs : list Param),
    apply_params fn ps s = (qs, s') ->
    map requires_grad qs = map requires_grad ps.
Proof.
  induction ps as [| p ps IH]; cbn; intros s s' qs H.
  - now injection H as <- <-.
  - destruct (fn (p_data p) s) as [a s1].
    destruct (apply_params fn ps s1) as [qs' s2] eqn:E.
    injection H as <- <-. cbn. f_equal. eapply IH; eauto.
Qed.

Lemma flags_of_map (b : bool) (ps qs : list Param) :
  map requires_grad qs = map requires_grad ps ->
  (forall p, In p ps -> requires_grad p = b) ->
  forall q, In q qs -> requires_grad q = b.
Proof.
  intros Hm Hp q Hq. apply (in_map requires_grad) in Hq. rewrite Hm in Hq.
  apply in_map_iff in Hq. destruct Hq as (p & <- & Hin). now apply Hp.
Qed.

Lemma module_to_flags (dev : device) (m m' : module) (s s' : store) :
  module_to dev m s = (m', s') ->
  map requires_grad (body m') = map requires_grad (body m)
  /\ map requires_grad (fc m') = map requires_grad (fc m).
Proof.
  unfold module_to.
  destruct (apply_params (tensor_to dev) (body m) s) as [b s1] eqn:Eb.
  destruct (apply_params (tensor_to dev) (fc m) s1) as [f s2] eqn:Ef.
  intros [= <- <-]. cbn. split; eapply apply_params_flags; eauto.
Qed.

Section Build.

Variable use_gpu : bool.
Variable opt_state : Type.
Variable adam : float -> float -> opt_state.
Variable resnet18_body : list ndarray.
Variable resnet18_fc : list ndarray.
Variable linear_init : nat -> nat -> list ndarray.

Local Abbreviation resnet18 := (resnet18 resnet18_body resnet18_fc).
Local Abbreviation build :=
  (build use_gpu adam resnet18_body resnet18_fc linear_init).

(** The stock network: fresh trainable parameters with the pretrained
    values. *)
Lemma resnet18_spec (m : module) (s : store) :
  resnet18 = (m, s) ->
  well_formed s m
  /\ param_values s m = resnet18_body ++ resnet18_fc
  /\ map (read s) (map p_data (fc m)) = resnet18_fc
  /\ List.length (body m) = List.length resnet18_body
  /\ (forall p, In p (parameters m) -> requires_grad p = true).
Proof.
  unfold Main.resnet18.
  destruct (new_params CPU resnet18_body empty_store) as [b s1] eqn:Eb.
  destruct (new_params CPU resnet18_fc s1) as [f s2] eqn:Ef.
  intros [= <- <-].
  destruct (@new_params_spec _ _ _ _ _ Eb) as [Hb Hn1].
  destruct (@new_params_spec _ _ _ _ _ Ef) as [Hf Hn2].
  destruct (@new_params_values _ _ _ _ _ Eb) as (Vb & _ & Gb).
  destruct (@new_params_values _ _ _ _ _ Ef) as (Vf & Ff & Gf).
  cbn [next empty_store] in *.
  assert (Hsd : state_dict {| body := b; fc := f; training := true |}
                = seq 0 (List.length resnet18_body)
                  ++ seq (List.length resnet18_body) (List.length resnet18_fc)).
  { unfold state_dict, parameters. cbn [body fc].
    rewrite map_app, Hb, Hf, Hn1. reflexivity. }
  assert (Vb2 : map (read s2) (map p_data b) = resnet18_body).
  { transitivity (map (read s1) (map p_data b)); [| exact Vb].
    apply map_ext_in. intros x Hx. unfold read.
    rewrite Ff; [reflexivity |]. rewrite Hb in Hx. apply in_seq in Hx. lia. }
  split; [split |]; [| | split; [| split; [| split]]].
  - rewrite Hsd. apply NoDup_app; try apply seq_NoDup.
    intros x. rewrite !in_seq. lia.
  - unfold allocated. rewrite Hsd, Forall_forall. intros x Hx.
    apply in_app_or in Hx. rewrite !in_seq in Hx. lia.
  - unfold param_values, state_dict, parameters. cbn [body fc].
    now rewrite !map_app, Vb2, Vf.
  - exact Vf.
  - cbn [body]. rewrite <- (length_map p_data), Hb. apply length_seq.
  - unfold parameters. cbn [body fc]. intros p Hp.
    apply in_app_or in Hp. destruct Hp; auto.
Qed.

(** The head replaces the last layer: the body's values stay, the new head
    holds its initial values and is trainable. *)
Lemma replace_head_values (a : args) (m m2 : module) (s s4 : store) :
  replace_head linear_init a m s = (m2, s4) ->
  allocated s (map p_data (body m)) ->
  param_values s4 m2
  = map (read s) (map p_data (body m))
    ++ linear_init (in_features (map (read s) (map p_data (fc m)))) 1
  /\ map requires_grad (body m2)
     = map requires_grad (if fine_tune a then body m else freeze (body m))
  /\ (forall p, In p (fc m2) -> requires_grad p = true).
Proof.
  unfold replace_head.
  assert (Hn : match fc (if negb (fine_tune a)
                         then {| body := freeze (body m); fc := freeze (fc m);
                                 training := training m |}
                         else m) with
               | weight :: _ => nth 1 (shape (read s (p_data weight))) 0
               | [] => 0
               end
               = in_features (map (read s) (map p_data (fc m)))).
  { unfold in_features. destruct (fine_tune a); cbn; now destruct (fc m). }
  rewrite Hn.
  destruct (new_params CPU _ s) as [head s5] eqn:Eh.
  intros [= <- <-] Ha.
  destruct (@new_params_values _ _ _ _ _ Eh) as (Vh & Fh & Gh).
  split; [| split].
  - unfold param_values, state_dict, parameters. cbn [body fc].
    rewrite !map_app, Vh. f_equal.
    replace (map p_data (body (if negb (fine_tune a)
                               then {| body := freeze (body m);
                                       fc := freeze (fc m);
                                       training := training m |}
                               else m)))
      with (map p_data (body m))
      by (destruct (fine_tune a); cbn; now rewrite ?freeze_data).
    apply map_ext_in. intros x Hx. unfold read. rewrite Fh; [reflexivity |].
    unfold allocated in Ha. rewrite Forall_forall in Ha. now apply Ha.
  - cbn [body]. now destruct (fine_tune a).
  - cbn [fc]. exact Gh.
Qed.

(** What [build] makes of the store [s3] that the optional preload left. *)
Lemma build_inv (a : args) (files : filesystem) (w0 : world opt_state) :
  build a files = Ok w0 ->
  exists s3,
    preload a files (fst resnet18) (snd resnet18) = Ok s3
    /\ next s3 = next (snd resnet18)
    /\ param_values (st w0) (model w0)
       = map (read s3) (map p_data (body (fst resnet18)))
         ++ linear_init
              (in_features (map (read s3) (map p_data (fc (fst resnet18))))) 1
    /\ (forall p, In p (body (model w0)) -> requires_grad p = fine_tune a)
    /\ (forall p, In p (fc (model w0)) -> requires_grad p = true)
    /\ fs w0 = files.
Proof.
  unfold Main.build.
  destruct resnet18 as [m s2] eqn:Er. cbn [fst snd].
  destruct (resnet18_spec Er) as ([Hnd Ha] & _ & _ & _ & Hg).
  destruct (preload a files m s2) as [s3 |] eqn:Ep; cbn [Py.bind];
    [| discriminate].
  pose proof (@preload_next _ _ _ _ _ Ep) as Hn3.
  destruct (replace_head linear_init a m s3) as [m2 s4] eqn:Eh.
  assert (Ha3 : allocated s3 (map p_data (body m))).
  { unfold allocated in *. rewrite Forall_forall in *. intros x Hx.
    rewrite Hn3. apply Ha. unfold state_dict, parameters.
    rewrite map_app. apply in_or_app. now left. }
  destruct (@replace_head_values _ _ _ _ _ Eh Ha3) as (Hv & Hfl & Hh).
  assert (Hbody : forall p, In p (body m2) -> requires_grad p = fine_tune a).
  { eapply flags_of_map; [exact Hfl |].
    destruct (fine_tune a).
    - intros p Hp. apply Hg. unfold parameters. apply in_or_app. now left.
    - unfold freeze. intros p Hp. apply in_map_iff in Hp.
      now destruct Hp as (q & <- & _). }
  intros H. exists s3. split; [reflexivity |]. split; [exact Hn3 |].
  destruct use_gpu.
  - destruct (module_to CUDA m2 s4) as [m3 s5] eqn:Em.
    injection H as <-. cbn [st model fs].
    destruct (@replace_head_spec _ _ _ _ _ _ Eh) as (k & Hsd & Hn4).
    assert (Ha4 : allocated s4 (state_dict m2)).
    { unfold allocated. rewrite Hsd, Forall_forall. intros x Hx.
      apply in_app_or in Hx. destruct Hx as [Hx | Hx].
      - unfold allocated in Ha3. rewrite Forall_forall in Ha3.
        specialize (Ha3 _ Hx). lia.
      - apply in_seq in Hx. lia. }
    destruct (@module_to_spec _ _ _ _ _ Em Ha4) as (_ & Hv5 & _).
    destruct (@module_to_flags _ _ _ _ _ Em) as [Fb Ff].
    rewrite Hv5. split; [exact Hv |].
    split; [eapply flags_of_map; eauto |].
    split; [eapply flags_of_map; eauto | reflexivity].
  - injection H as <-. cbn [st model fs]. auto.
Qed.

(** X25: after [build] the parameters of the new head require gradients,
    and the parameters of the backbone require them exactly when
    [fine_tune] is set: the head is created after the freeze. *)
Theorem head_is_trainable_backbone_as_fine_tune
        (a : args) (files : filesystem) (w0 : world opt_state) :
  build a files = Ok w0 ->
  (forall p, In p (body (model w0)) -> requires_grad p = fine_tune a)
  /\ (forall p, In p (fc (model w0)) -> requires_grad p = true).
Proof.
  intros H. apply build_inv in H.
  destruct H as (s3 & _ & _ & _ & Hb & Hf & _). auto.
Qed.

(** X26: without [--preload-model], [build] cannot fail: the model starts
    from the pretrained values of the backbone and from the initial values
    of a new linear layer with as many inputs as the pretrained last layer
    and one output, with or without a GPU, and no file is written.  The
    constructor of the optimizer is taken to accept any learning rate and
    weight decay. *)
Theorem build_without_preload
        (a : args) (files : filesystem) :
  truthy (preload_model a) = false ->
  exists w0,
    build a files = Ok w0
    /\ param_values (st w0) (model w0)
       = resnet18_body ++ linear_init (in_features resnet18_fc) 1
    /\ fs w0 = files.
Proof.
  intros Ht.
  assert (Hok : exists w0, build a files = Ok w0).
  { unfold Main.build. destruct resnet18 as [m s2].
    unfold preload. rewrite Ht. cbn [Py.bind].
    destruct (replace_head linear_init a m s2) as [m2 s4].
    destruct use_gpu; [destruct (module_to CUDA m2 s4) |]; eauto. }
  destruct Hok as [w0 H]. exists w0. split; [exact H |].
  apply build_inv in H. destruct H as (s3 & Hp & _ & Hv & _ & _ & Hfs).
  split; [| exact Hfs].
  unfold preload in Hp. rewrite Ht in Hp. injection Hp as <-.
  destruct resnet18 as [m s2] eqn:Er. cbn [fst snd] in Hv.
  destruct (resnet18_spec Er) as (_ & Hpv & Hfc & Hlen & _).
  rewrite Hv, Hfc. f_equal.
  change (map (read s2) (map p_data (body m))) with (body_values s2 m).
  rewrite body_values_firstn, Hpv, Hlen.
  rewrite firstn_app, Nat.sub_diag, firstn_all. cbn [firstn].
  apply app_nil_r.
Qed.



End Build.

Section EntryPoint.

Variable use_gpu : bool.
Variable home_dir : string.
Variable ctime : string.
Variable run_dir_exists : string -> bool.
Variable dataset : Type.
Variable construct : dataset_class -> adapter_args -> result dataset.
Variable len : dataset -> Z.
Variable image_batch : Type.
Variable iterate : DataLoader dataset -> Z -> list (batch image_batch).
Variable forward : bool -> list ndarray -> image_batch -> ndarray.
Variable criterion : ndarray -> ndarray -> float.
Variable opt_state : Type.
Variable descend : opt_state -> list ndarray -> batch image_batch -> nat -> ndarray.
Variable advance : opt_state -> list ndarray -> batch image_batch -> opt_state.
Variable plateau : float -> opt_state -> opt_state.
Variable r2_score : list pyval -> list pyval -> result float.
Variable adam : float -> float -> opt_state.
Variable resnet18_body : list ndarray.
Variable resnet18_fc : list ndarray.
Variable linear_init : nat -> nat -> list ndarray.

Local Abbreviation main :=
  (main use_gpu home_dir ctime run_dir_exists construct len iterate forward
        criterion descend advance plateau r2_score adam resnet18_body
        resnet18_fc linear_init).
Local Abbreviation build :=
  (build use_gpu adam resnet18_body resnet18_fc linear_init).
Local Abbreviation run_epochs :=
  (run_epochs use_gpu forward criterion descend advance plateau r2_score iterate).
Local Abbreviation model_name := (model_name ctime).

(** X29: when the entry point returns, the model file of the run directory
    holds the parameters of the returned model, which are the values of
    [best_model_wts] after the last epoch: the entry point's own save
    replaces the model file that the final checkpoint wrote before the
    restore. *)
Theorem main_saves_the_restored_model
        (a : args) (files : filesystem) (lm : locals opt_state) (log : calls) :
  main a files = (Ok lm, log) ->
  exists w0 dataloaders dataset_sizes l,
    load_dataset construct len
                 ("../data/" ++ format (data_subdir a) ++ "/train.csv")%string
                 ("../data/" ++ format (data_subdir a) ++ "/valid.csv")%string
                 (home_dir ++ "/imagery")%string (home_dir ++ "/imagery")%string
                 (country a) (label a) (sat_type a) (year a) (batch_size a)
                 (train_frac a)
    = (Ok (dataloaders, dataset_sizes), log)
    /\ build a files = Ok w0
    /\ run_epochs dataloaders dataset_sizes (model_name a) (epochs a)
                  (verbose a) (log_epoch_interval a) (init_locals w0) = Ok l
    /\ live lm = saved l
    /\ load (Path (model_name a) "" "saved_model.model") (fs (w lm))
       = Some (StateDict (saved l)).
Proof.
  unfold Main.main.
  destruct (run_dir_exists _); [discriminate |].
  destruct (load_dataset _ _ _ _ _ _ _ _ _ _ _ _) as [[[dl dsz] | e] lg];
    [| discriminate].
  destruct (build a files) as [w0 |] eqn:Eb; cbn [Py.bind]; [| discriminate].
  destruct (train_model _ _ _ _ _ _ _ _ _ _ _ _ _ _ _) as [lf |] eqn:Et;
    cbn [Py.bind]; [| discriminate].
  intros [= <- <-].
  destruct (@build_well_formed _ _ _ _ _ _ _ _ _ Eb) as [Hwf _].
  apply train_model_inv in Et. destruct Et as (l & Hl & ->).
  assert (Hinv : invariant (group (opt w0)) (List.length (body (model w0)))
                           (param_values (st w0) (model w0))
                           (best_model_wts l) (w l))
    by (eapply invariant_run_epochs; [apply invariant_init; exact Hwf | exact Hl]).
  destruct (@finish_spec _ _ _ _ (model_name a) l Hinv) as (_ & H2 & _).
  exists w0, dl, dsz, l. split; [reflexivity |].
  split; [reflexivity |]. split; [exact Hl |].
  unfold live, saved. cbn [w st model fs]. split; [exact H2 |].
  cbn [load save]. rewrite path_eqb_refl. now rewrite H2.
Qed.

(** X30: when [--data-subdir] is not given, the manifests are looked up in
    the directory named "None": the train adapter, the first one built, is
    given the manifest "../data/None/train.csv". *)
Theorem missing_data_subdir_reads_directory_None
        (a : args) (files : filesystem) (cls : dataset_class) :
  data_subdir a = None ->
  run_dir_exists (model_name a) = false ->
  select_class (country a) = Ok cls ->
  exists rest,
    snd (main a files)
    = (cls,
       AdapterArgs "../data/None/train.csv" (home_dir ++ "/imagery")
                   (label a) (get (data_transforms (sat_type a)) train)
                   (sat_type a) (year a) (train_frac a)) :: rest.
Proof.
  intros Hd Hr Hc. unfold Main.main. rewrite Hr, Hd.
  unfold load_dataset, new_dataset. rewrite Hc. cbv zeta.
  cbn [format String.append app].
  destruct (construct cls _) as [d1 |]; [| eexists; reflexivity].
  destruct (construct cls _) as [d2 |]; [| eexists; reflexivity].
  eexists; reflexivity.
Qed.

End EntryPoint.

End EntryFacts.


(** * The properties above, at the small instance *)

Module MoreDemoFacts.

Import Torch Train Loader Main Reference Demo Observations.
Import DemoFacts.

Lemma pair_of_ok {A B : Type} (d : A) (m : result A * B) :
  is_ok (fst m) = true -> m = (Ok (value d (fst m)), snd m).
Proof. destruct m as [[a | e] b]; [reflexivity | discriminate]. Qed.

Lemma final_is_trained (use_gpu : bool) :
  train_model use_gpu forward criterion descend advance plateau r2_score
              iterate (start use_gpu) dataloaders dataset_sizes "demo" 2
              false 20
  = Ok (final use_gpu).
Proof.
  rewrite <- trained_run. apply value_of_ok. now destruct use_gpu; vm_compute.
Qed.

Lemma after_epochs_run (use_gpu : bool) (n : Z) :
  is_ok (epochs_of use_gpu n) = true ->
  run_epochs use_gpu forward criterion descend advance plateau r2_score iterate
             dataloaders dataset_sizes "demo" n false 20
             (init_locals (start use_gpu))
  = Ok (after_epochs use_gpu n).
Proof. intros H. rewrite <- epochs_of_run. now apply value_of_ok. Qed.



Lemma start_on_gpu :
  on_device CUDA (st (start true)) (state_dict (model (start true))).
Proof. unfold on_device. vm_compute. repeat constructor. Qed.

Lemma pair_batch_regular : regular forward 2 pair_batch.
Proof. split; [reflexivity | intros mode ws; reflexivity]. Qed.


(** X7, at the run without a GPU. *)
Lemma quiet_run_writes_final_checkpoint_only_witness :
  exists l,
    run_epochs false forward criterion descend advance plateau r2_score iterate
               dataloaders dataset_sizes "demo" 2 false 20
               (init_locals (start false)) = Ok l
    /\ fs (w l) = fs (start false)
    /\ fs (w (final false)) = checkpoint "demo" None l ++ fs (start false).
Proof.
  eapply RunFacts.quiet_run_writes_final_checkpoint_only.
  apply final_is_trained.
Defined.

(** X8, at the model file of another run, below the home directory
    [/home/u]. *)
Lemma train_model_keeps_other_runs_witness :
  load (Path "other" "" "saved_model.model") (fs (w (final true)))
  = load (Path "other" "" "saved_model.model") (fs (start true))
  /\ load_at "/home/u"
             (location "/home/u" (Path "other" "" "saved_model.model"))
             (fs (w (final true)))
     = load_at "/home/u"
               (location "/home/u" (Path "other" "" "saved_model.model"))
               (fs (start true)).
Proof.
  eapply RunFacts.train_model_keeps_other_runs.
  4: apply (final_is_trained true).
  - reflexivity.
  - reflexivity.
  - discriminate.
Defined.

(** X9, at the demo run with [verbose] and a logging interval of zero. *)
Lemma zero_log_interval_raises_witness :
  exists msg,
    train_model false forward criterion descend advance plateau r2_score
                iterate (start false) dataloaders dataset_sizes "demo" 2 true 0
    = Raise (ZeroDivisionError msg).
Proof.
  eapply RunFacts.zero_log_interval_raises.
  - lia.
  - reflexivity.
  - reflexivity.
  - reflexivity.
Defined.

(** X10, at an empty training set. *)
Lemma zero_dataset_size_raises_witness :
  exists msg,
    train_model false forward criterion descend advance plateau r2_score
                iterate (start false) (PerPhase [] [pair_batch; pair_batch])
                (PerPhase 0%Z 4%Z) "demo" 2 false 20
    = Raise (ZeroDivisionError msg).
Proof.
  apply RunFacts.zero_dataset_size_raises.
  - lia.
  - reflexivity.
  - reflexivity.
Defined.

(** X11, at zero epochs. *)
Lemma no_epochs_returns_the_model_as_given_witness :
  exists lf,
    train_model false forward criterion descend advance plateau r2_score
                iterate (start false) dataloaders dataset_sizes "demo" 0
                false 20 = Ok lf
    /\ param_values (st (w lf)) (model (w lf))
       = param_values (st (start false)) (model (start false))
    /\ losses lf = PerPhase [] [] /\ r2s lf = PerPhase [] []
    /\ best_r2 lf = neg_infinity
    /\ best_y_pred lf = [] /\ best_y_true lf = []
    /\ fs (w lf)
       = checkpoint "demo" None (init_locals (start false)) ++ fs (start false).
Proof.
  apply RunFacts.no_epochs_returns_the_model_as_given.
  - lia.
  - apply start_well_formed.
Defined.

(** X12, at the validation histories after two epochs. *)
Lemma one_history_entry_per_epoch_witness :
  List.length (get (losses (after_epochs false 2)) val) = Z.to_nat 2
  /\ List.length (get (r2s (after_epochs false 2)) val) = Z.to_nat 2.
Proof.
  eapply RunFacts.one_history_entry_per_epoch.
  apply after_epochs_run. now vm_compute.
Defined.

(** X13, at the validation histories of the first and the second epoch. *)
Lemma histories_are_append_only_witness :
  exists more_losses more_r2s,
    get (losses (after_epochs false 2)) val
    = get (losses (after_epochs false 1)) val ++ more_losses
    /\ get (r2s (after_epochs false 2)) val
       = get (r2s (after_epochs false 1)) val ++ more_r2s
    /\ List.length more_losses = Z.to_nat (2 - 1)
    /\ List.length more_r2s = Z.to_nat (2 - 1).
Proof.
  eapply RunFacts.histories_are_append_only.
  - lia.
  - apply after_epochs_run. now vm_compute.
  - apply after_epochs_run. now vm_compute.
Defined.

(** X14, at two epochs. *)
Lemma best_r2_bounds_validation_history_witness :
  (forall r, In r (get (r2s (after_epochs false 2)) val) ->
             (best_r2 (after_epochs false 2) <? r)%float = false)
  /\ (best_r2 (after_epochs false 2) = neg_infinity
      \/ In (best_r2 (after_epochs false 2))
            (get (r2s (after_epochs false 2)) val)).
Proof.
  eapply RunFacts.best_r2_bounds_validation_history.
  apply after_epochs_run. now vm_compute.
Defined.

(** X15, at two epochs. *)
Lemma best_r2_is_the_score_of_the_best_lists_witness :
  (best_r2 (after_epochs false 2) = neg_infinity
   /\ best_y_true (after_epochs false 2) = []
   /\ best_y_pred (after_epochs false 2) = [])
  \/ (r2_score (best_y_true (after_epochs false 2))
               (best_y_pred (after_epochs false 2))
      = Ok (best_r2 (after_epochs false 2))
      /\ best_r2 (after_epochs false 2) <> neg_infinity).
Proof.
  eapply RunFacts.best_r2_is_the_score_of_the_best_lists.
  apply after_epochs_run. now vm_compute.
Defined.

(** X16, at the run with a GPU. *)
Lemma returned_model_is_in_eval_mode_witness :
  training (model (w (final true))) = false.
Proof.
  eapply RunFacts.returned_model_is_in_eval_mode.
  all: try apply (final_is_trained true).
  lia.
Defined.

(** X17, at the first validation phase on the GPU. *)
Lemma scheduler_steps_on_recorded_val_loss_witness :
  exists epoch_loss,
    get (losses first_val_phase) val
    = get (losses (init_locals (start true))) val ++ [epoch_loss]
    /\ o_state (opt (w first_val_phase))
       = plateau epoch_loss (o_state (opt (w (init_locals (start true)))))
    /\ group (opt (w first_val_phase))
       = group (opt (w (init_locals (start true)))).
Proof.
  eapply RunFacts.scheduler_steps_on_recorded_val_loss.
  apply value_of_ok. now vm_compute.
Defined.

(** X18, at the backbone's parameter, which the demo's optimizer was not
    given. *)
Lemma parameters_outside_the_group_are_kept_witness :
  nth_error (param_values (st (w (final true))) (model (w (final true)))) 0
  = nth_error (param_values (st (start true)) (model (start true))) 0.
Proof.
  eapply RunFacts.parameters_outside_the_group_are_kept.
  all: try apply (final_is_trained true).
  - apply start_well_formed.
  - vm_compute. intuition discriminate.
Defined.

(** X19, at the two validation batches of the demo. *)
Lemma regular_batches_are_collected_witness :
  exists w1 r,
    foldM (batch_step forward criterion descend advance val)
          [pair_batch; pair_batch] (enter_phase val (start false))
    = Ok (w1, r)
    /\ List.length (y_true r) = samples [pair_batch; pair_batch]
    /\ List.length (y_pred r) = samples [pair_batch; pair_batch].
Proof.
  apply RunFacts.regular_batches_are_collected.
  intros data [<- | [<- | []]]; exists 2%nat;
    (split; [discriminate | apply pair_batch_regular]).
Defined.

(** X21, at the run with a GPU. *)
Lemma returned_model_is_on_the_cpu_witness :
  on_device CPU (st (w (final true))) (state_dict (model (w (final true)))).
Proof.
  eapply DeviceFacts.returned_model_is_on_the_cpu.
  all: try apply (final_is_trained true).
  apply start_well_formed.
Defined.

(** X22, at the run without a GPU: epoch 1 is the best epoch, and the
    returned parameters are those of epoch 2. *)
Lemma cpu_run_returns_last_epoch_parameters_witness :
  exists l,
    run_epochs false forward criterion descend advance plateau r2_score iterate
               dataloaders dataset_sizes "demo" 2 false 20
               (init_locals (start false)) = Ok l
    /\ best_model_wts l = state_dict (model (w l))
    /\ live (final false) = live l.
Proof.
  eapply DeviceFacts.cpu_run_returns_last_epoch_parameters.
  - apply start_well_formed.
  - apply (final_is_trained false).
Defined.

(** X23, at the run with a GPU: epoch 1 is the best epoch, and the returned
    parameters are those of epoch 1. *)
Lemma gpu_run_returns_best_epoch_parameters_witness :
  live (final true) = live (after_epochs true 1).
Proof.
  eapply (@DeviceFacts.gpu_run_returns_best_epoch_parameters
            _ forward criterion _ descend advance plateau r2_score _ iterate
            (start true) dataloaders dataset_sizes "demo" 2%Z false 20%Z 1%Z
            (after_epochs true 0) (after_epochs true 1) (final true)).
  - apply start_well_formed.
  - apply start_on_gpu.
  - lia.
  - change (1 - 1)%Z with 0%Z. apply after_epochs_run. now vm_compute.
  - apply after_epochs_run. now vm_compute.
  - now vm_compute.
  - apply final_is_trained.
  - now vm_compute.
Defined.


(** X25, at the demo arguments, which switch fine-tuning off. *)
Lemma head_is_trainable_backbone_as_fine_tune_witness :
  (forall p, In p (body (model (start true))) -> requires_grad p = false)
  /\ (forall p, In p (fc (model (start true))) -> requires_grad p = true).
Proof.
  apply (@EntryFacts.head_is_trainable_backbone_as_fine_tune
           true unit (fun _ _ => tt) resnet18_body resnet18_fc linear_init
           demo_args [] (start true)).
  apply (world0_ok true).
Defined.

(** X26, at the demo arguments, which preload nothing. *)
Lemma build_without_preload_witness :
  exists w0,
    build true (fun _ _ => tt) resnet18_body resnet18_fc linear_init
          demo_args [] = Ok w0
    /\ param_values (st w0) (model w0)
       = resnet18_body ++ linear_init (in_features resnet18_fc) 1
    /\ fs w0 = [].
Proof.
  apply (@EntryFacts.build_without_preload
           true unit (fun _ _ => tt) resnet18_body resnet18_fc linear_init
           demo_args []).
  reflexivity.
Defined.



(** X29, at the entry point run on the demo. *)
Lemma main_saves_the_restored_model_witness :
  exists w0 dataloaders dataset_sizes l,
    load_dataset construct len "../data/None/train.csv" "../data/None/valid.csv"
                 "/home/user/imagery" "/home/user/imagery" "india"
                 "secc_cons_per_cap_scaled" "s1" 2015 2 1%float
    = (Ok (dataloaders, dataset_sizes), snd demo_main)
    /\ build true (fun _ _ => tt) resnet18_body resnet18_fc linear_init
          demo_args [] = Ok w0
    /\ run_epochs true forward criterion descend advance plateau r2_score
                  demo_iterate dataloaders dataset_sizes
                  (model_name "Mon Jan  1 00:00:00 2018" demo_args)
                  (epochs demo_args) (verbose demo_args)
                  (log_epoch_interval demo_args) (init_locals w0) = Ok l
    /\ live demo_main_locals = saved l
    /\ load (Path (model_name "Mon Jan  1 00:00:00 2018" demo_args) ""
                  "saved_model.model")
            (fs (w demo_main_locals))
       = Some (StateDict (saved l)).
Proof.
  eapply (@EntryFacts.main_saves_the_restored_model
            true "/home/user" "Mon Jan  1 00:00:00 2018" (fun _ => false)
            _ construct len _ demo_iterate forward criterion _ descend advance
            plateau r2_score (fun _ _ => tt) resnet18_body resnet18_fc
            linear_init demo_args [] demo_main_locals (snd demo_main)).
  apply (pair_of_ok (init_locals nowhere) demo_main). now vm_compute.
Defined.

(** X30, at the demo arguments, which give no data subdirectory. *)
Lemma missing_data_subdir_reads_directory_None_witness :
  exists rest,
    snd demo_main
    = (IndiaDataset,
       AdapterArgs "../data/None/train.csv" "/home/user/imagery"
                   "secc_cons_per_cap_scaled"
                   (get (data_transforms "s1") train) "s1" 2015 1%float)
        :: rest.
Proof.
  apply (@EntryFacts.missing_data_subdir_reads_directory_None
           true "/home/user" "Mon Jan  1 00:00:00 2018" (fun _ => false)
           _ construct len _ demo_iterate forward criterion _ descend advance
           plateau r2_score (fun _ _ => tt) resnet18_body resnet18_fc
           linear_init demo_args [] IndiaDataset);
    reflexivity.
Defined.

End MoreDemoFacts.
